(** * Vita3K https module: resumable, checksum-verified downloader

    Shallow embedding of the functions of namespace [https]: the transport
    opener [init], the header parsers [get_file_size] and [get_content_md5],
    the digest renderer [convert_md5_bytes_to_str], the fetchers
    [get_web_response] and [get_web_regex_result], and the orchestrator
    [download_file].

    Conventions.
    - A [std::string] is a [list ascii] (type [str]); literals go through [lit].
    - [unsigned char], [uint32_t], [uint64_t] and [size_t] values are [Z]
      with the wrap-around written out.
    - Calls into the operating system, OpenSSL and the GUI callback are
      answered by explicit oracles; everything observable the code does is
      appended to an event trace.
    - A path of the C++ code that leaves defined behaviour or unwinds with an
      exception is an [Abort] outcome, never a silent default. *)

From Stdlib Require Import List ZArith Lia Bool Ascii String DecimalString.
From Stdlib Require Decimal DecimalPos DecimalN.
Import ListNotations.

Open Scope Z_scope.

(** ** Strings *)

Definition str := list ascii.

Definition lit (s : string) : str := list_ascii_of_string s.

Definition CR : ascii := ascii_of_nat 13.
Definition LF : ascii := ascii_of_nat 10.
Definition CRLF : str := [CR; LF].

Definition str_eqb (a b : str) : bool :=
  if list_eq_dec ascii_dec a b then true else false.

(** [s.compare(0, p.size(), p) == 0]: [p] is a prefix of [s]. *)
Fixpoint starts_with (p s : str) : bool :=
  match p, s with
  | [], _ => true
  | _ :: _, [] => false
  | a :: p', b :: s' => Ascii.eqb a b && starts_with p' s'
  end.

(** [std::string::find(pat)]: index of the first occurrence, [None] for
    [npos]. *)
Fixpoint find (pat s : str) {struct s} : option nat :=
  match s with
  | [] => if starts_with pat [] then Some 0%nat else None
  | _ :: s' =>
      if starts_with pat s then Some 0%nat else option_map S (find pat s')
  end.

(** [std::string::find(pat, pos)]. *)
Definition find_from (pat s : str) (pos : nat) : option nat :=
  if (pos <=? List.length s)%nat
  then option_map (fun k => (pos + k)%nat) (find pat (skipn pos s))
  else None.

(** [std::string::substr(pos, n)] for [pos <= size()]. *)
Definition substr (s : str) (pos n : nat) : str := firstn n (skipn pos s).

(** [s.find(pat) != std::string::npos]. *)
Definition contains (pat s : str) : bool :=
  match find pat s with Some _ => true | None => false end.

(** [std::to_string] on an unsigned integer. *)
Definition to_string (n : Z) : str :=
  lit (NilZero.string_of_uint (N.to_uint (Z.to_N n))).

(** ** URL parsing (the block "Parse URL to get host and uri" of [init]) *)

Definition parse_url (url : str) : str * str :=
  match find (lit "://") url with
  | Some start0 =>
      let start := (start0 + 3)%nat in
      match find_from (lit "/") url start with
      | Some e => (substr url start (e - start), skipn e url)
      | None => (skipn start url, lit "/")
      end
  | None => ([], [])
  end.

(** ** Request text (the block "Send HTTP GET request" of [init]) *)

Definition build_request (method uri host : str) (downloaded_file_size : Z)
  : str :=
  let request := method ++ lit " " ++ uri ++ lit " HTTP/1.1" ++ CRLF in
  let request := request ++ lit "Host: " ++ host ++ CRLF in
  let request :=
    if 0 <? downloaded_file_size
    then (request ++ lit "Accept-Ranges: bytes" ++ CRLF)
           ++ lit "Range: bytes=" ++ to_string downloaded_file_size
           ++ lit "-" ++ CRLF
    else request in
  let request := request ++ lit "User-Agent: OpenSSL/1.1.1" ++ CRLF in
  request ++ lit "Connection: close" ++ CRLF ++ CRLF.

(** ** Transport: [struct Https] and [init] *)

Inductive SSL_ptr := nullptr | SSL_obj.

Record Https := { ssl : SSL_ptr; sockfd : Z }.

(** [Https{}]: the value of every [return {};]. *)
Definition Https_default : Https := {| ssl := nullptr; sockfd := 0 |}.

Inductive Resource := SSL_CTX | Socket | AddrInfo | SSL_handle.

(** The log lines of the module, named after what they report. *)
Inductive Msg :=
| CtxCreateFailed | SocketFailed | ResolveFailed | GetaddrinfoError
| ConnectFailed | GetsockoptFailed | SocketNotConnected
| HandshakeFailed | SendFailed
| NotFound404 | HeaderFetchFailed | RedirectHeaderFetchFailed
| NoRedirectLocation | NoContentMD5 | NoFileSize | HeaderReadShort
| SizeMismatch | CanceledByUser | OpenForHashFailed | Corrupted.

Inductive Event :=
| Acquire (r : Resource)          (* a resource was obtained *)
| Release (r : Resource)          (* a resource was given back *)
| Resolved (host : str)           (* getaddrinfo produced an address *)
| Connected                       (* connect() succeeded *)
| Verified                        (* SO_ERROR read back as 0 *)
| Handshaken                      (* SSL_connect succeeded *)
| Sent (request : str)            (* SSL_write accepted the request *)
| Open (url method : str) (offset : Z)   (* init was entered *)
| LogError (m : Msg)
| LogWarn (m : Msg)
| OpenAppend (path : str) (ok : bool)    (* std::ofstream(path, app|binary) *)
| FileWrite (path : str) (data : str)
| FileRemove (path : str)
| Sleep
| Progress (k : nat).             (* k-th call of progress_callback *)

(** What the operating system and OpenSSL answer to the calls of one [init]. *)
Record InitOracle := {
  o_ctx : bool;          (* SSL_CTX_new returned non-null *)
  o_socket : Z;          (* socket() *)
  o_gai_ret : Z;         (* getaddrinfo() *)
  o_gai_result : bool;   (* getaddrinfo stored a non-null result *)
  o_connect : Z;         (* connect() *)
  o_getsockopt : Z;      (* getsockopt() *)
  o_so_error : Z;        (* the SO_ERROR value it stored *)
  o_ssl_connect : Z;     (* SSL_connect() *)
  o_ssl_write : Z        (* SSL_write() *)
}.

(** [init] (POSIX branch of the [#ifdef WIN32]s).  [SSL_new] is taken to
    succeed, as the code does: its result is used unchecked. *)
Definition init (o : InitOracle) (url method : str)
  (downloaded_file_size : Z) : Https * list Event :=
  if negb (o_ctx o) then (Https_default, [LogError CtxCreateFailed]) else
  let t := [Acquire SSL_CTX] in
  let sockfd := o_socket o in
  if sockfd <? 0 then
    (Https_default, t ++ [LogError SocketFailed; Release SSL_CTX]) else
  let t := t ++ [Acquire Socket] in
  let '(host, uri) := parse_url url in
  let ret := o_gai_ret o in
  let result := o_gai_result o in
  if (ret <? 0) || negb result then
    (Https_default,
     t ++ (if negb result then [LogError ResolveFailed]
           else [Acquire AddrInfo; LogError GetaddrinfoError;
                 Release AddrInfo])
       ++ [Release SSL_CTX; Release Socket]) else
  let t := t ++ [Acquire AddrInfo; Resolved host] in
  if o_connect o <? 0 then
    (Https_default,
     t ++ [LogError ConnectFailed;
           Release AddrInfo; Release SSL_CTX; Release Socket]) else
  let t := t ++ [Connected] in
  if o_getsockopt o <? 0 then
    (Https_default,
     t ++ [LogError GetsockoptFailed;
           Release AddrInfo; Release SSL_CTX; Release Socket]) else
  if negb (o_so_error o =? 0) then
    (Https_default,
     t ++ [LogError SocketNotConnected;
           Release AddrInfo; Release SSL_CTX; Release Socket]) else
  let t := t ++ [Verified; Acquire SSL_handle] in
  if o_ssl_connect o <=? 0 then
    (Https_default,
     t ++ [LogError HandshakeFailed; Release AddrInfo; Release SSL_CTX;
           Release SSL_handle; Release Socket]) else
  let t := t ++ [Handshaken] in
  let request := build_request method uri host downloaded_file_size in
  if o_ssl_write o <=? 0 then
    (Https_default,
     t ++ [Release AddrInfo; Release SSL_CTX; Release SSL_handle;
           Release Socket; LogError SendFailed]) else
  let t := t ++ [Sent request] in
  ({| ssl := SSL_obj; sockfd := sockfd |},
   t ++ [Release AddrInfo; Release SSL_CTX]).

(** Resources of a trace that were obtained and not given back. *)
Definition Resource_eqb (a b : Resource) : bool :=
  match a, b with
  | SSL_CTX, SSL_CTX | Socket, Socket | AddrInfo, AddrInfo
  | SSL_handle, SSL_handle => true
  | _, _ => false
  end.

Fixpoint remove_one (r : Resource) (l : list Resource) : list Resource :=
  match l with
  | [] => []
  | x :: l' => if Resource_eqb r x then l' else x :: remove_one r l'
  end.

Fixpoint held_from (held : list Resource) (t : list Event) : list Resource :=
  match t with
  | [] => held
  | Acquire r :: t' => held_from (held ++ [r]) t'
  | Release r :: t' => held_from (remove_one r held) t'
  | _ :: t' => held_from held t'
  end.

Definition held (t : list Event) : list Resource := held_from [] t.

(** The setup milestones of a trace, in the order they were reached. *)
Definition is_milestone (e : Event) : bool :=
  match e with
  | Acquire Socket | Resolved _ | Connected | Verified | Handshaken
  | Sent _ => true
  | _ => false
  end.

Definition milestones (t : list Event) : list Event := filter is_milestone t.

(** ** Outcomes *)

(** Ways a call leaves the function without a [return]. *)
Inductive Failure :=
| LengthError   (* std::length_error from std::string(ptr, n) *)
| OutOfRange    (* std::out_of_range from std::stoll *)
| OutOfBounds.  (* access past the end of a buffer *)

Inductive Res (A : Type) := Ret (a : A) | Abort (f : Failure).
Arguments Ret {A} a.
Arguments Abort {A} f.

(** ** Header parsing *)

Definition code (c : ascii) : nat := nat_of_ascii c.

Definition in_range (lo hi : nat) (c : ascii) : bool :=
  ((lo <=? code c) && (code c <=? hi))%nat.

(** [::isdigit], also the class [\d]. *)
Definition isdigit (c : ascii) : bool := in_range 48 57 c.

(** [std::isspace] in the "C" locale, also the class [\s]. *)
Definition isspace (c : ascii) : bool :=
  in_range 9 13 c || (code c =? 32)%nat.

(** The class [[-A-Za-z0-9+/=]]. *)
Definition md5_class (c : ascii) : bool :=
  (code c =? 45)%nat || in_range 65 90 c || in_range 97 122 c
  || in_range 48 57 c || (code c =? 43)%nat || (code c =? 47)%nat
  || (code c =? 61)%nat.

Fixpoint take_while (f : ascii -> bool) (s : str) : str :=
  match s with
  | [] => []
  | c :: s' => if f c then c :: take_while f s' else []
  end.

(** [std::regex_search]: the matcher [m] is tried at every position from the
    left, the end of the text included; the first success wins. *)
Fixpoint regex_search {A : Type} (m : str -> option A) (s : str) {struct s}
  : option A :=
  match m s with
  | Some r => Some r
  | None => match s with
            | [] => None
            | _ :: s' => regex_search m s'
            end
  end.

(** Matcher of a pattern [LITERAL(CLASS+)] at the head of [s]; the result is
    capture group 1, the longest run of class characters. *)
Definition match_lit_class (l : str) (cls : ascii -> bool) (s : str)
  : option str :=
  if starts_with l s then
    match take_while cls (skipn (List.length l) s) with
    | [] => None
    | cap => Some cap
    end
  else None.

(** Matcher of [Location: (https?://[^\s]+)]. *)
Definition match_location (s : str) : option str :=
  if starts_with (lit "Location: ") s then
    let r := skipn 10 s in
    if starts_with (lit "https://") r then
      match take_while (fun c => negb (isspace c)) (skipn 8 r) with
      | [] => None
      | run => Some (lit "https://" ++ run)
      end
    else if starts_with (lit "http://") r then
      match take_while (fun c => negb (isspace c)) (skipn 7 r) with
      | [] => None
      | run => Some (lit "http://" ++ run)
      end
    else None
  else None.

Definition digit_val (c : ascii) : Z := Z.of_nat (code c) - 48.

(** [std::stoll] on a string of decimal digits. *)
Definition stoll (s : str) : Res Z :=
  let v := fold_left (fun acc c => acc * 10 + digit_val c) s 0 in
  if v <=? 2 ^ 63 - 1 then Ret v else Abort OutOfRange.

Definition get_file_size (header : str) : Res Z :=
  let file_size := 0 in
  match regex_search (match_lit_class (lit "Content-Length: ") isdigit)
                     header with
  | Some file_size_str =>
      if forallb isdigit file_size_str then stoll file_size_str
      else Ret file_size
  | None => Ret file_size
  end.

Definition MD5_DIGEST_LENGTH : nat := 16.

Definition hex_digit (n : Z) : ascii :=
  nth (Z.to_nat n) (lit "0123456789ABCDEF") "0"%char.

(** [sprintf(p, "%02X", b)] for an [unsigned char] [b]: the two characters
    it writes before the terminator. *)
Definition sprintf_02X (b : Z) : str :=
  [hex_digit (b mod 256 / 16); hex_digit (b mod 16)].

(** Iteration [i] writes at positions [2i] and [2i+1]; its terminator at
    [2i+2] is overwritten by the next iteration, and the last one lands on
    the string's own terminator. *)
Definition convert_md5_bytes_to_str (md5_bytes : nat -> Z) : str :=
  flat_map (fun i => sprintf_02X (md5_bytes i)) (seq 0 MD5_DIGEST_LENGTH).

Definition base64_chars : str :=
  lit "ABCDEFGHIJKLMNOPQRSTUVWXYZabcdefghijklmnopqrstuvwxyz0123456789+/".

(** The array [unsigned char md5_bytes[MD5_DIGEST_LENGTH]], by index. *)
Definition byte_array := nat -> Z.

(** [md5_bytes[i] = v]; the caller has checked [i] against the bound. *)
Definition write_at (a : byte_array) (i : nat) (v : Z) : byte_array :=
  fun j => if (j =? i)%nat then v else a j.

(** [accum = static_cast<uint32_t>(accum << 6) | char_value], stored back
    into the [uint32_t]. *)
Definition feed (accum char_value : Z) : Z :=
  Z.lor (Z.shiftl accum 6 mod 2 ^ 32) char_value mod 2 ^ 32.

(** The [for (const auto c : content_md5_base64)] loop of [get_content_md5].
    [Ret None] is the early [return {}]; a store at [md5_bytes[16]] or beyond
    is [Abort OutOfBounds]. *)
Fixpoint decode_loop (cs : str) (md5_bytes : byte_array) (i : nat)
  (accum accum_bits : Z) : Res (option byte_array) :=
  match cs with
  | [] => Ret (Some md5_bytes)
  | c :: cs' =>
      if isspace c || Ascii.eqb c "="%char
      then decode_loop cs' md5_bytes i accum accum_bits
      else
        match find [c] base64_chars with
        | None => Ret None
        | Some char_value =>
            let accum := feed accum (Z.of_nat char_value) in
            let accum_bits := accum_bits + 6 in
            if 8 <=? accum_bits then
              let accum_bits := accum_bits - 8 in
              if (i <? MD5_DIGEST_LENGTH)%nat then
                decode_loop cs'
                  (write_at md5_bytes i
                     (Z.land (Z.shiftr accum accum_bits) 255))
                  (S i) accum accum_bits
              else Abort OutOfBounds
            else decode_loop cs' md5_bytes i accum accum_bits
        end
  end.

(** [stack] is what the uninitialised array [md5_bytes] holds on entry:
    sixteen bytes the function does not choose. *)
Definition get_content_md5 (stack : byte_array) (header : str) : Res str :=
  match regex_search (match_lit_class (lit "Content-MD5: ") md5_class)
                     header with
  | Some content_md5_base64 =>
      match decode_loop content_md5_base64 stack 0 0 0 with
      | Ret (Some md5_bytes) => Ret (convert_md5_bytes_to_str md5_bytes)
      | Ret None => Ret []
      | Abort f => Abort f
      end
  | None => Ret []
  end.

(** ** Encrypted stream *)

(** What one connection does: the answers to the calls of its [init], the
    data each successive [SSL_read] delivers, and whether reads past that
    data report a failure (-1) or a clean end of stream (0). *)
Record Conn := {
  c_setup : InitOracle;
  c_reads : list str;
  c_fail : bool
}.

(** [SSL_read(ssl, buf, num)]: the value returned, the bytes stored at the
    start of [buf], and what is left of the stream.  A read never delivers
    more than [num] bytes. *)
Definition SSL_read (num : Z) (reads : list str) (fail : bool)
  : Z * str * list str :=
  match reads with
  | [] => (if fail then -1 else 0, [], [])
  | d :: reads' =>
      let d := firstn (Z.to_nat num) d in
      (Z.of_nat (List.length d), d, reads')
  end.

(** The [while (const auto bytes_read = SSL_read(...))] loop of
    [get_web_response]; the buffer holds 1024 bytes.  A negative
    [bytes_read] is converted to a [size_t] beyond [max_size()], so the
    [std::string] constructor throws. *)
Fixpoint read_response (reads : list str) (fail : bool) (response : str)
  : Res str :=
  match reads with
  | [] =>
      let '(bytes_read, _, _) := SSL_read 1024 [] fail in
      if bytes_read =? 0 then Ret response else Abort LengthError
  | d :: reads' =>
      let '(bytes_read, data, _) := SSL_read 1024 [d] fail in
      if bytes_read =? 0 then Ret response
      else read_response reads' fail (response ++ data)
  end.

(** ** Progress control *)

(** Modelled from the spec: [ProgressState] is declared in
    [https/functions.h], which is not among the sources; the spec describes
    it as the pair of flags "continue downloading" and "pause".  A
    value-initialised state ([ProgressState progress_state{}]) continues and
    does not pause. *)
Record ProgressState := { download : bool; pause : bool }.

Definition ProgressState_default : ProgressState :=
  {| download := true; pause := false |}.

(** ** The world [download_file] runs in *)

(** What the call does not decide: the network, the caller's callback, the
    memory it finds and whether the output file can be opened. *)
Record Env := {
  e_net : nat -> str -> str -> Z -> Conn;
      (* the k-th connection, opened for (url, method, offset) *)
  e_callback : option (nat -> ProgressState);
      (* progress_callback: its answer to its k-th call, if it is set *)
  e_stack : byte_array;
      (* initial contents of md5_bytes in get_content_md5 *)
  e_out_opens : bool
      (* whether std::ofstream manages to open the output file *)
}.

(** What the call changes, and the record of what it did. *)
Record World := {
  w_files : str -> option str;   (* path to contents *)
  w_conns : nat;                 (* connections opened so far *)
  w_calls : nat;                 (* callback invocations so far *)
  w_trace : list Event
}.

(** Appends events to the trace. *)
Definition emit (w : World) (t : list Event) : World :=
  {| w_files := w_files w; w_conns := w_conns w; w_calls := w_calls w;
     w_trace := w_trace w ++ t |}.

(** Replaces ([Some]) or removes ([None]) the file at [path]. *)
Definition set_file (w : World) (path : str) (c : option str) : World :=
  {| w_files := fun p => if str_eqb p path then c else w_files w p;
     w_conns := w_conns w; w_calls := w_calls w; w_trace := w_trace w |}.

(** [init] in the world: the next connection of the environment answers. *)
Definition init_in (env : Env) (w : World) (url method : str) (offset : Z)
  : Https * Conn * World :=
  let c := e_net env (w_conns w) url method offset in
  let '(https, t) := init (c_setup c) url method offset in
  (https, c,
   {| w_files := w_files w; w_conns := S (w_conns w);
      w_calls := w_calls w;
      w_trace := w_trace w ++ Open url method offset :: t |}).

(** [close_ssl(https.ssl); close_socket(https.sockfd);] *)
Definition close_session : list Event := [Release SSL_handle; Release Socket].

Definition marker_404 : str := lit "HTTP/1.1 404 Not Found".
Definition marker_302 : str := lit "HTTP/1.1 302 Found".

Definition get_web_response (env : Env) (w : World) (url method : str)
  : Res str * World :=
  let '(https, c, w) := init_in env w url method 0 in
  match ssl https with
  | nullptr => (Ret [], w)
  | SSL_obj =>
      match read_response (c_reads c) (c_fail c) [] with
      | Abort f => (Abort f, w)
      | Ret response =>
          let w := emit w close_session in
          if contains marker_404 response
          then (Ret [], emit w [LogError NotFound404])
          else (Ret response, w)
      end
  end.

(** ** Control flow of [download_file] *)

(** A statement either falls through with a value, executes [return b;], or
    leaves by a failure. *)
Inductive Flow (A : Type) :=
| Next (a : A) | Return (b : bool) | Raise (f : Failure).
Arguments Next {A} a.
Arguments Return {A} b.
Arguments Raise {A} f.

(** A statement sequence: from a world to how it ends and the world it
    leaves. *)
Definition M (A : Type) : Type := World -> Flow A * World.

Definition ret {A : Type} (a : A) : M A := fun w => (Next a, w).

(** Sequencing: what follows runs only after a fall-through. *)
Definition bind {A B : Type} (m : M A) (k : A -> M B) : M B :=
  fun w => match m w with
           | (Next a, w') => k a w'
           | (Return b, w') => (Return b, w')
           | (Raise f, w') => (Raise f, w')
           end.

Declare Scope flow_scope.
Delimit Scope flow_scope with flow.
Notation "x <- m ;; k" := (bind m (fun x => k))
  (at level 61, m at next level, right associativity) : flow_scope.
Notation "m ;;; k" := (bind m (fun _ => k))
  (at level 61, right associativity) : flow_scope.
Open Scope flow_scope.

(** [return b;] *)
Definition return_ {A : Type} (b : bool) : M A := fun w => (Return b, w).

Definition raise {A : Type} (f : Failure) : M A := fun w => (Raise f, w).

(** Records events. *)
Definition trace (t : list Event) : M unit := fun w => (Next tt, emit w t).

Definition lift {A : Type} (r : Res A) : M A :=
  match r with Ret a => ret a | Abort f => raise f end.

(** [if (cond) { LOG...; return false; }] *)
Definition fail_if (cond : bool) (t : list Event) : M unit :=
  if cond then trace t ;;; return_ false else ret tt.

Definition is_empty (s : str) : bool :=
  match s with [] => true | _ => false end.

Definition web_response (env : Env) (url method : str) : M str :=
  fun w => match get_web_response env w url method with
           | (Ret r, w') => (Next r, w')
           | (Abort f, w') => (Raise f, w')
           end.

(** Lines "Get the HEAD of response" to the 404 check: the URL and the
    response the rest of the function works with. *)
Definition probe (env : Env) (url : str) : M (str * str) :=
  response <- web_response env url (lit "HEAD") ;;
  fail_if (is_empty response) [LogError HeaderFetchFailed] ;;;
  ur <- (if contains marker_302 response then
           match regex_search match_location response with
           | Some url' =>
               response' <- web_response env url' (lit "HEAD") ;;
               fail_if (is_empty response')
                       [LogError RedirectHeaderFetchFailed] ;;;
               ret (url', response')
           | None => trace [LogError NoRedirectLocation] ;;; return_ false
           end
         else ret (url, response)) ;;
  fail_if (contains marker_404 (snd ur)) [LogError NotFound404] ;;;
  ret ur.

(** Lines "Get the MD5" and "Get the file size". *)
Definition metadata (env : Env) (response : str) : M (str * Z) :=
  content_md5 <- lift (get_content_md5 (e_stack env) response) ;;
  fail_if (is_empty content_md5) [LogError NoContentMD5] ;;;
  file_size <- lift (get_file_size response) ;;
  fail_if (file_size =? 0) [LogError NoFileSize] ;;;
  ret (content_md5, file_size).

(** Local state of the streaming part. *)
Record Loop := {
  l_reads : list str;          (* what the connection has still to deliver *)
  l_fail : bool;
  l_buffer : str;              (* read_buffer *)
  l_bytes_read : Z;            (* uint32_t bytes_read *)
  l_downloaded : Z;            (* uint64_t downloaded_file_size *)
  l_state : ProgressState      (* progress_state *)
}.

Definition NUL : ascii := ascii_of_nat 0.

(** [std::string(read_buffer.data())]: the bytes before the first NUL.  The
    byte following the buffer is taken to be a NUL. *)
Definition c_str (buffer : str) : str :=
  take_while (fun c => negb (Ascii.eqb c NUL)) buffer.

(** [SSL_read] into [read_buffer]: the new buffer, [bytes_read] as a
    [uint32_t], and the rest of the stream. *)
Definition read_into (buffer : str) (reads : list str) (fail : bool)
  : str * Z * list str :=
  let '(n, data, reads') :=
    SSL_read (Z.of_nat (List.length buffer) mod 2 ^ 32) reads fail in
  (data ++ skipn (List.length data) buffer, n mod 2 ^ 32, reads').

(** The size [tellg] reports at the end of the file, 0 when it cannot be
    opened. *)
Definition file_length (w : World) (path : str) : Z :=
  match w_files w path with
  | Some c => Z.of_nat (List.length c)
  | None => 0
  end.

Definition len (s : str) : Z := Z.of_nat (List.length s).

(** "Calculate the header size based on the HEAD of response", in [size_t]
    arithmetic. *)
Definition header_size_of (response : str) (downloaded_file_size file_size : Z)
  : Z :=
  let header_size := len response in
  if 0 <? downloaded_file_size then
    let content_range_length :=
      len (CRLF ++ lit "Content-Range: bytes "
             ++ to_string downloaded_file_size ++ lit "-"
             ++ to_string file_size ++ lit "/" ++ to_string file_size
             ++ CRLF) in
    (header_size
     + (13 + content_range_length
        - (len (to_string file_size) - len (to_string downloaded_file_size))
          mod 2 ^ 64) mod 2 ^ 64) mod 2 ^ 64
  else header_size.

Section Download.

(** OpenSSL's MD5 of a byte string, as the sixteen bytes [MD5_Final]
    stores. *)
Variable MD5 : str -> byte_array.

(** [bytes_read < (header_size * 0.99f)], evaluated in single precision. *)
Variable header_short : Z -> Z -> bool.

(** [downloaded_file_size < (file_size * 0.99)], evaluated in double
    precision. *)
Variable size_short : Z -> Z -> bool.

(** The chunks fed to [MD5_Update] concatenate to the file's contents. *)
Definition calculate_md5_file (file_path : str) : M str :=
  fun w => match w_files w file_path with
           | None => (Next [], emit w [LogError OpenForHashFailed])
           | Some content => (Next (convert_md5_bytes_to_str (MD5 content)), w)
           end.

(** From "Get the downloaded file size" to "Open the output file". *)
Definition open_stream (env : Env) (url output_file_path response : str)
  (file_size : Z) : M Loop :=
  fun w =>
  let downloaded_file_size := file_length w output_file_path in
  let '(https, c, w) := init_in env w url (lit "GET") downloaded_file_size in
  match ssl https with
  | nullptr => (Return false, w)
  | SSL_obj =>
      let header_size :=
        header_size_of response downloaded_file_size file_size in
      let read_buffer := repeat NUL (Z.to_nat header_size) in
      let '(read_buffer, bytes_read, reads) :=
        read_into read_buffer (c_reads c) (c_fail c) in
      if contains marker_404 (c_str read_buffer) then
        (Return false, emit w (LogError NotFound404 :: close_session))
      else if header_short bytes_read header_size then
        (Return false, emit w (LogError HeaderReadShort :: close_session))
      else
        let w := emit w [OpenAppend output_file_path (e_out_opens env)] in
        let w :=
          if e_out_opens env then
            match w_files w output_file_path with
            | None => set_file w output_file_path (Some [])
            | Some _ => w
            end
          else w in
        (Next {| l_reads := reads; l_fail := c_fail c;
                 l_buffer := read_buffer; l_bytes_read := bytes_read;
                 l_downloaded := downloaded_file_size;
                 l_state := ProgressState_default |}, w)
  end.

(** [outfile.write(read_buffer.data(), bytes_read)]; a stream that failed to
    open ignores writes. *)
Definition outfile_write (env : Env) (path data : str) : M unit :=
  fun w =>
  if e_out_opens env then
    match w_files w path with
    | Some old =>
        (Next tt, emit (set_file w path (Some (old ++ data)))
                       [FileWrite path data])
    | None =>
        (Next tt, emit (set_file w path (Some data)) [FileWrite path data])
    end
  else (Next tt, w).

(** [progress_state = progress_callback(...)] under [if (progress_callback)].
    The two arguments are floating-point display values and reach nothing
    but the callback, whose answers the environment lists call by call. *)
Definition call_progress (env : Env) (current : ProgressState)
  : M ProgressState :=
  fun w =>
  match e_callback env with
  | Some cb =>
      (Next (cb (w_calls w)),
       {| w_files := w_files w; w_conns := w_conns w;
          w_calls := S (w_calls w);
          w_trace := w_trace w ++ [Progress (w_calls w)] |})
  | None => (Next current, w)
  end.

(** One pass through the body of the [while] loop.  A [bytes_read] larger
    than the buffer (a negative result of [SSL_read] seen as [uint32_t])
    makes [outfile.write] read past the buffer when the stream is open. *)
Definition loop_body (env : Env) (output_file_path : str) (st : Loop)
  : M Loop :=
  st' <- (if negb (pause (l_state st)) then
            let '(read_buffer, bytes_read, reads) :=
              read_into (l_buffer st) (l_reads st) (l_fail st) in
            if negb (bytes_read =? 0) then
              if e_out_opens env && (len read_buffer <? bytes_read)
              then raise OutOfBounds
              else
                outfile_write env output_file_path
                  (firstn (Z.to_nat bytes_read) read_buffer) ;;;
                ret {| l_reads := reads; l_fail := l_fail st;
                       l_buffer := read_buffer; l_bytes_read := bytes_read;
                       l_downloaded :=
                         (l_downloaded st + bytes_read) mod 2 ^ 64;
                       l_state := l_state st |}
            else
              ret {| l_reads := reads; l_fail := l_fail st;
                     l_buffer := read_buffer; l_bytes_read := bytes_read;
                     l_downloaded := l_downloaded st;
                     l_state := l_state st |}
          else trace [Sleep] ;;; ret st) ;;
  ps <- call_progress env (l_state st') ;;
  ret {| l_reads := l_reads st'; l_fail := l_fail st';
         l_buffer := l_buffer st'; l_bytes_read := l_bytes_read st';
         l_downloaded := l_downloaded st'; l_state := ps |}.

(** [while (progress_state.download && bytes_read)].  A caller that keeps
    pausing keeps the loop running, so the iteration count is bounded by
    [fuel]; [None] means the bound was reached. *)
Fixpoint stream_loop (fuel : nat) (env : Env) (output_file_path : str)
  (st : Loop) (w : World) : option (Flow Loop * World) :=
  if download (l_state st) && negb (l_bytes_read st =? 0) then
    match fuel with
    | O => None
    | S fuel' =>
        match loop_body env output_file_path st w with
        | (Next st', w') => stream_loop fuel' env output_file_path st' w'
        | other => Some other
        end
    end
  else Some (Next st, w).

(** From "Close the output file" to the end of the function; the value is
    that of the final [return true]. *)
Definition finish (env : Env) (output_file_path content_md5 : str)
  (file_size : Z) (st : Loop) : M bool :=
  trace close_session ;;;
  progress_state <- call_progress env (l_state st) ;;
  fail_if (size_short (l_downloaded st) file_size)
          [if download progress_state then LogError SizeMismatch
           else LogWarn CanceledByUser] ;;;
  downloaded_file_md5 <- calculate_md5_file output_file_path ;;
  (if negb (str_eqb downloaded_file_md5 content_md5) then
     trace [LogError Corrupted] ;;;
     (fun w => (Return false,
                emit (set_file w output_file_path None)
                     [FileRemove output_file_path]))
   else ret tt) ;;;
  ret true.

(** Everything before the [while] loop. *)
Definition prelude (env : Env) (url output_file_path : str)
  : M (str * str * (str * Z) * Loop) :=
  ur <- probe env url ;;
  m <- metadata env (snd ur) ;;
  st <- open_stream env (fst ur) output_file_path (snd ur) (snd m) ;;
  ret (ur, m, st).

(** What the caller sees of a finished statement sequence. *)
Definition result_of (r : Flow bool * World) : Res bool * World :=
  match r with
  | (Next b, w) => (Ret b, w)
  | (Return b, w) => (Ret b, w)
  | (Raise f, w) => (Abort f, w)
  end.

Definition download_file (fuel : nat) (env : Env) (url output_file_path : str)
  (w : World) : option (Res bool * World) :=
  match prelude env url output_file_path w with
  | (Next (ur, m, st), w1) =>
      match stream_loop fuel env output_file_path st w1 with
      | None => None
      | Some (Next st', w2) =>
          Some (result_of
                  (finish env output_file_path (fst m) (snd m) st' w2))
      | Some (Return b, w2) => Some (Ret b, w2)
      | Some (Raise f, w2) => Some (Abort f, w2)
      end
  | (Return b, w1) => Some (Ret b, w1)
  | (Raise f, w1) => Some (Abort f, w1)
  end.

End Download.

(** ** Searching a page: [get_web_regex_result] *)

(** [get_web_regex_result(url, regex)].  [method] is the default argument
    of the one-argument call [get_web_response(url)], declared in a header
    that is not among the sources; [regex] is what [std::regex_search]
    finds in a text for the caller's pattern: capture group 1 of the
    leftmost match.  [response.find(...) + 4] is computed in [size_t], so a
    missing separator gives position 3; [substr] throws when the position
    is past the end.  The log line of the branch without a match is not
    recorded. *)
Definition get_web_regex_result (env : Env) (w : World) (url method : str)
  (regex : str -> option str) : Res str * World :=
  let result := [] in
  match get_web_response env w url method with
  | (Abort f, w) => (Abort f, w)
  | (Ret response, w) =>
      if negb (is_empty response) then
        let pos :=
          (match find (CRLF ++ CRLF) response with
           | Some k => Z.of_nat k
           | None => 2 ^ 64 - 1
           end + 4) mod 2 ^ 64 in
        if len response <? pos then (Abort OutOfRange, w)
        else
          let content := skipn (Z.to_nat pos) response in
          match regex content with
          | Some m => (Ret m, w)
          | None => (Ret result, w)
          end
      else (Ret result, w)
  end.

(** * Notions the properties are stated with *)

(** ** Parts of a request *)

(** The header pair a resumed request carries. *)
Definition range_headers (offset : Z) : str :=
  lit "Accept-Ranges: bytes" ++ CRLF
  ++ lit "Range: bytes=" ++ to_string offset ++ lit "-" ++ CRLF.

Definition request_line (method uri : str) : str :=
  method ++ lit " " ++ uri ++ lit " HTTP/1.1" ++ CRLF.

Definition host_header (host : str) : str := lit "Host: " ++ host ++ CRLF.

Definition ends_with (suffix s : str) : Prop :=
  exists front, s = front ++ suffix.

(** ** Traces *)

(** Events that touch the output file. *)
Definition is_file_event (e : Event) : bool :=
  match e with
  | OpenAppend _ _ | FileWrite _ _ | FileRemove _ => true
  | _ => false
  end.

Definition is_open (e : Event) : bool :=
  match e with Open _ _ _ => true | _ => false end.

(** The connections a trace opens, in order. *)
Definition opens (t : list Event) : list Event := filter is_open t.

(** Events that neither open a connection nor touch the output file. *)
Definition plain (e : Event) : bool :=
  negb (is_file_event e) && negb (is_open e).

(** [w'] is [w] after the events [t], with the same files and the same
    number of callback invocations. *)
Definition quiet_step (w w' : World) (t : list Event) : Prop :=
  w_trace w' = w_trace w ++ t
  /\ w_files w' = w_files w
  /\ w_calls w' = w_calls w.

(** Events of the probing phase: no use of the output file, and connections
    opened only for [HEAD] at offset 0. *)
Definition probe_event (e : Event) : bool :=
  match e with
  | Open _ method offset => str_eqb method (lit "HEAD") && (offset =? 0)
  | OpenAppend _ _ | FileWrite _ _ | FileRemove _ => false
  | _ => true
  end.

(** A statement sequence that leaves the files alone and emits probing
    events only. *)
Definition quiet {A : Type} (m : M A) : Prop :=
  forall w, exists t,
    quiet_step w (snd (m w)) t /\ forallb probe_event t = true.

(** A statement sequence none of whose [return]s gives [true]. *)
Definition never_true {A : Type} (m : M A) : Prop :=
  forall w, fst (m w) <> Return true.

(** ** The final checks *)

(** The value of [calculate_md5_file] in a world: the rendered digest of the
    file's contents, the empty string when the file cannot be opened. *)
Definition file_digest (MD5 : str -> byte_array) (w : World) (path : str)
  : str :=
  match w_files w path with
  | Some content => convert_md5_bytes_to_str (MD5 content)
  | None => []
  end.

(** The control signal in force at the size check: the answer to the closing
    [progress_callback(0, 0)], or the loop's last state when no callback is
    set. *)
Definition last_signal (env : Env) (st : Loop) (w : World) : ProgressState :=
  match e_callback env with
  | Some cb => cb (w_calls w)
  | None => l_state st
  end.

(** The log line of a failed size check. *)
Definition size_verdict (ps : ProgressState) : Event :=
  if download ps then LogError SizeMismatch else LogWarn CanceledByUser.


(** ** Base64, as a reference *)

(** The 6-bit value of an alphabet character. *)
Definition sextet (c : ascii) : option nat := find [c] base64_chars.

(** Characters a decoder passes over: white space and padding. *)
Definition skipped (c : ascii) : bool := isspace c || Ascii.eqb c "="%char.

(** What is left of a captured value once those are dropped. *)
Definition payload (cap : str) : str := filter (fun c => negb (skipped c)) cap.

(** The 6-bit values of a string of alphabet characters; [None] when a
    character is outside the alphabet. *)
Fixpoint sextets (cs : str) : option (list Z) :=
  match cs with
  | [] => Some []
  | c :: cs' =>
      match sextet c, sextets cs' with
      | Some n, Some vs => Some (Z.of_nat n :: vs)
      | _, _ => None
      end
  end.

(** Four 6-bit values make three bytes; a final group of three makes two
    bytes and one of two makes one byte. *)
Fixpoint bytes_of_sextets (vs : list Z) : list Z :=
  match vs with
  | v1 :: v2 :: v3 :: v4 :: rest =>
      (v1 * 4 + v2 / 16) :: (v2 mod 16 * 16 + v3 / 4)
      :: (v3 mod 4 * 64 + v4) :: bytes_of_sextets rest
  | [v1; v2; v3] => [v1 * 4 + v2 / 16; v2 mod 16 * 16 + v3 / 4]
  | [v1; v2] => [v1 * 4 + v2 / 16]
  | _ => []
  end.

(** The character the RFC 4648 alphabet gives to a 6-bit value. *)
Definition b64_char (v : Z) : ascii := nth (Z.to_nat v) base64_chars "A"%char.

(** Standard base64 encoding, with padding. *)
Fixpoint base64_encode (bs : list Z) : str :=
  match bs with
  | a :: b :: c :: rest =>
      b64_char (a / 4) :: b64_char (a mod 4 * 16 + b / 16)
      :: b64_char (b mod 16 * 4 + c / 64) :: b64_char (c mod 64)
      :: base64_encode rest
  | [a; b] =>
      [b64_char (a / 4); b64_char (a mod 4 * 16 + b / 16);
       b64_char (b mod 16 * 4); "="%char]
  | [a] => [b64_char (a / 4); b64_char (a mod 4 * 16); "="%char; "="%char]
  | [] => []
  end.

(** The characters [%02X] can produce. *)
Definition is_upper_hex (c : ascii) : bool :=
  in_range 48 57 c || in_range 65 70 c.

(** The array whose first entries are the bytes of [bs]. *)
Definition array_of (bs : list Z) : byte_array := fun i => nth i bs 0.

(** ** Failures of [init] *)

(** Error lines of the log. *)
Definition is_log_error (e : Event) : bool :=
  match e with LogError _ => true | _ => false end.

(** The step of [init] that fails first, in the order the steps are made. *)
Definition first_failure (o : InitOracle) : option Msg :=
  if negb (o_ctx o) then Some CtxCreateFailed
  else if o_socket o <? 0 then Some SocketFailed
  else if negb (o_gai_result o) then Some ResolveFailed
  else if o_gai_ret o <? 0 then Some GetaddrinfoError
  else if o_connect o <? 0 then Some ConnectFailed
  else if o_getsockopt o <? 0 then Some GetsockoptFailed
  else if negb (o_so_error o =? 0) then Some SocketNotConnected
  else if o_ssl_connect o <=? 0 then Some HandshakeFailed
  else if o_ssl_write o <=? 0 then Some SendFailed
  else None.

(** ** Responses and header values *)

(** [probe] without its own not-found test. *)
Definition probe_without_404_test (env : Env) (url : str) : M (str * str) :=
  response <- web_response env url (lit "HEAD") ;;
  fail_if (is_empty response) [LogError HeaderFetchFailed] ;;;
  (if contains marker_302 response then
     match regex_search match_location response with
     | Some url' =>
         response' <- web_response env url' (lit "HEAD") ;;
         fail_if (is_empty response')
                 [LogError RedirectHeaderFetchFailed] ;;;
         ret (url', response')
     | None => trace [LogError NoRedirectLocation] ;;; return_ false
     end
   else ret (url, response)).

(** Reads that deliver something and fit the 1024-byte buffer. *)
Definition full_read (d : str) : Prop :=
  d <> [] /\ (List.length d <= 1024)%nat.

(** The value [std::stoll] accumulates over a string of digits. *)
Definition digits_value (s : str) (acc : Z) : Z :=
  fold_left (fun acc c => acc * 10 + digit_val c) s acc.

(** ** Sessions and files across a call *)

(** Events that neither obtain nor give back a resource. *)
Definition inert (e : Event) : bool :=
  match e with Acquire _ | Release _ => false | _ => true end.

(** A statement sequence that, unless it is left by a failure, has closed
    every session it opened. *)
Definition closed {A : Type} (m : M A) : Prop :=
  forall w, exists t,
    w_trace (snd (m w)) = w_trace w ++ t
    /\ ((forall f, fst (m w) <> Raise f) -> held t = []).

(** A statement sequence that opens at most [n] connections. *)
Definition bounded (n : nat) {A : Type} (m : M A) : Prop :=
  forall w, exists t,
    w_trace (snd (m w)) = w_trace w ++ t
    /\ (List.length (opens t) <= n)%nat.

(** The contents of the file at [path], empty when there is none. *)
Definition content_at (files : str -> option str) (path : str) : str :=
  match files path with Some c => c | None => [] end.

(** Events of the streaming loop: writes to the output file, callback
    invocations and sleeps. *)
Definition loop_event (path : str) (e : Event) : bool :=
  match e with
  | FileWrite p _ => str_eqb p path
  | Progress _ | Sleep => true
  | _ => false
  end.

(** A write to the file at [path]. *)
Definition is_write_to (path : str) (e : Event) : bool :=
  match e with FileWrite p _ => str_eqb p path | _ => false end.

(** The files [f'] are the files [f] except that the file at [path] may
    have been created or have grown at its end. *)
Definition extends (path : str) (f f' : str -> option str) : Prop :=
  (forall p, p <> path -> f' p = f p)
  /\ (f' path = f path
      \/ exists suffix, f' path = Some (content_at f path ++ suffix)).

(** The counter of downloaded bytes agrees with the length of the file, as
    a [uint64_t]. *)
Definition counter_agrees (path : str) (st : Loop) (w : World) : Prop :=
  l_downloaded st mod 2 ^ 64 = file_length w path mod 2 ^ 64.

(** ** Calls that return *)



(** ** Concrete servers and files *)

(** Every call of [init] succeeds. *)
Definition demo_setup : InitOracle :=
  {| o_ctx := true; o_socket := 3; o_gai_ret := 0; o_gai_result := true;
     o_connect := 0; o_getsockopt := 0; o_so_error := 0;
     o_ssl_connect := 1; o_ssl_write := 1 |}.

(** A probe response declaring ten bytes with digest 00 01 ... 0F. *)
Definition demo_head : str :=
  lit "HTTP/1.1 200 OK" ++ CRLF ++ lit "Content-Length: 10" ++ CRLF
  ++ lit "Content-MD5: AAECAwQFBgcICQoLDA0ODw==" ++ CRLF ++ CRLF.

(** The same without a checksum. *)
Definition demo_head_no_md5 : str :=
  lit "HTTP/1.1 200 OK" ++ CRLF ++ lit "Content-Length: 10" ++ CRLF ++ CRLF.

(** A redirect. *)
Definition demo_head_302 : str :=
  lit "HTTP/1.1 302 Found" ++ CRLF
  ++ lit "Location: https://mirror.example/a.zip" ++ CRLF ++ CRLF.

Definition demo_url : str := lit "https://example.org/a.zip".
Definition demo_path : str := lit "a.zip".

(** No file exists and nothing has happened. *)
Definition demo_world : World :=
  {| w_files := fun _ => None; w_conns := 0; w_calls := 0; w_trace := [] |}.

(** A server that answers [HEAD] with [head] and [GET] with [head] followed
    by the chunks [body]. *)
Definition demo_env (head : str) (body : list str) : Env :=
  {| e_net := fun _ _ method _ =>
       {| c_setup := demo_setup;
          c_reads := if str_eqb method (lit "HEAD") then [head]
                     else head :: body;
          c_fail := false |};
     e_callback := None;
     e_stack := fun _ => 255;
     e_out_opens := true |}.

(** A server that redirects [demo_url] and serves every other URL. *)
Definition demo_env_302 : Env :=
  {| e_net := fun _ url method _ =>
       {| c_setup := demo_setup;
          c_reads := if str_eqb url demo_url then [demo_head_302]
                     else if str_eqb method (lit "HEAD") then [demo_head]
                          else [demo_head; lit "helloworld"];
          c_fail := false |};
     e_callback := None;
     e_stack := fun _ => 255;
     e_out_opens := true |}.

(** The same environment with a progress callback. *)
Definition with_callback (env : Env) (cb : nat -> ProgressState) : Env :=
  {| e_net := e_net env; e_callback := Some cb; e_stack := e_stack env;
     e_out_opens := e_out_opens env |}.

(** A caller that cancels at its first opportunity, and one that pauses
    for ever. *)
Definition cancel_at_once (k : nat) : ProgressState :=
  {| download := false; pause := false |}.
Definition always_paused (k : nat) : ProgressState :=
  {| download := true; pause := true |}.

(** A connection attempt refused by the peer. *)
Definition demo_setup_refused : InitOracle :=
  {| o_ctx := true; o_socket := 3; o_gai_ret := 0; o_gai_result := true;
     o_connect := -1; o_getsockopt := 0; o_so_error := 0;
     o_ssl_connect := 1; o_ssl_write := 1 |}.

(** Stand-ins for the digest function and the two tolerance tests. *)
Definition demo_md5 (content : str) : byte_array := fun i => Z.of_nat i.
Definition demo_md5_other (content : str) : byte_array := fun _ => 170.
Definition demo_short (n total : Z) : bool := 100 * n <? 99 * total.

(** A response that is only a status line and a body, and one of two
    characters. *)
Definition demo_page : str :=
  lit "HTTP/1.1 200 OK" ++ CRLF ++ CRLF ++ lit "version=42".

(** A pattern: [version=(\d+)]. *)
Definition demo_regex (s : str) : option str :=
  regex_search (match_lit_class (lit "version=") isdigit) s.

(** A complete run against the demonstration server, and the world it
    leaves. *)
Definition demo_run : option (Res bool * World) :=
  download_file demo_md5 demo_short demo_short 10
    (demo_env demo_head [lit "hello"; lit "world"])
    demo_url demo_path demo_world.

Definition demo_final : World :=
  match demo_run with Some (_, w) => w | None => demo_world end.

(** The state and the world of the demonstration run when the loop is
    entered and when it is left. *)
Definition Loop_default : Loop :=
  {| l_reads := []; l_fail := false; l_buffer := []; l_bytes_read := 0;
     l_downloaded := 0; l_state := ProgressState_default |}.

Definition demo_pre : Flow (str * str * (str * Z) * Loop) * World :=
  prelude demo_short (demo_env demo_head [lit "hello"; lit "world"])
    demo_url demo_path demo_world.

Definition demo_entry : str * str * (str * Z) * Loop :=
  match fst demo_pre with
  | Next a => a
  | _ => (([], []), ([], 0), Loop_default)
  end.

Definition demo_exit : Flow Loop * World :=
  match stream_loop 10 (demo_env demo_head [lit "hello"; lit "world"])
          demo_path (snd demo_entry) (snd demo_pre) with
  | Some r => r
  | None => (Next Loop_default, demo_world)
  end.

Definition demo_exit_state : Loop :=
  match fst demo_exit with Next st => st | _ => Loop_default end.

(** A streaming state on the demonstration connection. *)
Definition demo_loop_state : Loop :=
  {| l_reads := [lit "hello"; lit "world"]; l_fail := false;
     l_buffer := repeat NUL 8; l_bytes_read := 8; l_downloaded := 0;
     l_state := ProgressState_default |}.



(** A header block with two checksum lines: the first is an extension
    header carrying the digest FF ... FF, the second the standard header
    carrying 00 01 ... 0F. *)
Definition demo_head_two_md5 : str :=
  lit "HTTP/1.1 200 OK" ++ CRLF
  ++ lit "X-Content-MD5: " ++ base64_encode (repeat 255 16) ++ CRLF
  ++ lit "Content-MD5: "
  ++ base64_encode [0; 1; 2; 3; 4; 5; 6; 7; 8; 9; 10; 11; 12; 13; 14; 15]
  ++ CRLF ++ CRLF.

(** * Properties *)

(** ** Strings *)

Lemma starts_with_app (p s : str) : starts_with p (p ++ s) = true.
Proof.
  induction p as [|a p IH]; simpl; [reflexivity|].
  now rewrite Ascii.eqb_refl.
Qed.

Lemma find_skip_absent (c : ascii) (p front tail : str) :
  ~ In c front ->
  find (c :: p) (front ++ (c :: p) ++ tail) = Some (List.length front).
Proof.
  induction front as [|x front IH]; intros Hn.
  - simpl app. assert (H : starts_with (c :: p) (c :: p ++ tail) = true)
      by apply (starts_with_app (c :: p)).
    simpl find. simpl in H. now rewrite H.
  - simpl app. simpl find.
    assert (Hx : Ascii.eqb c x = false).
    { apply Ascii.eqb_neq. intros ->. apply Hn. now left. }
    rewrite Hx. simpl. simpl app in IH. rewrite IH; [reflexivity|].
    intros Hin. apply Hn. now right.
Qed.

Lemma find_absent (c : ascii) (s : str) :
  ~ In c s -> find [c] s = None.
Proof.
  induction s as [|x s IH]; intros Hn; simpl; [reflexivity|].
  assert (Hx : Ascii.eqb c x = false).
  { apply Ascii.eqb_neq. intros ->. apply Hn. now left. }
  rewrite Hx. simpl. rewrite IH; [reflexivity|].
  intros Hin. apply Hn. now right.
Qed.

Lemma skipn_past (front mid tail : str) :
  skipn (List.length front + List.length mid) (front ++ mid ++ tail) = tail.
Proof.
  rewrite Nat.add_comm, <- skipn_skipn.
  rewrite skipn_app, skipn_all, Nat.sub_diag. simpl.
  rewrite skipn_app, skipn_all, Nat.sub_diag. reflexivity.
Qed.

(** ** C9: URL parsing *)

Lemma parse_url_with_path (scheme host path : str) :
  ~ In ":"%char scheme -> ~ In "/"%char host ->
  parse_url (scheme ++ lit "://" ++ host ++ lit "/" ++ path)
  = (host, lit "/" ++ path).
Proof.
  intros Hs Hh. unfold parse_url.
  pose proof (find_skip_absent ":"%char (lit "//") scheme
                (host ++ lit "/" ++ path) Hs) as E.
  change (":"%char :: lit "//") with (lit "://") in E. rewrite E.
  pose proof (skipn_past scheme (lit "://") (host ++ lit "/" ++ path)) as K.
  change (List.length (lit "://")) with 3%nat in K.
  unfold find_from, substr. rewrite K.
  assert (Hlen : (List.length scheme + 3
                  <=? List.length (scheme ++ lit "://" ++ host
                                     ++ lit "/" ++ path))%nat = true).
  { apply Nat.leb_le. rewrite !length_app. simpl. lia. }
  rewrite Hlen.
  pose proof (find_skip_absent "/"%char [] host path Hh) as F.
  change (["/"%char]) with (lit "/") in F. rewrite F. simpl option_map.
  cbv iota beta.
  replace (List.length scheme + 3 + List.length host
           - (List.length scheme + 3))%nat
    with (List.length host + 0)%nat by lia.
  rewrite firstn_app_2. simpl firstn. rewrite app_nil_r. f_equal.
  replace (List.length scheme + 3 + List.length host)%nat
    with (List.length host + (List.length scheme + 3))%nat by lia.
  rewrite <- skipn_skipn. rewrite K.
  rewrite skipn_app, skipn_all, Nat.sub_diag. reflexivity.
Qed.

Lemma parse_url_without_path (scheme host : str) :
  ~ In ":"%char scheme -> ~ In "/"%char host ->
  parse_url (scheme ++ lit "://" ++ host) = (host, lit "/").
Proof.
  intros Hs Hh. unfold parse_url.
  pose proof (find_skip_absent ":"%char (lit "//") scheme host Hs) as E.
  change (":"%char :: lit "//") with (lit "://") in E. rewrite E.
  pose proof (skipn_past scheme (lit "://") host) as K.
  change (List.length (lit "://")) with 3%nat in K.
  unfold find_from. rewrite K.
  assert (Hlen : (List.length scheme + 3
                  <=? List.length (scheme ++ lit "://" ++ host))%nat = true).
  { apply Nat.leb_le. rewrite !length_app. simpl. lia. }
  rewrite Hlen. change (lit "/") with ["/"%char].
  now rewrite (find_absent "/"%char host Hh).
Qed.

(** C9 (as amended).  A URL [scheme://host/path] is split into [host] and
    [/path]; a URL [scheme://host] with no slash after the host gets the path
    [/]; a URL in which [://] does not occur gets neither a host nor a path:
    both are left empty and no default is applied. *)
Theorem parse_url_shapes (scheme host : str) :
  ~ In ":"%char scheme -> ~ In "/"%char host ->
  (forall path,
      parse_url (scheme ++ lit "://" ++ host ++ lit "/" ++ path)
      = (host, lit "/" ++ path))
  /\ parse_url (scheme ++ lit "://" ++ host) = (host, lit "/")
  /\ (forall url, find (lit "://") url = None -> parse_url url = ([], [])).
Proof.
  intros Hs Hh. split; [|split].
  - intros path. now apply parse_url_with_path.
  - now apply parse_url_without_path.
  - intros url Hnone. unfold parse_url. now rewrite Hnone.
Qed.

Lemma parse_url_shapes_witness :
  parse_url (lit "https://example.org/pkg/a.zip")
  = (lit "example.org", lit "/pkg/a.zip")
  /\ parse_url (lit "https://example.org") = (lit "example.org", lit "/")
  /\ parse_url (lit "example.org") = ([], []).
Proof.
  assert (Hs : ~ In ":"%char (lit "https")).
  { simpl. intros H.
    repeat (destruct H as [H|H]; [discriminate H|]). exact H. }
  assert (Hh : ~ In "/"%char (lit "example.org")).
  { simpl. intros H.
    repeat (destruct H as [H|H]; [discriminate H|]). exact H. }
  destruct (parse_url_shapes (lit "https") (lit "example.org") Hs Hh)
    as (A & B & C).
  split; [exact (A (lit "pkg/a.zip"))|].
  split; [exact B|].
  apply C. reflexivity.
Defined.

(** C9 as stated fails: a URL without [://] does not match the shape
    [scheme://host/path], and its path is the empty string, not [/]. *)
Lemma parse_url_no_scheme_no_default :
  find (lit "://") (lit "example.org/pkg/a.zip") = None
  /\ parse_url (lit "example.org/pkg/a.zip") = ([], [])
  /\ snd (parse_url (lit "example.org/pkg/a.zip")) <> lit "/".
Proof.
  split; [reflexivity|]. split; [reflexivity|]. discriminate.
Qed.

(** ** C8: request text *)

Lemma build_request_eq (method uri host : str) (offset : Z) :
  build_request method uri host offset
  = request_line method uri ++ host_header host
    ++ (if 0 <? offset then range_headers offset else [])
    ++ lit "User-Agent: OpenSSL/1.1.1" ++ CRLF
    ++ lit "Connection: close" ++ CRLF ++ CRLF.
Proof.
  unfold build_request, request_line, host_header, range_headers.
  destruct (0 <? offset); repeat rewrite <- app_assoc; reflexivity.
Qed.

(** C8.  The request opens with the line [METHOD uri HTTP/1.1] and the
    [Host:] header; what follows the [Host:] header starts with the pair
    [Accept-Ranges: bytes], [Range: bytes=<offset>-] exactly when the resume
    offset is positive; and the request ends with [Connection: close] and
    the blank line. *)
Theorem build_request_layout (method uri host : str) (offset : Z) :
  starts_with (request_line method uri ++ host_header host)
              (build_request method uri host offset) = true
  /\ (starts_with (range_headers offset)
        (skipn (List.length (request_line method uri ++ host_header host))
               (build_request method uri host offset)) = true
      <-> 0 < offset)
  /\ ends_with (lit "Connection: close" ++ CRLF ++ CRLF)
               (build_request method uri host offset).
Proof.
  rewrite build_request_eq. split; [|split].
  - rewrite app_assoc. apply starts_with_app.
  - rewrite app_assoc, skipn_app, skipn_all, Nat.sub_diag. simpl skipn.
    simpl app at 1.
    destruct (0 <? offset) eqn:E.
    + split; [intros _; now apply Z.ltb_lt|intros _; apply starts_with_app].
    + split; [discriminate|intros H; apply Z.ltb_lt in H; congruence].
  - exists (request_line method uri ++ host_header host
            ++ (if 0 <? offset then range_headers offset else [])
            ++ lit "User-Agent: OpenSSL/1.1.1" ++ CRLF).
    repeat rewrite <- app_assoc. reflexivity.
Qed.

(** ** C6: the transport opener *)

(** C6.  [init] either returns an established session (socket created,
    address resolved, connected, connection verified, handshake completed,
    request sent, in this order) that holds exactly its socket and its SSL
    handle, or returns the default value, whose SSL handle is null, with no
    resource left held. *)
Theorem init_all_or_nothing (o : InitOracle) (url method : str) (offset : Z) :
  let r := init o url method offset in
  (ssl (fst r) = SSL_obj
   /\ sockfd (fst r) = o_socket o
   /\ held (snd r) = [Socket; SSL_handle]
   /\ milestones (snd r)
      = [Acquire Socket; Resolved (fst (parse_url url)); Connected; Verified;
         Handshaken;
         Sent (build_request method (snd (parse_url url))
                             (fst (parse_url url)) offset)])
  \/ (fst r = Https_default /\ ssl (fst r) = nullptr /\ held (snd r) = []).
Proof.
  unfold init. destruct (parse_url url) as [host uri]. simpl fst. simpl snd.
  destruct (o_ctx o); simpl negb; cbv iota; [|right; now repeat split].
  destruct (o_socket o <? 0); [right; now repeat split|].
  destruct (o_gai_ret o <? 0), (o_gai_result o); simpl orb; simpl negb;
    cbv iota; try (right; now repeat split).
  destruct (o_connect o <? 0); [right; now repeat split|].
  destruct (o_getsockopt o <? 0); [right; now repeat split|].
  destruct (o_so_error o =? 0); simpl negb; cbv iota;
    [|right; now repeat split].
  destruct (o_ssl_connect o <=? 0); [right; now repeat split|].
  destruct (o_ssl_write o <=? 0); [right; now repeat split|].
  left. now repeat split.
Qed.

(** ** Traces of the probing phase *)

Lemma init_plain (o : InitOracle) (url method : str) (offset : Z) :
  forallb plain (snd (init o url method offset)) = true.
Proof.
  unfold init. destruct (parse_url url) as [host uri].
  destruct (o_ctx o); simpl negb; cbv iota; [|reflexivity].
  destruct (o_socket o <? 0); [reflexivity|].
  destruct (o_gai_ret o <? 0), (o_gai_result o); simpl orb; simpl negb;
    cbv iota; try reflexivity.
  destruct (o_connect o <? 0); [reflexivity|].
  destruct (o_getsockopt o <? 0); [reflexivity|].
  destruct (o_so_error o =? 0); simpl negb; cbv iota; [|reflexivity].
  destruct (o_ssl_connect o <=? 0); [reflexivity|].
  destruct (o_ssl_write o <=? 0); reflexivity.
Qed.

Lemma quiet_step_refl (w : World) : quiet_step w w [].
Proof. unfold quiet_step. now rewrite app_nil_r. Qed.

Lemma quiet_step_trans (w1 w2 w3 : World) (t1 t2 : list Event) :
  quiet_step w1 w2 t1 -> quiet_step w2 w3 t2 -> quiet_step w1 w3 (t1 ++ t2).
Proof.
  intros (A1 & B1 & C1) (A2 & B2 & C2). unfold quiet_step.
  rewrite A2, A1, B2, B1, C2, C1, app_assoc. now repeat split.
Qed.

Lemma quiet_step_emit (w : World) (t : list Event) : quiet_step w (emit w t) t.
Proof. now repeat split. Qed.

Lemma forallb_plain_app (t1 t2 : list Event) :
  forallb plain t1 = true -> forallb plain t2 = true ->
  forallb plain (t1 ++ t2) = true.
Proof. intros H1 H2. rewrite forallb_app, H1, H2. reflexivity. Qed.

Lemma init_in_step (env : Env) (w : World) (url method : str) (offset : Z) :
  exists t,
    quiet_step w (snd (init_in env w url method offset))
               (Open url method offset :: t)
    /\ forallb plain t = true.
Proof.
  unfold init_in.
  pose proof (init_plain (c_setup (e_net env (w_conns w) url method offset))
                url method offset) as P.
  destruct (init _ url method offset) as [https t]. simpl in P.
  exists t. split; [now repeat split|exact P].
Qed.

Lemma get_web_response_step (env : Env) (w : World) (url method : str) :
  exists t,
    quiet_step w (snd (get_web_response env w url method))
               (Open url method 0 :: t)
    /\ forallb plain t = true.
Proof.
  unfold get_web_response.
  destruct (init_in_step env w url method 0) as (t & Q & P).
  destruct (init_in env w url method 0) as [[https c] w1]. simpl in Q.
  destruct (ssl https); [exists t; now split|].
  destruct (read_response (c_reads c) (c_fail c) []) as [response|f];
    [|exists t; now split].
  destruct (contains marker_404 response); simpl snd.
  - exists (t ++ close_session ++ [LogError NotFound404]). split.
    + change (Open url method 0 :: t ++ close_session ++ [LogError NotFound404])
        with ((Open url method 0 :: t)
                ++ close_session ++ [LogError NotFound404]).
      eapply quiet_step_trans; [exact Q|].
      eapply quiet_step_trans; apply quiet_step_emit.
    + now apply forallb_plain_app.
  - exists (t ++ close_session). split.
    + change (Open url method 0 :: t ++ close_session)
        with ((Open url method 0 :: t) ++ close_session).
      eapply quiet_step_trans; [exact Q|apply quiet_step_emit].
    + now apply forallb_plain_app.
Qed.

Lemma opens_plain (t : list Event) : forallb plain t = true -> opens t = [].
Proof.
  induction t as [|e t IH]; simpl; [reflexivity|].
  intros H. apply andb_prop in H as [He Ht]. unfold plain in He.
  apply andb_prop in He as [_ He]. destruct (is_open e); [discriminate|].
  now apply IH.
Qed.

(** ** Statement sequences that can only [return false] *)

Lemma never_true_ret {A : Type} (a : A) : never_true (ret a).
Proof. intros w. discriminate. Qed.

Lemma never_true_raise {A : Type} (f : Failure) : never_true (@raise A f).
Proof. intros w. discriminate. Qed.

Lemma never_true_return_false {A : Type} : never_true (@return_ A false).
Proof. intros w. discriminate. Qed.

Lemma never_true_trace (t : list Event) : never_true (trace t).
Proof. intros w. discriminate. Qed.

Lemma never_true_bind {A B : Type} (m : M A) (k : A -> M B) :
  never_true m -> (forall a, never_true (k a)) -> never_true (bind m k).
Proof.
  intros Hm Hk w. unfold bind. specialize (Hm w).
  destruct (m w) as [[a|b|f] w1]; simpl in *;
    [apply Hk| |discriminate].
  intros E. apply Hm. injection E as ->. reflexivity.
Qed.

Lemma never_true_lift {A : Type} (r : Res A) : never_true (lift r).
Proof. destruct r; [apply never_true_ret|apply never_true_raise]. Qed.

Lemma never_true_fail_if (c : bool) (t : list Event) :
  never_true (fail_if c t).
Proof.
  unfold fail_if. destruct c; [|apply never_true_ret].
  apply never_true_bind;
    [apply never_true_trace|intros _; apply never_true_return_false].
Qed.

Lemma never_true_web_response (env : Env) (url method : str) :
  never_true (web_response env url method).
Proof.
  intros w. unfold web_response.
  destruct (get_web_response env w url method) as [[r|f] w1]; discriminate.
Qed.

Lemma never_true_probe (env : Env) (url : str) : never_true (probe env url).
Proof.
  unfold probe.
  apply never_true_bind; [apply never_true_web_response|intros response].
  apply never_true_bind; [apply never_true_fail_if|intros _].
  apply never_true_bind.
  - destruct (contains marker_302 response); [|apply never_true_ret].
    destruct (regex_search match_location response) as [url'|].
    + apply never_true_bind; [apply never_true_web_response|intros r'].
      apply never_true_bind; [apply never_true_fail_if|intros _].
      apply never_true_ret.
    + apply never_true_bind;
        [apply never_true_trace|intros _; apply never_true_return_false].
  - intros ur.
    apply never_true_bind; [apply never_true_fail_if|intros _].
    apply never_true_ret.
Qed.

Lemma never_true_metadata (env : Env) (response : str) :
  never_true (metadata env response).
Proof.
  unfold metadata.
  apply never_true_bind; [apply never_true_lift|intros md5].
  apply never_true_bind; [apply never_true_fail_if|intros _].
  apply never_true_bind; [apply never_true_lift|intros size].
  apply never_true_bind; [apply never_true_fail_if|intros _].
  apply never_true_ret.
Qed.

Lemma never_true_open_stream (hs : Z -> Z -> bool) (env : Env)
  (url path response : str) (file_size : Z) :
  never_true (open_stream hs env url path response file_size).
Proof.
  intros w. unfold open_stream.
  destruct (init_in env w url (lit "GET") (file_length w path))
    as [[https c] w1].
  destruct (ssl https); [discriminate|].
  destruct (read_into _ (c_reads c) (c_fail c)) as [[buf n] reads].
  destruct (contains marker_404 (c_str buf)); [discriminate|].
  destruct (hs n _); discriminate.
Qed.

Lemma never_true_prelude (hs : Z -> Z -> bool) (env : Env) (url path : str) :
  never_true (prelude hs env url path).
Proof.
  unfold prelude.
  apply never_true_bind; [apply never_true_probe|intros ur].
  apply never_true_bind; [apply never_true_metadata|intros m].
  apply never_true_bind; [apply never_true_open_stream|intros st].
  apply never_true_ret.
Qed.





(** ** The final checks *)

Lemma str_eqb_eq (a b : str) : str_eqb a b = true <-> a = b.
Proof.
  unfold str_eqb. destruct (list_eq_dec ascii_dec a b); split; congruence.
Qed.

Lemma finish_size_short (MD5 : str -> byte_array) (ss : Z -> Z -> bool)
  (env : Env) (path md5 : str) (file_size : Z) (st : Loop) (w : World) :
  ss (l_downloaded st) file_size = true ->
  exists w' t,
    finish MD5 ss env path md5 file_size st w = (Return false, w')
    /\ w_trace w' = w_trace w ++ t ++ [size_verdict (last_signal env st w)]
    /\ opens t = [] /\ filter is_file_event t = []
    /\ w_files w' = w_files w.
Proof.
  intros Hs. unfold finish, bind, trace, call_progress, fail_if, last_signal.
  rewrite Hs. unfold bind, trace, return_. simpl.
  destruct (e_callback env) as [cb|]; simpl.
  - eexists. exists (close_session ++ [Progress (w_calls w)]).
    split; [reflexivity|]. simpl. rewrite <- !app_assoc. now repeat split.
  - eexists. exists close_session.
    split; [reflexivity|]. simpl. rewrite <- !app_assoc. now repeat split.
Qed.

Lemma finish_size_ok (MD5 : str -> byte_array) (ss : Z -> Z -> bool)
  (env : Env) (path md5 : str) (file_size : Z) (st : Loop) (w : World) :
  ss (l_downloaded st) file_size = false ->
  (file_digest MD5 w path = md5 ->
   exists w',
     finish MD5 ss env path md5 file_size st w = (Next true, w')
     /\ w_files w' = w_files w)
  /\ (file_digest MD5 w path <> md5 ->
      exists w' t,
        finish MD5 ss env path md5 file_size st w = (Return false, w')
        /\ w_files w' path = None
        /\ w_trace w' = w_trace w ++ t ++ [FileRemove path]
        /\ opens t = []).
Proof.
  intros Hs. unfold finish, bind, trace, call_progress, fail_if.
  rewrite Hs. unfold ret, bind, calculate_md5_file, file_digest. simpl.
  assert (Hself : str_eqb path path = true) by now apply str_eqb_eq.
  split; intros Hd.
  - destruct (e_callback env) as [cb|]; simpl;
      destruct (w_files w path) as [content|] eqn:F; simpl;
      subst md5;
      match goal with
      | |- context [str_eqb ?a ?a] =>
          replace (str_eqb a a) with true
            by (symmetry; now apply str_eqb_eq)
      end; simpl; eexists; split; reflexivity.
  - assert (Hne : forall d, d <> md5 -> negb (str_eqb d md5) = true).
    { intros d Hdm. destruct (str_eqb d md5) eqn:E; [|reflexivity].
      apply str_eqb_eq in E. contradiction. }
    destruct (e_callback env) as [cb|]; simpl;
      destruct (w_files w path) as [content|] eqn:F; simpl;
      rewrite (Hne _ Hd); simpl; rewrite ?Hself.
    + eexists. exists (close_session ++ [Progress (w_calls w)]
                         ++ [LogError Corrupted]).
      split; [reflexivity|]. simpl. rewrite Hself, <- !app_assoc.
      now repeat split.
    + eexists. exists (close_session ++ [Progress (w_calls w)]
                         ++ [LogError OpenForHashFailed; LogError Corrupted]).
      split; [reflexivity|]. simpl. rewrite Hself, <- !app_assoc.
      now repeat split.
    + eexists. exists (close_session ++ [LogError Corrupted]).
      split; [reflexivity|]. simpl. rewrite Hself, <- !app_assoc.
      now repeat split.
    + eexists. exists (close_session
                         ++ [LogError OpenForHashFailed; LogError Corrupted]).
      split; [reflexivity|]. simpl. rewrite Hself, <- !app_assoc.
      now repeat split.
Qed.

Lemma metadata_next (env : Env) (response : str) (w w' : World)
  (m : str * Z) :
  metadata env response w = (Next m, w') ->
  w' = w
  /\ get_content_md5 (e_stack env) response = Ret (fst m)
  /\ is_empty (fst m) = false
  /\ get_file_size response = Ret (snd m)
  /\ snd m <> 0.
Proof.
  unfold metadata, bind, lift, fail_if.
  destruct (get_content_md5 (e_stack env) response) as [md5|f];
    [|discriminate].
  unfold ret at 1. destruct (is_empty md5) eqn:E.
  { unfold bind, trace, return_. discriminate. }
  unfold ret at 1. destruct (get_file_size response) as [size|f];
    [|discriminate].
  unfold ret at 1. destruct (size =? 0) eqn:Z0.
  { unfold bind, trace, return_. discriminate. }
  unfold ret. intros H. injection H as <- <-. simpl.
  apply Z.eqb_neq in Z0. now repeat split.
Qed.

Lemma prelude_next (hs : Z -> Z -> bool) (env : Env) (url path : str)
  (w w1 : World) (ur : str * str) (m : str * Z) (st0 : Loop) :
  prelude hs env url path w = (Next (ur, m, st0), w1) ->
  exists wa,
    probe env url w = (Next ur, wa)
    /\ metadata env (snd ur) wa = (Next m, wa)
    /\ open_stream hs env (fst ur) path (snd ur) (snd m) wa = (Next st0, w1).
Proof.
  unfold prelude, bind.
  destruct (probe env url w) as [[ur'|b|f] wa]; try discriminate.
  destruct (metadata env (snd ur') wa) as [[m'|b|f] wb] eqn:Hm;
    try discriminate.
  destruct (metadata_next _ _ _ _ _ Hm) as (-> & _).
  destruct (open_stream hs env (fst ur') path (snd ur') (snd m') wa)
    as [[st'|b|f] wc] eqn:Ho; try discriminate.
  unfold ret. intros H. injection H as E1 E2 E3 E4. subst.
  exists wa. now repeat split.
Qed.

(** ** Calls that return *)



















(** C2.  When a call reaches the integrity check and the digest of the
    output file differs from the checksum decoded from the probe's
    [Content-MD5] header, [download_file] removes the output file and
    returns [false]. *)
Theorem checksum_mismatch_removes_file (MD5 : str -> byte_array)
  (hs ss : Z -> Z -> bool) (fuel : nat) (env : Env) (url path : str)
  (w w1 w2 : World) (ur : str * str) (m : str * Z) (st0 st : Loop)
  (content_md5 : str) :
  prelude hs env url path w = (Next (ur, m, st0), w1) ->
  stream_loop fuel env path st0 w1 = Some (Next st, w2) ->
  ss (l_downloaded st) (snd m) = false ->
  get_content_md5 (e_stack env) (snd ur) = Ret content_md5 ->
  file_digest MD5 w2 path <> content_md5 ->
  exists w' t,
    download_file MD5 hs ss fuel env url path w = Some (Ret false, w')
    /\ w_files w' path = None
    /\ w_trace w' = w_trace w2 ++ t ++ [FileRemove path]
    /\ opens t = [].
Proof.
  intros P L S G D. unfold download_file. rewrite P, L.
  pose proof (prelude_next _ _ _ _ _ _ _ _ _ P) as (wa & _ & Hm & _).
  apply metadata_next in Hm as (_ & Hmd5 & _).
  rewrite G in Hmd5. injection Hmd5 as ->.
  destruct (finish_size_ok MD5 ss env path (fst m) (snd m) st w2 S)
    as (_ & Hbad).
  destruct (Hbad D) as (wf & t & F & Hnone & Htr & Hop).
  exists wf, t. rewrite F. now repeat split.
Qed.

Lemma checksum_mismatch_removes_file_witness :
  exists w' t,
    download_file demo_md5_other demo_short demo_short 10
      (demo_env demo_head [lit "hello"; lit "world"])
      demo_url demo_path demo_world = Some (Ret false, w')
    /\ w_files w' demo_path = None
    /\ exists w2,
        w_trace w' = w_trace w2 ++ t ++ [FileRemove demo_path]
        /\ opens t = [].
Proof.
  edestruct (checksum_mismatch_removes_file demo_md5_other demo_short
               demo_short 10 (demo_env demo_head [lit "hello"; lit "world"])
               demo_url demo_path demo_world)
    as (w' & t & E & N & T & O).
  - cbv. reflexivity.
  - cbv. reflexivity.
  - reflexivity.
  - cbv. reflexivity.
  - cbv. discriminate.
  - exists w', t. split; [exact E|]. split; [exact N|].
    eexists. split; [exact T|exact O].
Defined.

(** C5.  When the loop ends with a size short of the tolerance,
    [download_file] returns [false]; its last act is one log line, an error
    (transfer failure) when the last control signal says "continue" and a
    warning (cancellation) when it says "stop"; no connection is opened
    afterwards and the output file is left as it is. *)
Theorem short_size_is_terminal (MD5 : str -> byte_array)
  (hs ss : Z -> Z -> bool) (fuel : nat) (env : Env) (url path : str)
  (w w1 w2 : World) (ur : str * str) (m : str * Z) (st0 st : Loop) :
  prelude hs env url path w = (Next (ur, m, st0), w1) ->
  stream_loop fuel env path st0 w1 = Some (Next st, w2) ->
  ss (l_downloaded st) (snd m) = true ->
  exists w' t verdict,
    download_file MD5 hs ss fuel env url path w = Some (Ret false, w')
    /\ w_trace w' = w_trace w2 ++ t ++ [verdict]
    /\ (download (last_signal env st w2) = true ->
        verdict = LogError SizeMismatch)
    /\ (download (last_signal env st w2) = false ->
        verdict = LogWarn CanceledByUser)
    /\ opens t = []
    /\ w_files w' = w_files w2.
Proof.
  intros P L S. unfold download_file. rewrite P, L.
  destruct (finish_size_short MD5 ss env path (fst m) (snd m) st w2 S)
    as (wf & t & F & Htr & Hop & _ & Hfiles).
  exists wf, t, (size_verdict (last_signal env st w2)). rewrite F.
  unfold size_verdict.
  repeat split; try assumption; intros ->; reflexivity.
Qed.

Lemma short_size_is_terminal_witness :
  exists w' t,
    download_file demo_md5 demo_short demo_short 10
      (demo_env demo_head [lit "hello"])
      demo_url demo_path demo_world = Some (Ret false, w')
    /\ exists w2,
        w_trace w' = w_trace w2 ++ t ++ [LogError SizeMismatch]
        /\ opens t = []
        /\ w_files w' = w_files w2.
Proof.
  edestruct (short_size_is_terminal demo_md5 demo_short demo_short 10
               (demo_env demo_head [lit "hello"])
               demo_url demo_path demo_world)
    as (w' & t & v & E & T & Herr & _ & O & F).
  - cbv. reflexivity.
  - cbv. reflexivity.
  - reflexivity.
  - exists w', t. split; [exact E|]. eexists. split; [|split].
    + rewrite T. rewrite Herr by reflexivity. reflexivity.
    + exact O.
    + exact F.
Defined.

(** ** The probing phase leaves the output file alone *)

Lemma plain_probe_event (t : list Event) :
  forallb plain t = true -> forallb probe_event t = true.
Proof.
  induction t as [|e t IH]; simpl; [reflexivity|].
  intros H. apply andb_prop in H as [He Ht]. rewrite (IH Ht), andb_true_r.
  destruct e; try reflexivity; discriminate.
Qed.

Lemma quiet_ret {A : Type} (a : A) : quiet (ret a).
Proof. intros w. exists []. split; [apply quiet_step_refl|reflexivity]. Qed.

Lemma quiet_raise {A : Type} (f : Failure) : quiet (@raise A f).
Proof. intros w. exists []. split; [apply quiet_step_refl|reflexivity]. Qed.

Lemma quiet_return {A : Type} (b : bool) : quiet (@return_ A b).
Proof. intros w. exists []. split; [apply quiet_step_refl|reflexivity]. Qed.

Lemma quiet_trace (t : list Event) :
  forallb probe_event t = true -> quiet (trace t).
Proof. intros H w. exists t. split; [apply quiet_step_emit|exact H]. Qed.

Lemma quiet_bind {A B : Type} (m : M A) (k : A -> M B) :
  quiet m -> (forall a, quiet (k a)) -> quiet (bind m k).
Proof.
  intros Hm Hk w. unfold bind. destruct (Hm w) as (t1 & Q1 & P1).
  destruct (m w) as [[a|b|f] w1]; simpl in Q1; [|now exists t1..].
  destruct (Hk a w1) as (t2 & Q2 & P2). exists (t1 ++ t2). split.
  - eapply quiet_step_trans; eassumption.
  - now rewrite forallb_app, P1, P2.
Qed.

Lemma quiet_lift {A : Type} (r : Res A) : quiet (lift r).
Proof. destruct r; [apply quiet_ret|apply quiet_raise]. Qed.

Lemma quiet_fail_if (c : bool) (t : list Event) :
  forallb probe_event t = true -> quiet (fail_if c t).
Proof.
  intros H. unfold fail_if. destruct c; [|apply quiet_ret].
  apply quiet_bind; [now apply quiet_trace|intros _; apply quiet_return].
Qed.

Lemma quiet_web_response (env : Env) (url : str) :
  quiet (web_response env url (lit "HEAD")).
Proof.
  intros w. unfold web_response.
  destruct (get_web_response_step env w url (lit "HEAD")) as (t & Q & P).
  exists (Open url (lit "HEAD") 0 :: t). split.
  - destruct (get_web_response env w url (lit "HEAD")) as [[r|f] w1];
      exact Q.
  - simpl. now apply plain_probe_event.
Qed.

Lemma quiet_probe (env : Env) (url : str) : quiet (probe env url).
Proof.
  unfold probe.
  apply quiet_bind; [apply quiet_web_response|intros response].
  apply quiet_bind; [now apply quiet_fail_if|intros _].
  apply quiet_bind.
  - destruct (contains marker_302 response); [|apply quiet_ret].
    destruct (regex_search match_location response) as [url'|].
    + apply quiet_bind; [apply quiet_web_response|intros r'].
      apply quiet_bind; [now apply quiet_fail_if|intros _].
      apply quiet_ret.
    + apply quiet_bind; [now apply quiet_trace|intros _; apply quiet_return].
  - intros ur. apply quiet_bind; [now apply quiet_fail_if|intros _].
    apply quiet_ret.
Qed.

Lemma quiet_metadata (env : Env) (response : str) :
  quiet (metadata env response).
Proof.
  unfold metadata.
  apply quiet_bind; [apply quiet_lift|intros md5].
  apply quiet_bind; [now apply quiet_fail_if|intros _].
  apply quiet_bind; [apply quiet_lift|intros size].
  apply quiet_bind; [now apply quiet_fail_if|intros _].
  apply quiet_ret.
Qed.

(** ** What a capture holds *)

Lemma take_while_forallb (f : ascii -> bool) (s : str) :
  forallb f (take_while f s) = true.
Proof.
  induction s as [|c s IH]; simpl; [reflexivity|].
  destruct (f c) eqn:E; simpl; [now rewrite E|reflexivity].
Qed.

Lemma capture_in_class (l : str) (cls : ascii -> bool) (s cap : str) :
  regex_search (match_lit_class l cls) s = Some cap ->
  forallb cls cap = true.
Proof.
  induction s as [|c s IH]; cbn [regex_search]; unfold match_lit_class at 1.
  - destruct (starts_with l []); [|discriminate].
    pose proof (take_while_forallb cls (skipn (List.length l) [])) as T.
    destruct (take_while cls (skipn (List.length l) [])); [discriminate|].
    intros H. injection H as <-. exact T.
  - destruct (starts_with l (c :: s)); [|exact IH].
    pose proof (take_while_forallb cls (skipn (List.length l) (c :: s))) as T.
    destruct (take_while cls (skipn (List.length l) (c :: s))); [exact IH|].
    intros H. injection H as <-. exact T.
Qed.

(** ** C3: missing metadata *)

Lemma regex_search_absent (l : str) (cls : ascii -> bool) (s : str) :
  contains l s = false -> regex_search (match_lit_class l cls) s = None.
Proof.
  unfold contains. induction s as [|c s IH]; cbn [find regex_search];
    unfold match_lit_class at 1.
  - destruct (starts_with l []); [discriminate|reflexivity].
  - destruct (starts_with l (c :: s)); [discriminate|].
    destruct (find l s); [discriminate|]. intros _. now apply IH.
Qed.

(** A header block without [Content-MD5: ] yields the empty checksum. *)
Lemma get_content_md5_absent (stack : byte_array) (header : str) :
  contains (lit "Content-MD5: ") header = false ->
  get_content_md5 stack header = Ret [].
Proof.
  intros H. unfold get_content_md5.
  now rewrite (regex_search_absent _ md5_class header H).
Qed.

(** A header block without [Content-Length: ] yields the length 0. *)
Lemma get_file_size_absent (header : str) :
  contains (lit "Content-Length: ") header = false ->
  get_file_size header = Ret 0.
Proof.
  intros H. unfold get_file_size.
  now rewrite (regex_search_absent _ isdigit header H).
Qed.

(** The all-digit test of [get_file_size] never fails: the pattern captures
    digits only. *)
Lemma get_file_size_capture_numeric (header cap : str) :
  regex_search (match_lit_class (lit "Content-Length: ") isdigit) header
  = Some cap ->
  forallb isdigit cap = true.
Proof. apply capture_in_class. Qed.

Lemma metadata_missing (env : Env) (response : str) (w : World) :
  get_content_md5 (e_stack env) response = Ret []
  \/ ((exists md5, get_content_md5 (e_stack env) response = Ret md5)
      /\ get_file_size response = Ret 0) ->
  fst (metadata env response w) = Return false.
Proof.
  unfold metadata, bind, lift, fail_if, trace, return_, ret.
  intros [E|[[md5 E] S]]; rewrite E; simpl; [reflexivity|].
  destruct (is_empty md5); [reflexivity|]. rewrite S. reflexivity.
Qed.

(** C3.  When the header block the probe settles on yields an empty checksum,
    or yields a checksum and the declared length 0, [download_file] returns
    [false]; up to that return the files are unchanged, the output file was
    neither opened nor written, and only [HEAD] connections were made. *)
Theorem missing_metadata_fails (MD5 : str -> byte_array)
  (hs ss : Z -> Z -> bool) (fuel : nat) (env : Env) (url path : str)
  (w w1 : World) (ur : str * str) :
  probe env url w = (Next ur, w1) ->
  get_content_md5 (e_stack env) (snd ur) = Ret []
  \/ ((exists md5, get_content_md5 (e_stack env) (snd ur) = Ret md5)
      /\ get_file_size (snd ur) = Ret 0) ->
  exists w' t,
    download_file MD5 hs ss fuel env url path w = Some (Ret false, w')
    /\ w_trace w' = w_trace w ++ t
    /\ w_files w' = w_files w
    /\ forallb probe_event t = true.
Proof.
  intros P H. unfold download_file, prelude, bind. rewrite P.
  pose proof (metadata_missing env (snd ur) w1 H) as Hm.
  destruct (quiet_probe env url w) as (t1 & Q1 & P1). rewrite P in Q1.
  destruct (quiet_metadata env (snd ur) w1) as (t2 & Q2 & P2).
  destruct (metadata env (snd ur) w1) as [r w2]. simpl in Hm, Q1, Q2.
  subst r. exists w2, (t1 ++ t2).
  destruct (quiet_step_trans _ _ _ _ _ Q1 Q2) as (A & B & _).
  repeat split; try assumption. now rewrite forallb_app, P1, P2.
Qed.

Lemma missing_metadata_fails_witness :
  exists w' t,
    download_file demo_md5 demo_short demo_short 10
      (demo_env demo_head_no_md5 [lit "hello"; lit "world"])
      demo_url demo_path demo_world = Some (Ret false, w')
    /\ w_trace w' = w_trace demo_world ++ t
    /\ w_files w' = w_files demo_world
    /\ forallb probe_event t = true.
Proof.
  eapply (missing_metadata_fails demo_md5 demo_short demo_short 10
            (demo_env demo_head_no_md5 [lit "hello"; lit "world"])
            demo_url demo_path demo_world).
  - cbv. reflexivity.
  - left. reflexivity.
Defined.

(** ** C4: redirects *)

Lemma opens_app (t1 t2 : list Event) : opens (t1 ++ t2) = opens t1 ++ opens t2.
Proof. apply filter_app. Qed.

Lemma probe_after_302 (env : Env) (url response : str) (w w1 : World) :
  get_web_response env w url (lit "HEAD") = (Ret response, w1) ->
  is_empty response = false ->
  contains marker_302 response = true ->
  probe env url w
  = match regex_search match_location response with
    | Some url' =>
        match get_web_response env w1 url' (lit "HEAD") with
        | (Abort f, w2) => (Raise f, w2)
        | (Ret response', w2) =>
            if is_empty response'
            then (Return false, emit w2 [LogError RedirectHeaderFetchFailed])
            else if contains marker_404 response'
                 then (Return false, emit w2 [LogError NotFound404])
                 else (Next (url', response'), w2)
        end
    | None => (Return false, emit w1 [LogError NoRedirectLocation])
    end.
Proof.
  intros G E R. unfold probe, bind, web_response at 1. rewrite G.
  unfold fail_if at 1. rewrite E. unfold ret at 1. rewrite R.
  destruct (regex_search match_location response) as [url'|];
    [|reflexivity].
  unfold bind, web_response.
  destruct (get_web_response env w1 url' (lit "HEAD")) as [[r'|f] w2];
    [|reflexivity].
  unfold fail_if. destruct (is_empty r'); [reflexivity|].
  unfold ret, bind, trace, return_. change (snd (url', r')) with r'.
  destruct (contains marker_404 r'); reflexivity.
Qed.

(** C4.  After a first probe response that carries the 302 marker:
    when the [Location] pattern matches, the captured URL is probed once,
    with [HEAD], and the outcome of that second probe is final, whatever
    status it carries: it supplies the URL and the header block for the
    rest of the call, and the probing phase opens exactly these two
    connections; when the pattern does not match, [download_file] returns
    [false] having opened only the first connection. *)
Theorem redirect_single_hop (env : Env) (url response : str) (w w1 : World) :
  get_web_response env w url (lit "HEAD") = (Ret response, w1) ->
  contains marker_302 response = true ->
  (forall url',
      regex_search match_location response = Some url' ->
      probe env url w
      = match get_web_response env w1 url' (lit "HEAD") with
        | (Abort f, w2) => (Raise f, w2)
        | (Ret response', w2) =>
            if is_empty response'
            then (Return false, emit w2 [LogError RedirectHeaderFetchFailed])
            else if contains marker_404 response'
                 then (Return false, emit w2 [LogError NotFound404])
                 else (Next (url', response'), w2)
        end
      /\ exists t,
          w_trace (snd (probe env url w)) = w_trace w ++ t
          /\ opens t = [Open url (lit "HEAD") 0; Open url' (lit "HEAD") 0])
  /\ (regex_search match_location response = None ->
      forall (MD5 : str -> byte_array) (hs ss : Z -> Z -> bool)
             (fuel : nat) (path : str),
      exists w' t,
        download_file MD5 hs ss fuel env url path w = Some (Ret false, w')
        /\ w_trace w' = w_trace w ++ t
        /\ opens t = [Open url (lit "HEAD") 0]).
Proof.
  intros G R.
  assert (E : is_empty response = false)
    by (destruct response; [discriminate R|reflexivity]).
  pose proof (probe_after_302 env url response w w1 G E R) as P.
  destruct (get_web_response_step env w url (lit "HEAD")) as (t1 & Q1 & P1).
  rewrite G in Q1. simpl in Q1. destruct Q1 as (T1 & _).
  split.
  - intros url' L. rewrite L in P. split; [exact P|].
    rewrite P.
    destruct (get_web_response_step env w1 url' (lit "HEAD"))
      as (t2 & Q2 & P2).
    destruct (get_web_response env w1 url' (lit "HEAD")) as [[r'|f] w2];
      simpl in Q2; destruct Q2 as (T2 & _).
    + assert (Hbase : opens ((Open url (lit "HEAD") 0 :: t1)
                               ++ Open url' (lit "HEAD") 0 :: t2)
                      = [Open url (lit "HEAD") 0; Open url' (lit "HEAD") 0]).
      { rewrite opens_app. simpl.
        now rewrite (opens_plain t1 P1), (opens_plain t2 P2). }
      destruct (is_empty r'); [|destruct (contains marker_404 r')];
        cbn [snd emit w_trace].
      * exists (((Open url (lit "HEAD") 0 :: t1)
                   ++ Open url' (lit "HEAD") 0 :: t2)
                  ++ [LogError RedirectHeaderFetchFailed]).
        split; [now rewrite T2, T1, <- !app_assoc|].
        rewrite opens_app, Hbase. reflexivity.
      * exists (((Open url (lit "HEAD") 0 :: t1)
                   ++ Open url' (lit "HEAD") 0 :: t2)
                  ++ [LogError NotFound404]).
        split; [now rewrite T2, T1, <- !app_assoc|].
        rewrite opens_app, Hbase. reflexivity.
      * exists ((Open url (lit "HEAD") 0 :: t1)
                  ++ Open url' (lit "HEAD") 0 :: t2).
        split; [now rewrite T2, T1, <- !app_assoc|exact Hbase].
    + cbn [snd].
      exists ((Open url (lit "HEAD") 0 :: t1)
                ++ Open url' (lit "HEAD") 0 :: t2).
      split; [now rewrite T2, T1, <- !app_assoc|].
      rewrite opens_app. simpl.
      now rewrite (opens_plain t1 P1), (opens_plain t2 P2).
  - intros L MD5 hs ss fuel path. rewrite L in P.
    unfold download_file, prelude, bind. rewrite P.
    exists (emit w1 [LogError NoRedirectLocation]),
           ((Open url (lit "HEAD") 0 :: t1) ++ [LogError NoRedirectLocation]).
    split; [reflexivity|]. split.
    + cbn [emit w_trace]. now rewrite T1, <- !app_assoc.
    + rewrite opens_app. simpl. now rewrite (opens_plain t1 P1).
Qed.

Lemma redirect_single_hop_witness :
  exists t,
    w_trace (snd (probe demo_env_302 demo_url demo_world))
    = w_trace demo_world ++ t
    /\ opens t = [Open demo_url (lit "HEAD") 0;
                  Open (lit "https://mirror.example/a.zip") (lit "HEAD") 0].
Proof.
  edestruct (redirect_single_hop demo_env_302 demo_url demo_head_302
               demo_world) as [A _].
  - cbv. reflexivity.
  - reflexivity.
  - destruct (A (lit "https://mirror.example/a.zip") eq_refl) as (_ & W).
    exact W.
Defined.

(** ** The base64 decoder of [get_content_md5] *)

(** *** Bit arithmetic of the accumulator *)

Lemma lor_low (x v : Z) :
  0 <= x -> 0 <= v < 64 -> Z.lor (x * 64) v = x * 64 + v.
Proof.
  intros Hx Hv.
  rewrite <- Z.lxor_lor, <- Z.add_nocarry_lxor; try reflexivity.
  all: apply Z.bits_inj'; intros n Hn; rewrite Z.land_spec, Z.bits_0;
    destruct (Z.lt_ge_cases n 6) as [L|G].
  all: try (change 64 with (2 ^ 6);
            rewrite Z.mul_pow2_bits_low by lia; reflexivity).
  all: rewrite (Z.bits_above_log2 v n), andb_false_r;
    try reflexivity; try lia.
  all: destruct (Z.eq_dec v 0) as [->|Hz]; [simpl; lia|].
  all: apply Z.lt_le_trans with 6; [|lia]; apply Z.log2_lt_pow2; lia.
Qed.

Lemma feed_arith (acc v : Z) :
  0 <= acc -> 0 <= v < 64 -> feed acc v = (acc * 64 + v) mod 2 ^ 32.
Proof.
  intros Ha Hv. unfold feed. rewrite Z.shiftl_mul_pow2 by lia.
  change (2 ^ 6) with 64. change (2 ^ 32) with 4294967296.
  assert (E : (acc * 64) mod 4294967296 = (acc mod 67108864) * 64).
  { Z.div_mod_to_equations. lia. }
  rewrite E. rewrite lor_low; [|Z.div_mod_to_equations; lia|lia].
  Z.div_mod_to_equations. lia.
Qed.

Lemma feed_range (acc v : Z) :
  0 <= acc -> 0 <= v < 64 -> 0 <= feed acc v < 2 ^ 32.
Proof.
  intros. rewrite feed_arith by lia. apply Z.mod_pos_bound. lia.
Qed.

(** The byte stored after the second character of a group. *)
Lemma byte1 (acc v1 v2 : Z) :
  0 <= acc -> 0 <= v1 < 64 -> 0 <= v2 < 64 ->
  Z.land (Z.shiftr (feed (feed acc v1) v2) 4) 255 = v1 * 4 + v2 / 16.
Proof.
  intros. pose proof (feed_range acc v1).
  rewrite (feed_arith (feed acc v1)) by lia.
  rewrite (feed_arith acc) by lia.
  change 255 with (Z.ones 8). rewrite Z.land_ones by lia.
  rewrite Z.shiftr_div_pow2 by lia.
  change (2 ^ 32) with 4294967296. change (2 ^ 4) with 16.
  change (2 ^ 8) with 256.
  Z.div_mod_to_equations. lia.
Qed.

(** The byte stored after the third. *)
Lemma byte2 (acc v1 v2 v3 : Z) :
  0 <= acc -> 0 <= v1 < 64 -> 0 <= v2 < 64 -> 0 <= v3 < 64 ->
  Z.land (Z.shiftr (feed (feed (feed acc v1) v2) v3) 2) 255
  = v2 mod 16 * 16 + v3 / 4.
Proof.
  intros.
  pose proof (feed_range acc v1).
  pose proof (feed_range (feed acc v1) v2).
  rewrite (feed_arith (feed (feed acc v1) v2)) by lia.
  rewrite (feed_arith (feed acc v1)) by lia.
  change 255 with (Z.ones 8). rewrite Z.land_ones by lia.
  rewrite Z.shiftr_div_pow2 by lia.
  change (2 ^ 32) with 4294967296. change (2 ^ 2) with 4.
  change (2 ^ 8) with 256.
  Z.div_mod_to_equations. lia.
Qed.

(** The byte stored after the fourth. *)
Lemma byte3 (acc v3 v4 : Z) :
  0 <= acc -> 0 <= v3 < 64 -> 0 <= v4 < 64 ->
  Z.land (Z.shiftr (feed (feed acc v3) v4) 0) 255 = v3 mod 4 * 64 + v4.
Proof.
  intros.
  pose proof (feed_range acc v3).
  rewrite (feed_arith (feed acc v3)) by lia.
  rewrite (feed_arith acc) by lia.
  change 255 with (Z.ones 8). rewrite Z.land_ones by lia.
  rewrite Z.shiftr_0_r.
  change (2 ^ 32) with 4294967296. change (2 ^ 8) with 256.
  Z.div_mod_to_equations. lia.
Qed.

(** *** Alphabet characters *)

Lemma find_singleton_nth (c : ascii) (s : str) (n : nat) :
  find [c] s = Some n -> nth_error s n = Some c.
Proof.
  revert n. induction s as [|x s IH]; intros n; simpl; [discriminate|].
  destruct (Ascii.eqb c x) eqn:E; simpl.
  - intros H. injection H as <-. apply Ascii.eqb_eq in E. now subst.
  - destruct (find [c] s) as [k|]; simpl; [|discriminate].
    intros H. injection H as <-. simpl. now apply IH.
Qed.

Lemma sextet_facts (c : ascii) (n : nat) :
  sextet c = Some n ->
  (n < 64)%nat
  /\ isspace c || Ascii.eqb c "="%char = false
  /\ md5_class c = true.
Proof.
  intros H. apply find_singleton_nth in H.
  do 64 (destruct n as [|n];
         [injection H as <-; repeat split; try lia; reflexivity|]).
  destruct n; discriminate.
Qed.

(** *** One character, four characters, two characters *)

Lemma decode_step (c : ascii) (cs : str) (arr : byte_array) (i : nat)
  (acc bits : Z) (n : nat) :
  sextet c = Some n ->
  decode_loop (c :: cs) arr i acc bits
  = if 8 <=? bits + 6 then
      if (i <? MD5_DIGEST_LENGTH)%nat then
        decode_loop cs
          (write_at arr i
             (Z.land (Z.shiftr (feed acc (Z.of_nat n)) (bits + 6 - 8)) 255))
          (S i) (feed acc (Z.of_nat n)) (bits + 6 - 8)
      else Abort OutOfBounds
    else decode_loop cs arr i (feed acc (Z.of_nat n)) (bits + 6).
Proof.
  intros H. destruct (sextet_facts c n H) as (_ & S & _).
  cbn [decode_loop]. rewrite S. unfold sextet in H. rewrite H. reflexivity.
Qed.

Ltac in_bounds :=
  symmetry; apply Nat.ltb_lt; unfold MD5_DIGEST_LENGTH in *; lia.

Lemma decode_quad (c1 c2 c3 c4 : ascii) (n1 n2 n3 n4 : nat) (cs : str)
  (arr : byte_array) (i : nat) (acc : Z) :
  sextet c1 = Some n1 -> sextet c2 = Some n2 ->
  sextet c3 = Some n3 -> sextet c4 = Some n4 ->
  0 <= acc -> (i + 3 <= MD5_DIGEST_LENGTH)%nat ->
  exists acc',
    0 <= acc'
    /\ decode_loop (c1 :: c2 :: c3 :: c4 :: cs) arr i acc 0
       = decode_loop cs
           (write_at (write_at (write_at arr i
              (Z.of_nat n1 * 4 + Z.of_nat n2 / 16))
              (S i) (Z.of_nat n2 mod 16 * 16 + Z.of_nat n3 / 4))
              (S (S i)) (Z.of_nat n3 mod 4 * 64 + Z.of_nat n4))
           (S (S (S i))) acc' 0.
Proof.
  intros H1 H2 H3 H4 Ha Hi.
  destruct (sextet_facts c1 n1 H1) as (B1 & _).
  destruct (sextet_facts c2 n2 H2) as (B2 & _).
  destruct (sextet_facts c3 n3 H3) as (B3 & _).
  destruct (sextet_facts c4 n4 H4) as (B4 & _).
  set (v1 := Z.of_nat n1). set (v2 := Z.of_nat n2).
  set (v3 := Z.of_nat n3). set (v4 := Z.of_nat n4).
  assert (R1 : 0 <= v1 < 64) by (unfold v1; lia).
  assert (R2 : 0 <= v2 < 64) by (unfold v2; lia).
  assert (R3 : 0 <= v3 < 64) by (unfold v3; lia).
  assert (R4 : 0 <= v4 < 64) by (unfold v4; lia).
  pose proof (feed_range acc v1 Ha R1) as F1.
  pose proof (feed_range (feed acc v1) v2 (proj1 F1) R2) as F2.
  pose proof (feed_range (feed (feed acc v1) v2) v3 (proj1 F2) R3) as F3.
  pose proof (feed_range _ v4 (proj1 F3) R4) as F4.
  exists (feed (feed (feed (feed acc v1) v2) v3) v4). split; [lia|].
  rewrite (decode_step c1 _ _ _ _ _ n1 H1).
  change (8 <=? 0 + 6) with false. cbv iota.
  rewrite (decode_step c2 _ _ _ _ _ n2 H2).
  change (8 <=? 0 + 6 + 6) with true. cbv iota.
  replace (i <? MD5_DIGEST_LENGTH)%nat with true by in_bounds.
  rewrite (decode_step c3 _ _ _ _ _ n3 H3).
  change (8 <=? 0 + 6 + 6 - 8 + 6) with true. cbv iota.
  replace (S i <? MD5_DIGEST_LENGTH)%nat with true by in_bounds.
  rewrite (decode_step c4 _ _ _ _ _ n4 H4).
  change (8 <=? 0 + 6 + 6 - 8 + 6 - 8 + 6) with true. cbv iota.
  replace (S (S i) <? MD5_DIGEST_LENGTH)%nat with true by in_bounds.
  change (0 + 6 + 6 - 8) with 4. change (4 + 6 - 8) with 2.
  change (2 + 6 - 8) with 0.
  fold v1 v2 v3 v4.
  rewrite (byte1 acc v1 v2 Ha R1 R2).
  rewrite (byte2 acc v1 v2 v3 Ha R1 R2 R3).
  rewrite (byte3 (feed (feed acc v1) v2) v3 v4 (proj1 F2) R3 R4).
  reflexivity.
Qed.

Lemma decode_pair (c1 c2 : ascii) (n1 n2 : nat) (arr : byte_array)
  (i : nat) (acc : Z) :
  sextet c1 = Some n1 -> sextet c2 = Some n2 ->
  0 <= acc -> (i < MD5_DIGEST_LENGTH)%nat ->
  decode_loop [c1; c2] arr i acc 0
  = Ret (Some (write_at arr i (Z.of_nat n1 * 4 + Z.of_nat n2 / 16))).
Proof.
  intros H1 H2 Ha Hi.
  destruct (sextet_facts c1 n1 H1) as (B1 & _).
  destruct (sextet_facts c2 n2 H2) as (B2 & _).
  rewrite (decode_step c1 _ _ _ _ _ n1 H1).
  change (8 <=? 0 + 6) with false. cbv iota.
  rewrite (decode_step c2 _ _ _ _ _ n2 H2).
  change (8 <=? 0 + 6 + 6) with true. cbv iota.
  replace (i <? MD5_DIGEST_LENGTH)%nat with true by in_bounds.
  change (0 + 6 + 6 - 8) with 4.
  rewrite byte1 by lia. reflexivity.
Qed.

(** *** Skipped characters *)

Lemma decode_loop_payload (cs : str) (arr : byte_array) (i : nat)
  (acc bits : Z) :
  decode_loop cs arr i acc bits = decode_loop (payload cs) arr i acc bits.
Proof.
  revert arr i acc bits.
  induction cs as [|c cs IH]; intros arr i acc bits; [reflexivity|].
  unfold payload. cbn [filter]. fold (payload cs). unfold skipped at 1.
  destruct (isspace c || Ascii.eqb c "="%char) eqn:E;
    cbn [negb decode_loop]; rewrite E; [apply IH|].
  destruct (find [c] base64_chars); [|reflexivity].
  destruct (8 <=? bits + 6);
    [destruct (i <? MD5_DIGEST_LENGTH)%nat; [|reflexivity]|]; apply IH.
Qed.

Lemma payload_app (a b : str) : payload (a ++ b) = payload a ++ payload b.
Proof. apply filter_app. Qed.

(** *** Twenty-two characters *)

Lemma sextets_cons_inv (p : str) (vs : list Z) (k : nat) :
  sextets p = Some vs -> List.length vs = S k ->
  exists c n p' vs',
    p = c :: p' /\ vs = Z.of_nat n :: vs' /\ sextet c = Some n
    /\ sextets p' = Some vs' /\ List.length vs' = k.
Proof.
  destruct p as [|c p]; cbn [sextets].
  - intros H. injection H as <-. discriminate.
  - destruct (sextet c) as [n|] eqn:E; [|discriminate].
    destruct (sextets p) as [vs'|] eqn:S'; [|discriminate].
    intros H L. injection H as <-. simpl in L. injection L as L.
    exists c, n, p, vs'. now repeat split.
Qed.

Lemma sextets_nil_inv (p : str) (vs : list Z) :
  sextets p = Some vs -> List.length vs = 0%nat -> p = [] /\ vs = [].
Proof.
  destruct p as [|c p]; cbn [sextets].
  - intros H _. injection H as <-. now split.
  - destruct (sextet c); [|discriminate].
    destruct (sextets p); [|discriminate].
    intros H L. injection H as <-. discriminate.
Qed.

(** Names the head of a string known to consist of alphabet characters. *)
Ltac peel :=
  match goal with
  | H : sextets ?p = Some ?vs, L : List.length ?vs = S _ |- _ =>
      let c := fresh "c" in let n := fresh "n" in
      let p' := fresh "p" in let vs' := fresh "vs" in
      let E := fresh "E" in let S' := fresh "S" in let L' := fresh "L" in
      destruct (sextets_cons_inv p vs _ H L)
        as (c & n & p' & vs' & -> & -> & E & S' & L');
      clear H L
  end.

(** Decodes the next four characters of the goal's [decode_loop]. *)
Ltac quad :=
  match goal with
  | |- context [decode_loop (?c1 :: ?c2 :: ?c3 :: ?c4 :: ?cs) ?arr ?i ?acc 0] =>
      match goal with
      | H1 : sextet c1 = Some ?n1, H2 : sextet c2 = Some ?n2,
        H3 : sextet c3 = Some ?n3, H4 : sextet c4 = Some ?n4 |- _ =>
          let acc' := fresh "acc" in
          let Ha := fresh "Ha" in
          let Eq := fresh "Eq" in
          destruct (decode_quad c1 c2 c3 c4 n1 n2 n3 n4 cs arr i acc
                      H1 H2 H3 H4) as (acc' & Ha & Eq);
          [first [lia | assumption] | unfold MD5_DIGEST_LENGTH; lia |];
          rewrite Eq; clear Eq
      end
  end.

Lemma convert_ext (a b : byte_array) :
  (forall j, (j < MD5_DIGEST_LENGTH)%nat -> a j = b j) ->
  convert_md5_bytes_to_str a = convert_md5_bytes_to_str b.
Proof.
  intros H. unfold convert_md5_bytes_to_str.
  assert (G : forall l,
             (forall j, In j l -> (j < MD5_DIGEST_LENGTH)%nat) ->
             flat_map (fun i => sprintf_02X (a i)) l
             = flat_map (fun i => sprintf_02X (b i)) l).
  { induction l as [|x l IH]; intros Hl; cbn [flat_map]; [reflexivity|].
    rewrite (H x) by (apply Hl; now left). f_equal.
    apply IH. intros j Hj. apply Hl. now right. }
  apply G. intros j Hj. apply in_seq in Hj. lia.
Qed.

(** Twenty-two alphabet characters fill [md5_bytes] exactly, whatever it
    held before. *)
Lemma decode_22 (p : str) (vs : list Z) (stack : byte_array) :
  sextets p = Some vs -> List.length vs = 22%nat ->
  exists arr,
    decode_loop p stack 0 0 0 = Ret (Some arr)
    /\ forall j, (j < MD5_DIGEST_LENGTH)%nat ->
                 arr j = nth j (bytes_of_sextets vs) 0.
Proof.
  intros H L. do 22 peel.
  match goal with
  | H : sextets ?p = Some ?vs, L : List.length ?vs = 0%nat |- _ =>
      destruct (sextets_nil_inv p vs H L) as (-> & ->)
  end.
  do 5 quad.
  eexists. split.
  - apply decode_pair;
      [eassumption|eassumption|assumption|unfold MD5_DIGEST_LENGTH; lia].
  - intros j Hj. unfold MD5_DIGEST_LENGTH in Hj.
    do 16 (destruct j as [|j]; [reflexivity|]). lia.
Qed.

(** *** At most twenty-two characters, then an invalid one *)

(** While at most 22 alphabet characters have been consumed, every store
    is within [md5_bytes]: with [k] characters consumed, [8 * i +
    accum_bits = 6 * k]. *)
Lemma decode_prefix (p : str) :
  forall (vs : list Z) (arr : byte_array) (i : nat) (acc bits k : Z)
         (tail : str),
  sextets p = Some vs ->
  8 * Z.of_nat i + bits = 6 * k -> 0 <= bits ->
  k + Z.of_nat (List.length vs) <= 22 ->
  exists arr' i' acc' bits',
    decode_loop (p ++ tail) arr i acc bits
    = decode_loop tail arr' i' acc' bits'.
Proof.
  induction p as [|c p IH]; intros vs arr i acc bits k tail H Hk Hb Hn.
  - now exists arr, i, acc, bits.
  - cbn [sextets] in H. destruct (sextet c) as [n|] eqn:E; [|discriminate].
    destruct (sextets p) as [vs'|] eqn:S'; [|discriminate].
    injection H as <-. cbn [List.length] in Hn.
    cbn [app]. rewrite (decode_step c _ _ _ _ _ n E).
    destruct (8 <=? bits + 6) eqn:C.
    + apply Z.leb_le in C.
      replace (i <? MD5_DIGEST_LENGTH)%nat with true by in_bounds.
      apply (IH vs' _ _ _ _ (k + 1)); [reflexivity|lia|lia|lia].
    + apply Z.leb_gt in C.
      apply (IH vs' _ _ _ _ (k + 1)); [reflexivity|lia|lia|lia].
Qed.

Lemma decode_invalid (good rest : str) (c : ascii) (vs : list Z)
  (stack : byte_array) :
  sextets (payload good) = Some vs -> (List.length vs <= 22)%nat ->
  skipped c = false -> sextet c = None ->
  decode_loop (good ++ c :: rest) stack 0 0 0 = Ret None.
Proof.
  intros H L Hs Hc. rewrite decode_loop_payload, payload_app.
  unfold payload at 2. cbn [filter]. rewrite Hs. cbn [negb].
  fold (payload rest).
  destruct (decode_prefix (payload good) vs stack 0 0 0 0
              (c :: payload rest) H)
    as (arr' & i' & acc' & bits' & ->); [reflexivity|lia|lia|].
  cbn [decode_loop]. unfold skipped in Hs. rewrite Hs.
  unfold sextet in Hc. rewrite Hc. reflexivity.
Qed.

(** ** Searching a header block *)

Lemma take_while_all (f : ascii -> bool) (run post : str) :
  forallb f run = true ->
  match post with [] => true | c :: _ => negb (f c) end = true ->
  take_while f (run ++ post) = run.
Proof.
  intros Hr Hp. induction run as [|c run IH]; simpl.
  - destruct post as [|c post]; [reflexivity|]. simpl.
    destruct (f c); [discriminate|reflexivity].
  - simpl in Hr. apply andb_prop in Hr as [Hc Hr]. rewrite Hc. f_equal.
    now apply IH.
Qed.

Lemma regex_search_here {A : Type} (m : str -> option A) (s : str) (r : A) :
  m s = Some r -> regex_search m s = Some r.
Proof. intros H. destruct s; simpl; now rewrite H. Qed.

Lemma regex_search_skip {A : Type} (m : str -> option A) (pre s : str) :
  (forall k, (k < List.length pre)%nat -> m (skipn k pre ++ s) = None) ->
  regex_search m (pre ++ s) = regex_search m s.
Proof.
  induction pre as [|c pre IH]; intros H; [reflexivity|].
  cbn [app regex_search].
  pose proof (H 0%nat) as H0. cbn [skipn app] in H0.
  rewrite H0 by (simpl; lia).
  apply IH. intros k Hk. apply (H (S k)). simpl. lia.
Qed.

(** No proper suffix of [Content-MD5: ] is a prefix of it: a string that
    does not start with the header name does not start with it either once
    the header name is appended. *)
Lemma md5_header_no_overlap (q rest : str) :
  q <> [] -> starts_with (lit "Content-MD5: ") q = false ->
  starts_with (lit "Content-MD5: ") (q ++ lit "Content-MD5: " ++ rest)
  = false.
Proof.
  intros Hq H. destruct q as [|x q]; [contradiction|]. clear Hq.
  cbn [lit list_ascii_of_string app starts_with] in *.
  destruct (Ascii.eqb _ x); [|reflexivity]. cbn [andb] in *.
  do 12 (destruct q as [|?x q];
         [reflexivity|
          cbn [app starts_with] in *;
          destruct (Ascii.eqb _ _); [|reflexivity]; cbn [andb] in *]).
  discriminate H.
Qed.

Lemma starts_with_find (p s : str) (k : nat) :
  find p s = None -> starts_with p (skipn k s) = false.
Proof.
  revert k. induction s as [|c s IH]; intros k H.
  - destruct k; simpl in *; destruct (starts_with p []); congruence.
  - cbn [find] in H. destruct (starts_with p (c :: s)) eqn:E; [discriminate|].
    destruct (find p s); [discriminate|].
    destruct k as [|k]; [exact E|]. cbn [skipn]. now apply IH.
Qed.

Lemma md5_search_skip (cls : ascii -> bool) (pre rest : str) :
  contains (lit "Content-MD5: ") pre = false ->
  regex_search (match_lit_class (lit "Content-MD5: ") cls)
               (pre ++ lit "Content-MD5: " ++ rest)
  = regex_search (match_lit_class (lit "Content-MD5: ") cls)
                 (lit "Content-MD5: " ++ rest).
Proof.
  intros H. apply regex_search_skip. intros k Hk.
  unfold match_lit_class.
  rewrite md5_header_no_overlap; [reflexivity| |].
  - intros E. apply (f_equal (@List.length ascii)) in E.
    rewrite length_skipn in E. simpl in E. lia.
  - apply starts_with_find. unfold contains in H.
    destruct (find (lit "Content-MD5: ") pre); [discriminate|reflexivity].
Qed.

Lemma md5_capture (run post : str) :
  run <> [] -> forallb md5_class run = true ->
  match post with [] => true | c :: _ => negb (md5_class c) end = true ->
  match_lit_class (lit "Content-MD5: ") md5_class
                  (lit "Content-MD5: " ++ run ++ post)
  = Some run.
Proof.
  intros Hn Hr Hp. unfold match_lit_class.
  rewrite starts_with_app.
  rewrite skipn_app, skipn_all, Nat.sub_diag. cbn [skipn app].
  rewrite take_while_all by assumption.
  destruct run; [contradiction|reflexivity].
Qed.

(** ** The standard encoding *)

Lemma b64_char_sextet (v : Z) :
  0 <= v < 64 -> sextet (b64_char v) = Some (Z.to_nat v).
Proof.
  intros H. unfold b64_char.
  assert (L : (Z.to_nat v < 64)%nat) by lia.
  revert L. generalize (Z.to_nat v). clear H. intros n L.
  do 64 (destruct n as [|n]; [reflexivity|]). lia.
Qed.

Lemma sextets_payload_b64 (v : Z) (s : str) :
  0 <= v < 64 ->
  sextets (payload (b64_char v :: s))
  = option_map (cons v) (sextets (payload s)).
Proof.
  intros H. pose proof (b64_char_sextet v H) as E.
  destruct (sextet_facts _ _ E) as (_ & S & _).
  unfold payload. cbn [filter]. unfold skipped at 1. rewrite S. cbn [negb].
  cbn [sextets]. rewrite E. rewrite Z2Nat.id by lia.
  destruct (sextets _); reflexivity.
Qed.

Lemma md5_class_b64 (v : Z) : 0 <= v < 64 -> md5_class (b64_char v) = true.
Proof.
  intros H. pose proof (b64_char_sextet v H) as E.
  now destruct (sextet_facts _ _ E) as (_ & _ & C).
Qed.

Ltac sextet_range := Z.div_mod_to_equations; lia.

Lemma encode_sextets (d : list Z) :
  List.length d = 16%nat -> Forall (fun b => 0 <= b < 256) d ->
  forallb md5_class (base64_encode d) = true
  /\ exists vs,
      sextets (payload (base64_encode d)) = Some vs
      /\ List.length vs = 22%nat
      /\ forall j, (j < MD5_DIGEST_LENGTH)%nat ->
                   nth j (bytes_of_sextets vs) 0 = nth j d 0.
Proof.
  intros L F.
  do 16 (destruct d as [|?b d]; [discriminate L|]).
  destruct d; [|discriminate L]. clear L.
  repeat match goal with
         | H : Forall _ (_ :: _) |- _ =>
             let R := fresh "R" in
             apply Forall_cons_iff in H as [R H]
         end.
  cbn [base64_encode]. split.
  - cbn [forallb]. rewrite !md5_class_b64 by sextet_range. reflexivity.
  - rewrite !sextets_payload_b64 by sextet_range.
    eexists. split; [reflexivity|]. split; [reflexivity|].
    intros j Hj. unfold MD5_DIGEST_LENGTH in Hj.
    do 16 (destruct j as [|j]; [cbn [bytes_of_sextets nth]; sextet_range|]).
    lia.
Qed.

Lemma md5_class_not_space (c : ascii) : md5_class c = true -> isspace c = false.
Proof.
  destruct c as [[] [] [] [] [] [] [] []]; intros H;
    first [reflexivity|discriminate H].
Qed.

Lemma hex_digit_upper (n : Z) : is_upper_hex (hex_digit n) = true.
Proof.
  unfold hex_digit. generalize (Z.to_nat n). intros k.
  do 17 (destruct k as [|k]; [reflexivity|]). destruct k; reflexivity.
Qed.

Lemma convert_shape (a : byte_array) :
  List.length (convert_md5_bytes_to_str a) = 32%nat
  /\ forallb is_upper_hex (convert_md5_bytes_to_str a) = true.
Proof.
  split; [reflexivity|].
  unfold convert_md5_bytes_to_str, MD5_DIGEST_LENGTH, sprintf_02X.
  cbn [seq flat_map app forallb]. rewrite !hex_digit_upper. reflexivity.
Qed.

(** ** C7: checksum extraction *)

(** C7 (as amended).  For every header block and whatever the array
    [md5_bytes] holds on entry: when the pattern does not match,
    [get_content_md5] returns the empty string; when the captured value has,
    after at most 22 alphabet characters and any number of [=], a character
    that is neither in the alphabet nor [=], it returns the empty string;
    when the captured value consists of exactly 22 alphabet characters and
    any number of [=], which are skipped, it returns the 16 bytes they
    decode to, rendered as 32 uppercase hexadecimal characters. *)
Theorem get_content_md5_cases (stack : byte_array) (header : str) :
  (regex_search (match_lit_class (lit "Content-MD5: ") md5_class) header
   = None ->
   get_content_md5 stack header = Ret [])
  /\ (forall good c rest vs,
         regex_search (match_lit_class (lit "Content-MD5: ") md5_class) header
         = Some (good ++ c :: rest) ->
         sextets (payload good) = Some vs -> (List.length vs <= 22)%nat ->
         sextet c = None -> c <> "="%char ->
         get_content_md5 stack header = Ret [])
  /\ (forall cap vs,
         regex_search (match_lit_class (lit "Content-MD5: ") md5_class) header
         = Some cap ->
         sextets (payload cap) = Some vs -> List.length vs = 22%nat ->
         get_content_md5 stack header
         = Ret (convert_md5_bytes_to_str (array_of (bytes_of_sextets vs)))
         /\ List.length (bytes_of_sextets vs) = 16%nat
         /\ List.length (convert_md5_bytes_to_str
                           (array_of (bytes_of_sextets vs))) = 32%nat
         /\ forallb is_upper_hex
              (convert_md5_bytes_to_str (array_of (bytes_of_sextets vs)))
            = true).
Proof.
  unfold get_content_md5. split; [|split].
  - intros ->. reflexivity.
  - intros good c rest vs E S L Hc Hne. rewrite E.
    pose proof (capture_in_class _ _ _ _ E) as C.
    rewrite forallb_app in C. apply andb_prop in C as [_ C].
    cbn [forallb] in C. apply andb_prop in C as [C _].
    assert (Hs : skipped c = false).
    { unfold skipped. rewrite (md5_class_not_space c C).
      apply Ascii.eqb_neq. exact Hne. }
    now rewrite (decode_invalid good rest c vs stack S L Hs Hc).
  - intros cap vs E S L. rewrite E, decode_loop_payload.
    destruct (decode_22 (payload cap) vs stack S L) as (arr & D & A).
    rewrite D. split; [|split; [|apply convert_shape]].
    + f_equal. apply convert_ext. exact A.
    + do 22 (destruct vs as [|? vs]; [discriminate L|]).
      destruct vs; [reflexivity|discriminate L].
Qed.

Lemma get_content_md5_cases_witness :
  get_content_md5 (fun _ => 255) demo_head_no_md5 = Ret []
  /\ get_content_md5 (fun _ => 255) (lit "Content-MD5: AAEC-wQF") = Ret []
  /\ get_content_md5 (fun _ => 255) demo_head
     = Ret (lit "000102030405060708090A0B0C0D0E0F").
Proof.
  split; [|split].
  - apply (proj1 (get_content_md5_cases (fun _ => 255) demo_head_no_md5)).
    reflexivity.
  - apply (proj1 (proj2 (get_content_md5_cases (fun _ => 255)
                           (lit "Content-MD5: AAEC-wQF")))
             (lit "AAEC") "-"%char (lit "wQF") [0; 0; 4; 2]).
    + reflexivity.
    + reflexivity.
    + simpl. lia.
    + reflexivity.
    + discriminate.
  - apply (proj1
             (proj2 (proj2 (get_content_md5_cases (fun _ => 255) demo_head))
                (lit "AAECAwQFBgcICQoLDA0ODw==")
                [0; 0; 4; 2; 0; 48; 16; 5; 1; 32; 28; 8; 2; 16; 40; 11;
                 3; 0; 52; 14; 3; 48]
                eq_refl eq_refl eq_refl)).
Defined.

(** C7 as stated fails.  A captured value of four alphabet characters
    decodes to three bytes, and the string returned still has 32
    characters, 26 of them taken from whatever [md5_bytes] held on entry; a
    captured value of 23 alphabet characters stores a seventeenth byte past
    the end of [md5_bytes], and an invalid character after them is never
    reached. *)
Lemma get_content_md5_not_always_decoded :
  sextets (payload (lit "AAAA")) = Some [0; 0; 0; 0]
  /\ bytes_of_sextets [0; 0; 0; 0] = [0; 0; 0]
  /\ get_content_md5 (fun _ => 255) (lit "Content-MD5: AAAA")
     = Ret (lit "000000FFFFFFFFFFFFFFFFFFFFFFFFFF")
  /\ get_content_md5 (fun _ => 0) (lit "Content-MD5: AAAA")
     = Ret (lit "00000000000000000000000000000000")
  /\ get_content_md5 (fun _ => 0)
       (lit "Content-MD5: AAAAAAAAAAAAAAAAAAAAAAA-")
     = Abort OutOfBounds.
Proof. repeat split; vm_compute; reflexivity. Qed.

(** ** C10: decoding agrees with rendering *)

Lemma base64_encode_nonempty (d : list Z) :
  List.length d = 16%nat -> base64_encode d <> [].
Proof.
  do 3 (destruct d as [|? d]; [discriminate|]). intros _. discriminate.
Qed.

(** The rendering of sixteen bytes, digit by digit. *)
Lemma convert_digits (d : list Z) :
  List.length d = 16%nat ->
  Forall (fun b => 0 <= b < 256) d ->
  convert_md5_bytes_to_str (array_of d)
  = flat_map (fun b => [hex_digit (b / 16); hex_digit (b mod 16)]) d.
Proof.
  intros L F.
  do 16 (destruct d as [|? d]; [discriminate L|]).
  destruct d; [|discriminate L]. clear L.
  unfold convert_md5_bytes_to_str, MD5_DIGEST_LENGTH, sprintf_02X, array_of.
  cbn [seq flat_map app nth].
  repeat match goal with
         | H : Forall _ (_ :: _) |- _ =>
             let B := fresh "B" in
             let F' := fresh "F" in
             inversion H as [|? ? B F']; subst; clear H;
             rewrite (Z.mod_small _ 256 B)
         end.
  reflexivity.
Qed.

(** C10.  For a 16-byte digest [d], a header block whose first
    [Content-MD5: ] is followed by the standard base64 encoding of [d] (and
    then by the end of the block or a character the pattern does not admit,
    such as the line terminator) yields from [get_content_md5] exactly the
    string [convert_md5_bytes_to_str] renders [d] to: 32 uppercase
    hexadecimal characters, two per byte of [d], high digit first.  With
    that string as the expected checksum, the final part of [download_file]
    returns [true] for an output file whose MD5 digest is [d], once the size
    test has passed. *)
Theorem content_md5_round_trip (d : list Z) (stack : byte_array)
  (pre post : str) :
  List.length d = 16%nat ->
  Forall (fun b => 0 <= b < 256) d ->
  contains (lit "Content-MD5: ") pre = false ->
  match post with [] => true | c :: _ => negb (md5_class c) end = true ->
  exists content_md5,
    get_content_md5 stack
      (pre ++ lit "Content-MD5: " ++ base64_encode d ++ post)
    = Ret content_md5
    /\ content_md5 = convert_md5_bytes_to_str (array_of d)
    /\ content_md5
       = flat_map (fun b => [hex_digit (b / 16); hex_digit (b mod 16)]) d
    /\ List.length content_md5 = 32%nat
    /\ forallb is_upper_hex content_md5 = true
    /\ forall (MD5 : str -> byte_array) (ss : Z -> Z -> bool) (env : Env)
         (w : World) (path content : str) (file_size : Z) (st : Loop),
        w_files w path = Some content ->
        (forall i, (i < MD5_DIGEST_LENGTH)%nat -> MD5 content i = nth i d 0) ->
        ss (l_downloaded st) file_size = false ->
        exists w',
          finish MD5 ss env path content_md5 file_size st w = (Next true, w').
Proof.
  intros L F Hpre Hpost.
  destruct (encode_sextets d L F) as (C & vs & S & Lv & B).
  exists (convert_md5_bytes_to_str (array_of d)).
  split; [|split; [reflexivity|split; [now apply convert_digits|]]].
  - unfold get_content_md5.
    rewrite md5_search_skip by exact Hpre.
    rewrite (regex_search_here _ _ (base64_encode d));
      [|apply md5_capture;
        [now apply base64_encode_nonempty|exact C|exact Hpost]].
    rewrite decode_loop_payload.
    destruct (decode_22 (payload (base64_encode d)) vs stack S Lv)
      as (arr & D & A).
    rewrite D. f_equal. apply convert_ext. intros j Hj.
    rewrite (A j Hj). unfold array_of. now apply B.
  - split; [apply convert_shape|]. split; [apply convert_shape|].
    intros MD5 ss env w path content file_size st Hf Hd Hs.
    destruct (finish_size_ok MD5 ss env path
                (convert_md5_bytes_to_str (array_of d)) file_size st w Hs)
      as (Hok & _).
    destruct Hok as (w' & E & _); [|now exists w'].
    unfold file_digest. rewrite Hf. apply convert_ext. exact Hd.
Qed.

Lemma content_md5_round_trip_witness :
  exists content_md5,
    get_content_md5 (fun _ => 255) demo_head = Ret content_md5
    /\ content_md5
       = convert_md5_bytes_to_str
           (array_of [0; 1; 2; 3; 4; 5; 6; 7; 8; 9; 10; 11; 12; 13; 14; 15])
    /\ content_md5
       = flat_map (fun b => [hex_digit (b / 16); hex_digit (b mod 16)])
           [0; 1; 2; 3; 4; 5; 6; 7; 8; 9; 10; 11; 12; 13; 14; 15]
    /\ List.length content_md5 = 32%nat
    /\ forallb is_upper_hex content_md5 = true
    /\ forall (MD5 : str -> byte_array) (ss : Z -> Z -> bool) (env : Env)
         (w : World) (path content : str) (file_size : Z) (st : Loop),
        w_files w path = Some content ->
        (forall i, (i < MD5_DIGEST_LENGTH)%nat ->
                   MD5 content i
                   = nth i [0; 1; 2; 3; 4; 5; 6; 7; 8; 9; 10; 11; 12; 13;
                            14; 15] 0) ->
        ss (l_downloaded st) file_size = false ->
        exists w',
          finish MD5 ss env path content_md5 file_size st w = (Next true, w').
Proof.
  refine (content_md5_round_trip
            [0; 1; 2; 3; 4; 5; 6; 7; 8; 9; 10; 11; 12; 13; 14; 15]
            (fun _ => 255)
            (lit "HTTP/1.1 200 OK" ++ CRLF
               ++ lit "Content-Length: 10" ++ CRLF)
            (CRLF ++ CRLF) eq_refl _ eq_refl eq_refl).
  repeat constructor; lia.
Defined.

(** C10 as stated fails: it is the first [Content-MD5: ] of the header
    block that is decoded, wherever it occurs.  A block that contains
    [Content-MD5: ] followed by the encoding of 00 01 ... 0F, after a line
    [X-Content-MD5: ] carrying the encoding of FF ... FF, yields the
    rendering of the latter, and a file whose digest is the former is
    reported as corrupted and removed. *)
Lemma content_md5_first_occurrence_wins :
  demo_head_two_md5
  = (lit "HTTP/1.1 200 OK" ++ CRLF ++ lit "X-Content-MD5: "
       ++ base64_encode (repeat 255 16) ++ CRLF)
    ++ lit "Content-MD5: "
    ++ base64_encode [0; 1; 2; 3; 4; 5; 6; 7; 8; 9; 10; 11; 12; 13; 14; 15]
    ++ CRLF ++ CRLF
  /\ get_content_md5 (fun _ => 0) demo_head_two_md5
     = Ret (lit "FFFFFFFFFFFFFFFFFFFFFFFFFFFFFFFF")
  /\ convert_md5_bytes_to_str
       (array_of [0; 1; 2; 3; 4; 5; 6; 7; 8; 9; 10; 11; 12; 13; 14; 15])
     = lit "000102030405060708090A0B0C0D0E0F"
  /\ option_map
       (fun r => (fst r, w_files (snd r) demo_path))
       (download_file demo_md5 demo_short demo_short 10
          (demo_env demo_head_two_md5 [lit "hello"; lit "world"])
          demo_url demo_path demo_world)
     = Some (Ret false, None).
Proof. repeat split; vm_compute; reflexivity. Qed.

(** ** Concrete runs *)

(** An established session and a refused connection. *)
Example init_established :
  fst (init demo_setup demo_url (lit "GET") 0)
  = {| ssl := SSL_obj; sockfd := 3 |}
  /\ held (snd (init demo_setup demo_url (lit "GET") 0))
     = [Socket; SSL_handle].
Proof. split; reflexivity. Qed.

Example init_refused :
  init demo_setup_refused demo_url (lit "GET") 0
  = (Https_default,
     [Acquire SSL_CTX; Acquire Socket; Acquire AddrInfo;
      Resolved (lit "example.org"); LogError ConnectFailed;
      Release AddrInfo; Release SSL_CTX; Release Socket]).
Proof. reflexivity. Qed.

(** The ten declared bytes arrive in two chunks: the call returns [true] and
    the file holds them. *)
Example download_complete :
  option_map
    (fun r => (fst r, w_files (snd r) demo_path))
    (download_file demo_md5 demo_short demo_short 10
       (demo_env demo_head [lit "hello"; lit "world"])
       demo_url demo_path demo_world)
  = Some (Ret true, Some (lit "helloworld")).
Proof. vm_compute. reflexivity. Qed.

(** A caller that cancels after the first chunk: the call returns [false],
    the chunk stays on disk, and the last log line is the warning. *)
Example download_cancelled :
  option_map
    (fun r => (fst r, w_files (snd r) demo_path, last (w_trace (snd r)) Sleep))
    (download_file demo_md5 demo_short demo_short 10
       (with_callback (demo_env demo_head [lit "hello"; lit "world"])
                      cancel_at_once)
       demo_url demo_path demo_world)
  = Some (Ret false, Some (lit "hello"), LogWarn CanceledByUser).
Proof. vm_compute. reflexivity. Qed.

(** A caller that pauses and never resumes keeps the loop running: no bound
    on the number of iterations lets the call return. *)
Lemma paused_forever (fuel : nat) (env : Env) (path : str) (st : Loop)
  (w : World) :
  e_callback env = Some always_paused ->
  l_state st = always_paused 0 ->
  l_bytes_read st <> 0 ->
  stream_loop fuel env path st w = None.
Proof.
  intros Hcb. revert st w.
  induction fuel as [|fuel IH]; intros st w Hst Hn; simpl;
    rewrite Hst; simpl; apply Z.eqb_neq in Hn; rewrite Hn; simpl;
    [reflexivity|].
  unfold loop_body, bind, trace, call_progress, ret. rewrite Hst. simpl.
  rewrite Hcb. apply IH; [reflexivity|]. simpl. now apply Z.eqb_neq.
Qed.

(** * Further properties of the module *)

(** ** [init]: which failure is reported *)

Ltac init_cases o :=
  destruct (o_ctx o); simpl negb; cbv iota;
  [destruct (o_socket o <? 0);
   [|destruct (o_gai_ret o <? 0), (o_gai_result o); simpl orb; simpl negb;
     cbv iota;
     try (destruct (o_connect o <? 0);
          [|destruct (o_getsockopt o <? 0);
            [|destruct (o_so_error o =? 0); simpl negb; cbv iota;
              [destruct (o_ssl_connect o <=? 0);
               [|destruct (o_ssl_write o <=? 0)]|]]])]|].

(** X1.  [init] logs one error, that of the first step that fails, and
    nothing when no step fails; it returns a session exactly in the second
    case.  A missing address is reported as unresolved whatever
    [getaddrinfo] returned, and a non-negative return code with an address
    is not a failure. *)
Theorem init_reports_first_failure (o : InitOracle) (url method : str)
  (offset : Z) :
  filter is_log_error (snd (init o url method offset))
  = match first_failure o with Some m => [LogError m] | None => [] end
  /\ (ssl (fst (init o url method offset)) = SSL_obj
      <-> first_failure o = None).
Proof.
  unfold init, first_failure. destruct (parse_url url) as [host uri].
  init_cases o; (split; [reflexivity|split; intros H; first
    [reflexivity|discriminate H]]).
Qed.

(** ** Resources *)

Lemma held_from_app (h : list Resource) (t1 t2 : list Event) :
  held_from h (t1 ++ t2) = held_from (held_from h t1) t2.
Proof.
  revert h. induction t1 as [|e t1 IH]; intros h; [reflexivity|].
  destruct e; try destruct r; simpl; apply IH.
Qed.

Lemma init_held (o : InitOracle) (url method : str) (offset : Z) :
  held (snd (init o url method offset))
  = match ssl (fst (init o url method offset)) with
    | SSL_obj => [Socket; SSL_handle]
    | nullptr => []
    end.
Proof.
  unfold init. destruct (parse_url url) as [host uri].
  init_cases o; reflexivity.
Qed.

Lemma init_ssl_iff (o : InitOracle) (url method : str) (offset : Z) :
  ssl (fst (init o url method offset)) = SSL_obj <-> first_failure o = None.
Proof.
  unfold init, first_failure. destruct (parse_url url) as [host uri].
  init_cases o; split; intros H; first [reflexivity|discriminate H].
Qed.

Lemma get_web_response_held (env : Env) (w w' : World)
  (url method : str) (r : Res str) :
  get_web_response env w url method = (r, w') ->
  exists t,
    w_trace w' = w_trace w ++ t
    /\ held t = match r with
                | Ret _ => []
                | Abort _ => [Socket; SSL_handle]
                end.
Proof.
  unfold get_web_response, init_in.
  pose proof (init_held (c_setup (e_net env (w_conns w) url method 0))
                url method 0) as Hh.
  destruct (init _ url method 0) as [https t0]. simpl in Hh.
  destruct (ssl https).
  - intros H. injection H as <- <-. exists (Open url method 0 :: t0).
    split; [reflexivity|exact Hh].
  - destruct (read_response _ _ []) as [response|f].
    + assert (Hc : held ((Open url method 0 :: t0) ++ close_session) = []).
      { unfold held. rewrite held_from_app. cbn [held_from].
        unfold held in Hh. rewrite Hh. reflexivity. }
      destruct (contains marker_404 response); intros H;
        injection H as <- <-.
      * exists (((Open url method 0 :: t0) ++ close_session)
                  ++ [LogError NotFound404]).
        split; [cbn [emit w_trace]; now rewrite <- !app_assoc|].
        unfold held in *. rewrite held_from_app, Hc. reflexivity.
      * exists ((Open url method 0 :: t0) ++ close_session).
        split; [cbn [emit w_trace]; now rewrite <- !app_assoc|exact Hc].
    + intros H. injection H as <- <-. exists (Open url method 0 :: t0).
      split; [reflexivity|exact Hh].
Qed.

(** X2.  Every session [get_web_response] opens is closed by the time it
    returns; when a read fails and the call is left by the exception, the
    socket and the SSL handle of the session stay open. *)
Theorem get_web_response_session_closed (env : Env) (w w' : World)
  (url method : str) (r : Res str) :
  get_web_response env w url method = (r, w') ->
  exists t,
    w_trace w' = w_trace w ++ t
    /\ held t = match r with
                | Ret _ => []
                | Abort _ => [Socket; SSL_handle]
                end.
Proof. apply get_web_response_held. Qed.

Lemma get_web_response_session_closed_witness :
  exists t,
    w_trace (snd (get_web_response (demo_env demo_head []) demo_world
                    demo_url (lit "HEAD")))
    = w_trace demo_world ++ t
    /\ held t = [].
Proof.
  exact (get_web_response_session_closed (demo_env demo_head []) demo_world
           _ demo_url (lit "HEAD") (Ret demo_head) eq_refl).
Defined.

(** ** [get_web_response]: what it returns *)

Lemma get_web_response_no_404 (env : Env) (w w' : World) (url method : str)
  (r : str) :
  get_web_response env w url method = (Ret r, w') ->
  contains marker_404 r = false.
Proof.
  unfold get_web_response.
  destruct (init_in env w url method 0) as [[https c] w1].
  destruct (ssl https).
  - intros H. injection H as <- _. reflexivity.
  - destruct (read_response _ _ []) as [response|f]; [|discriminate].
    destruct (contains marker_404 response) eqn:E; intros H;
      injection H as <- _; [reflexivity|exact E].
Qed.

(** X3.  [get_web_response] never returns a response that contains the
    not-found marker: it returns the empty string instead.  The not-found
    test [download_file] makes on the probe response therefore never
    succeeds: with or without it the probing phase is the same. *)
Theorem not_found_is_reported_as_empty (env : Env) (w : World)
  (url method : str) :
  (forall r w',
      get_web_response env w url method = (Ret r, w') ->
      contains marker_404 r = false)
  /\ probe env url w = probe_without_404_test env url w.
Proof.
  split; [intros r w'; apply get_web_response_no_404|].
  unfold probe, probe_without_404_test, bind, web_response, fail_if, trace,
    return_, ret.
  destruct (get_web_response env w url (lit "HEAD")) as [[r1|f1] w1] eqn:G1;
    [|reflexivity].
  pose proof (get_web_response_no_404 _ _ _ _ _ _ G1) as N1.
  destruct (is_empty r1); [reflexivity|].
  destruct (contains marker_302 r1).
  - destruct (regex_search match_location r1) as [url'|]; [|reflexivity].
    destruct (get_web_response env w1 url' (lit "HEAD"))
      as [[r2|f2] w2] eqn:G2; [|reflexivity].
    pose proof (get_web_response_no_404 _ _ _ _ _ _ G2) as N2.
    destruct (is_empty r2); [reflexivity|].
    cbn [snd]. rewrite N2. reflexivity.
  - cbn [snd]. rewrite N1. reflexivity.
Qed.

Lemma not_found_is_reported_as_empty_witness :
  contains marker_404 demo_head = false.
Proof.
  exact (proj1 (not_found_is_reported_as_empty (demo_env demo_head [])
                  demo_world demo_url (lit "HEAD"))
           demo_head _ eq_refl).
Defined.

Lemma read_response_app (good tail : list str) (fail : bool) (acc : str) :
  Forall full_read good ->
  read_response (good ++ tail) fail acc
  = read_response tail fail (acc ++ List.concat good).
Proof.
  revert acc. induction good as [|d good IH]; intros acc F.
  - simpl. now rewrite app_nil_r.
  - apply Forall_cons_iff in F as [[Hne Hlen] F].
    cbn [app read_response SSL_read List.concat].
    change (Z.to_nat 1024) with 1024%nat.
    rewrite firstn_all2 by exact Hlen.
    destruct d as [|c d]; [contradiction|].
    cbn [List.length Z.eqb Z.of_nat]. rewrite IH by exact F.
    now rewrite app_assoc.
Qed.

(** X4.  When the session opens, [get_web_response] returns the data of the
    successive reads, concatenated in order, up to the first read that
    delivers nothing: what the connection would deliver after that read is
    never asked for.  (The result is replaced by the empty string when it
    contains the not-found marker.) *)
Theorem get_web_response_returns_reads (env : Env) (w : World)
  (url method : str) (good rest : list str) :
  let c := e_net env (w_conns w) url method 0 in
  first_failure (c_setup c) = None ->
  Forall full_read good ->
  (c_reads c = good /\ c_fail c = false) \/ c_reads c = good ++ [] :: rest ->
  fst (get_web_response env w url method)
  = Ret (if contains marker_404 (List.concat good) then []
         else List.concat good).
Proof.
  intros c Hok F Hreads. unfold get_web_response, init_in. fold c.
  apply (init_ssl_iff _ url method 0) in Hok.
  destruct (init (c_setup c) url method 0) as [https t0]. simpl in Hok.
  rewrite Hok.
  assert (R : read_response (c_reads c) (c_fail c) [] = Ret (List.concat good)).
  { destruct Hreads as [[-> ->]| ->].
    - rewrite <- (app_nil_r good) at 1.
      now rewrite read_response_app.
    - now rewrite read_response_app. }
  rewrite R. destruct (contains marker_404 (List.concat good)); reflexivity.
Qed.

Lemma get_web_response_returns_reads_witness :
  fst (get_web_response (demo_env demo_head []) demo_world demo_url
         (lit "HEAD"))
  = Ret demo_head.
Proof.
  assert (F : Forall full_read [demo_head]).
  { constructor; [|constructor]. split; [discriminate|]. simpl. lia. }
  pose proof (get_web_response_returns_reads (demo_env demo_head [])
                demo_world demo_url (lit "HEAD") [demo_head] []
                eq_refl F (or_introl (conj eq_refl eq_refl))) as H.
  rewrite H. reflexivity.
Defined.

(** ** [get_web_regex_result] *)

Lemma starts_with_firstn (p s t : str) :
  (List.length p <= List.length s)%nat ->
  starts_with p (s ++ t) = starts_with p s.
Proof.
  revert s. induction p as [|a p IH]; intros s L; [reflexivity|].
  destruct s as [|b s]; [simpl in L; lia|].
  simpl. f_equal. apply IH. simpl in L. lia.
Qed.

(** The first occurrence of a pattern: no occurrence starts earlier. *)
Lemma find_first (p a b : str) (x : ascii) :
  contains (p ++ [x]) (a ++ p) = false ->
  find (p ++ [x]) (a ++ (p ++ [x]) ++ b) = Some (List.length a).
Proof.
  unfold contains. induction a as [|c a IH]; intros H.
  - cbn [app]. pose proof (starts_with_app (p ++ [x]) b) as S.
    destruct ((p ++ [x]) ++ b) eqn:E; cbn [find]; rewrite S; reflexivity.
  - cbn [app find] in *.
    destruct (starts_with (p ++ [x]) (c :: a ++ p)) eqn:S; [discriminate|].
    assert (S' : starts_with (p ++ [x]) (c :: a ++ (p ++ [x]) ++ b) = false).
    { rewrite <- S.
      change (c :: a ++ (p ++ [x]) ++ b) with ((c :: a) ++ (p ++ [x]) ++ b).
      rewrite <- (app_assoc p [x] b), (app_assoc (c :: a) p ([x] ++ b)).
      apply starts_with_firstn. simpl. rewrite !length_app. simpl. lia. }
    rewrite S'. destruct (find (p ++ [x]) (a ++ p)); [discriminate|].
    now rewrite IH.
Qed.

(** X5.  [get_web_regex_result] searches the body only: when the response
    is a header block, the first blank line and a body, the result is what
    the pattern finds in the body, or the empty string when it finds
    nothing there, whatever the header block contains.  An empty response
    gives the empty string without any search. *)
Theorem get_web_regex_result_searches_body (env : Env) (w w' : World)
  (url method head body : str) (regex : str -> option str) :
  get_web_response env w url method
  = (Ret (head ++ (CRLF ++ CRLF) ++ body), w') ->
  contains (CRLF ++ CRLF) (head ++ [CR; LF; CR]) = false ->
  len head + 4 < 2 ^ 64 ->
  get_web_regex_result env w url method regex
  = (Ret (match regex body with Some m => m | None => [] end), w').
Proof.
  intros G H L. unfold get_web_regex_result. rewrite G.
  assert (E : is_empty (head ++ (CRLF ++ CRLF) ++ body) = false)
    by (destruct head; reflexivity).
  rewrite E. cbn [negb].
  pose proof (find_first [CR; LF; CR] head body LF H) as F.
  change ([CR; LF; CR] ++ [LF]) with (CRLF ++ CRLF) in F. rewrite F.
  unfold len in *. rewrite Z.mod_small by lia.
  assert (Hlen : (Z.of_nat (List.length (head ++ (CRLF ++ CRLF) ++ body))
                  <? Z.of_nat (List.length head) + 4) = false).
  { apply Z.ltb_ge. rewrite !length_app. simpl. lia. }
  rewrite Hlen.
  replace (Z.to_nat (Z.of_nat (List.length head) + 4))
    with (List.length head + List.length (CRLF ++ CRLF))%nat
    by (simpl; lia).
  rewrite skipn_past. destruct (regex body); reflexivity.
Qed.

Lemma get_web_regex_result_searches_body_witness :
  fst (get_web_regex_result (demo_env demo_page []) demo_world demo_url
         (lit "GET") demo_regex)
  = Ret (lit "42").
Proof.
  erewrite (get_web_regex_result_searches_body (demo_env demo_page [])
              demo_world _ demo_url (lit "GET") (lit "HTTP/1.1 200 OK")
              (lit "version=42") demo_regex).
  - reflexivity.
  - cbv. reflexivity.
  - reflexivity.
  - reflexivity.
Defined.

(** X6.  When the response has no blank line, the search position wraps
    around to 3: the pattern is searched in the response without its first
    three characters, and a response shorter than three characters makes
    [substr] throw. *)
Theorem get_web_regex_result_without_separator (env : Env) (w w' : World)
  (url method response : str) (regex : str -> option str) :
  get_web_response env w url method = (Ret response, w') ->
  response <> [] ->
  contains (CRLF ++ CRLF) response = false ->
  get_web_regex_result env w url method regex
  = if (List.length response <? 3)%nat then (Abort OutOfRange, w')
    else (Ret (match regex (skipn 3 response) with
               | Some m => m
               | None => []
               end), w').
Proof.
  intros G Hne H. unfold get_web_regex_result. rewrite G.
  destruct response as [|c response]; [contradiction|]. cbn [is_empty negb].
  unfold contains in H.
  destruct (find (CRLF ++ CRLF) (c :: response)); [discriminate|].
  change ((2 ^ 64 - 1 + 4) mod 2 ^ 64) with 3. unfold len.
  destruct (List.length (c :: response) <? 3)%nat eqn:E.
  - apply Nat.ltb_lt in E.
    replace (Z.of_nat (List.length (c :: response)) <? 3) with true
      by (symmetry; apply Z.ltb_lt; lia).
    reflexivity.
  - apply Nat.ltb_ge in E.
    replace (Z.of_nat (List.length (c :: response)) <? 3) with false
      by (symmetry; apply Z.ltb_ge; lia).
    change (Z.to_nat 3) with 3%nat.
    destruct (regex (skipn 3 (c :: response))); reflexivity.
Qed.

Lemma get_web_regex_result_without_separator_witness :
  fst (get_web_regex_result (demo_env (lit "OK") []) demo_world demo_url
         (lit "GET") demo_regex)
  = Abort OutOfRange
  /\ fst (get_web_regex_result (demo_env (lit "xyzversion=7") []) demo_world
            demo_url (lit "GET") demo_regex)
     = Ret (lit "7").
Proof.
  split.
  - erewrite (get_web_regex_result_without_separator (demo_env (lit "OK") [])
                demo_world _ demo_url (lit "GET") (lit "OK") demo_regex).
    + reflexivity.
    + cbv. reflexivity.
    + discriminate.
    + reflexivity.
  - erewrite (get_web_regex_result_without_separator
                (demo_env (lit "xyzversion=7") [])
                demo_world _ demo_url (lit "GET") (lit "xyzversion=7")
                demo_regex).
    + reflexivity.
    + cbv. reflexivity.
    + discriminate.
    + reflexivity.
Defined.

(** ** [get_file_size]: reading back a printed length *)

Lemma digits_value_uint (d e : Decimal.uint) :
  digits_value (lit (NilEmpty.string_of_uint d))
               (Z.of_N (DecimalPos.Unsigned.of_lu e))
  = Z.of_N (DecimalPos.Unsigned.of_lu (Decimal.revapp d e)).
Proof.
  revert e. induction d; intros e; [reflexivity|..];
    cbn [NilEmpty.string_of_uint lit list_ascii_of_string digits_value
         fold_left Decimal.revapp];
    rewrite <- IHd; unfold digits_value; f_equal;
    cbn [DecimalPos.Unsigned.of_lu];
    match goal with
    | |- context [digit_val ?c] =>
        let v := eval vm_compute in (digit_val c) in
        change (digit_val c) with v
    end; lia.
Qed.

Lemma digits_all (d : Decimal.uint) :
  forallb isdigit (lit (NilEmpty.string_of_uint d)) = true.
Proof. induction d; simpl; try reflexivity; exact IHd. Qed.

Lemma to_string_value (n : Z) :
  0 <= n ->
  digits_value (to_string n) 0 = n
  /\ forallb isdigit (to_string n) = true
  /\ to_string n <> [].
Proof.
  intros H. unfold to_string.
  set (d := N.to_uint (Z.to_N n)).
  assert (V : Z.of_N (DecimalPos.Unsigned.of_lu (Decimal.rev d)) = n).
  { rewrite <- DecimalPos.Unsigned.of_uint_alt.
    change (Pos.of_uint d) with (N.of_uint d).
    unfold d. rewrite DecimalN.Unsigned.of_to. lia. }
  assert (NN : d <> Decimal.Nil).
  { unfold d. destruct (Z.to_N n); [discriminate|].
    apply DecimalPos.Unsigned.to_uint_nonnil. }
  destruct d eqn:E; [contradiction|..]; cbn [NilZero.string_of_uint];
    (split; [rewrite <- V; apply (digits_value_uint _ Decimal.Nil)
            |split; [apply digits_all|discriminate]]).
Qed.

(** No proper suffix of [Content-Length: ] is a prefix of it. *)
Lemma length_header_no_overlap (q rest : str) :
  q <> [] -> starts_with (lit "Content-Length: ") q = false ->
  starts_with (lit "Content-Length: ") (q ++ lit "Content-Length: " ++ rest)
  = false.
Proof.
  intros Hq H. destruct q as [|x q]; [contradiction|]. clear Hq.
  cbn [lit list_ascii_of_string app starts_with] in *.
  destruct (Ascii.eqb _ x); [|reflexivity]. cbn [andb] in *.
  do 15 (destruct q as [|?x q];
         [reflexivity|
          cbn [app starts_with] in *;
          destruct (Ascii.eqb _ _); [|reflexivity]; cbn [andb] in *]).
  discriminate H.
Qed.

Lemma length_search_skip (cls : ascii -> bool) (pre rest : str) :
  contains (lit "Content-Length: ") pre = false ->
  regex_search (match_lit_class (lit "Content-Length: ") cls)
               (pre ++ lit "Content-Length: " ++ rest)
  = regex_search (match_lit_class (lit "Content-Length: ") cls)
                 (lit "Content-Length: " ++ rest).
Proof.
  intros H. apply regex_search_skip. intros k Hk.
  unfold match_lit_class.
  rewrite length_header_no_overlap; [reflexivity| |].
  - intros E. apply (f_equal (@List.length ascii)) in E.
    rewrite length_skipn in E. simpl in E. lia.
  - apply starts_with_find. unfold contains in H.
    destruct (find (lit "Content-Length: ") pre); [discriminate|reflexivity].
Qed.

Lemma capture_after (l run post : str) (cls : ascii -> bool) :
  run <> [] -> forallb cls run = true ->
  match post with [] => true | c :: _ => negb (cls c) end = true ->
  match_lit_class l cls (l ++ run ++ post) = Some run.
Proof.
  intros Hn Hr Hp. unfold match_lit_class.
  rewrite starts_with_app.
  rewrite skipn_app, skipn_all, Nat.sub_diag. cbn [skipn app].
  rewrite take_while_all by assumption.
  destruct run; [contradiction|reflexivity].
Qed.

(** X7.  [get_file_size] reads back a printed length: on a header block
    whose first [Content-Length: ] is followed by the decimal digits of [n]
    and then by something that is not a digit, it returns [n] when [n]
    fits a [long long], and is left by the exception of [std::stoll] when
    it does not. *)
Theorem get_file_size_reads_decimal (n : Z) (pre post : str) :
  0 <= n ->
  contains (lit "Content-Length: ") pre = false ->
  match post with [] => true | c :: _ => negb (isdigit c) end = true ->
  get_file_size (pre ++ lit "Content-Length: " ++ to_string n ++ post)
  = if n <=? 2 ^ 63 - 1 then Ret n else Abort OutOfRange.
Proof.
  intros Hn Hpre Hpost.
  destruct (to_string_value n Hn) as (V & D & NE).
  unfold get_file_size.
  rewrite length_search_skip by exact Hpre.
  rewrite (regex_search_here _ _ (to_string n))
    by (now apply capture_after).
  rewrite D. unfold stoll. fold (digits_value (to_string n) 0).
  rewrite V. reflexivity.
Qed.

Lemma get_file_size_reads_decimal_witness :
  get_file_size (lit "HTTP/1.1 200 OK" ++ CRLF ++ lit "Content-Length: "
                   ++ to_string 1000 ++ CRLF)
  = Ret 1000
  /\ get_file_size (lit "Content-Length: " ++ to_string (2 ^ 63) ++ CRLF)
     = Abort OutOfRange.
Proof.
  split.
  - exact (get_file_size_reads_decimal 1000 (lit "HTTP/1.1 200 OK" ++ CRLF)
             CRLF ltac:(lia) eq_refl eq_refl).
  - exact (get_file_size_reads_decimal (2 ^ 63) [] CRLF ltac:(lia)
             eq_refl eq_refl).
Defined.

(** ** [convert_md5_bytes_to_str]: comparing strings compares digests *)

Lemma hex_digit_inj (u v : Z) :
  0 <= u < 16 -> 0 <= v < 16 -> hex_digit u = hex_digit v -> u = v.
Proof.
  intros Hu Hv. unfold hex_digit.
  rewrite <- (Z2Nat.id u), <- (Z2Nat.id v) by lia.
  assert (Lu : (Z.to_nat u < 16)%nat) by lia.
  assert (Lv : (Z.to_nat v < 16)%nat) by lia.
  revert Lu Lv. generalize (Z.to_nat u) (Z.to_nat v). intros n m Ln Lm.
  rewrite !Nat2Z.id.
  do 16 (destruct n as [|n];
         [do 16 (destruct m as [|m];
                 [first [reflexivity|discriminate]|]); lia|]).
  lia.
Qed.

Lemma sprintf_02X_inj (x y : Z) :
  sprintf_02X x = sprintf_02X y -> x mod 256 = y mod 256.
Proof.
  unfold sprintf_02X. intros H. injection H as H1 H2.
  apply hex_digit_inj in H1; [|Z.div_mod_to_equations; lia..].
  apply hex_digit_inj in H2; [|Z.div_mod_to_equations; lia..].
  Z.div_mod_to_equations. lia.
Qed.

Lemma sprintf_02X_mod (x : Z) : sprintf_02X x = sprintf_02X (x mod 256).
Proof.
  unfold sprintf_02X. rewrite Z.mod_mod by lia.
  replace (x mod 256 mod 16) with (x mod 16)
    by (Z.div_mod_to_equations; lia).
  reflexivity.
Qed.

(** X8.  Two digests are rendered to the same string exactly when their
    sixteen bytes are the same: the string comparison that ends
    [download_file] compares the digests, no more and no less. *)
Theorem convert_md5_bytes_to_str_eq_iff (a b : byte_array) :
  convert_md5_bytes_to_str a = convert_md5_bytes_to_str b
  <-> forall j, (j < MD5_DIGEST_LENGTH)%nat -> a j mod 256 = b j mod 256.
Proof.
  split.
  - unfold convert_md5_bytes_to_str. intros H j Hj.
    assert (G : forall l,
               flat_map (fun i => sprintf_02X (a i)) l
               = flat_map (fun i => sprintf_02X (b i)) l ->
               forall j, In j l -> a j mod 256 = b j mod 256).
    { induction l as [|x l IH]; intros E k Hk; [contradiction|].
      cbn [flat_map] in E.
      assert (P : sprintf_02X (a x) = sprintf_02X (b x)
                  /\ flat_map (fun i => sprintf_02X (a i)) l
                     = flat_map (fun i => sprintf_02X (b i)) l).
      { unfold sprintf_02X in E at 1 3. cbn [app] in E.
        injection E as E1 E2 E3. split; [|exact E3].
        unfold sprintf_02X. now rewrite E1, E2. }
      destruct P as [P1 P2]. destruct Hk as [<-|Hk].
      - now apply sprintf_02X_inj.
      - now apply IH. }
    apply (G _ H). apply in_seq. lia.
  - intros H. unfold convert_md5_bytes_to_str.
    assert (G : forall l,
               (forall j, In j l -> (j < MD5_DIGEST_LENGTH)%nat) ->
               flat_map (fun i => sprintf_02X (a i)) l
               = flat_map (fun i => sprintf_02X (b i)) l).
    { induction l as [|x l IH]; intros Hl; cbn [flat_map]; [reflexivity|].
      rewrite (sprintf_02X_mod (a x)), (sprintf_02X_mod (b x)).
      rewrite (H x) by (apply Hl; now left). f_equal.
      apply IH. intros j Hj. apply Hl. now right. }
    apply G. intros j Hj. apply in_seq in Hj. lia.
Qed.

(** ** [get_content_md5]: the shape of what it returns *)

(** X9.  Whatever the header block and whatever [md5_bytes] holds on entry,
    a string [get_content_md5] returns is empty or consists of 32 uppercase
    hexadecimal characters. *)
Theorem get_content_md5_empty_or_32_hex (stack : byte_array)
  (header s : str) :
  get_content_md5 stack header = Ret s ->
  s = []
  \/ (List.length s = 32%nat /\ forallb is_upper_hex s = true).
Proof.
  unfold get_content_md5.
  destruct (regex_search _ header) as [cap|];
    [|intros H; injection H as <-; now left].
  destruct (decode_loop cap stack 0 0 0) as [[arr|]|f];
    intros H; [|injection H as <-; now left|discriminate].
  injection H as <-. right. apply convert_shape.
Qed.

Lemma get_content_md5_empty_or_32_hex_witness :
  lit "000000FFFFFFFFFFFFFFFFFFFFFFFFFF" = []
  \/ (List.length (lit "000000FFFFFFFFFFFFFFFFFFFFFFFFFF") = 32%nat
      /\ forallb is_upper_hex (lit "000000FFFFFFFFFFFFFFFFFFFFFFFFFF")
         = true).
Proof.
  exact (get_content_md5_empty_or_32_hex (fun _ => 255)
           (lit "Content-MD5: AAAA") _ eq_refl).
Defined.

(** X10.  A captured value with 23 alphabet characters (padding apart)
    before any other character overruns [md5_bytes]: the 23rd makes the
    loop store at [md5_bytes[16]], and [get_content_md5] does not return. *)
Theorem get_content_md5_overrun (stack : byte_array) (header cap p rest : str)
  (vs : list Z) :
  regex_search (match_lit_class (lit "Content-MD5: ") md5_class) header
  = Some cap ->
  payload cap = p ++ rest ->
  sextets p = Some vs -> List.length vs = 23%nat ->
  get_content_md5 stack header = Abort OutOfBounds.
Proof.
  intros E P H L. unfold get_content_md5. rewrite E.
  rewrite decode_loop_payload, P.
  do 23 peel.
  match goal with
  | H : sextets ?p = Some ?vs, L : List.length ?vs = 0%nat |- _ =>
      destruct (sextets_nil_inv p vs H L) as (-> & ->)
  end.
  cbn [app]. do 5 quad.
  repeat match goal with
         | |- context [decode_loop (?c :: ?cs) ?arr ?i ?acc ?bits] =>
             match goal with
             | Hc : sextet c = Some ?n |- _ =>
                 rewrite (decode_step c cs arr i acc bits n Hc)
             end
         end.
  reflexivity.
Qed.

Lemma get_content_md5_overrun_witness :
  get_content_md5 (fun _ => 0)
    (lit "Content-MD5: AAAAAAAAAAAAAAAAAAAAAAAA" ++ CRLF)
  = Abort OutOfBounds.
Proof.
  apply (get_content_md5_overrun _ _ (lit "AAAAAAAAAAAAAAAAAAAAAAAA")
           (lit "AAAAAAAAAAAAAAAAAAAAAAA") (lit "A")
           (repeat 0 23)); reflexivity.
Defined.

(** ** The header size used when resuming *)

(** X11.  When resuming, the header size [download_file] reserves is the
    length of the probe response plus 40, plus twice the number of digits
    of the resume offset, plus the number of digits of the declared length.
    The unsigned subtraction in the source wraps around when the offset has
    more digits than the declared length, and the sum is this value all the
    same. *)
Theorem header_size_of_resumed (response : str) (offset file_size : Z) :
  0 < offset ->
  len response + 40 + 2 * len (to_string offset) + len (to_string file_size)
  < 2 ^ 64 ->
  header_size_of response offset file_size
  = len response + 40 + 2 * len (to_string offset)
    + len (to_string file_size).
Proof.
  intros Ho Hb. unfold header_size_of.
  replace (0 <? offset) with true by (symmetry; now apply Z.ltb_lt).
  unfold len in *. rewrite !length_app.
  change (List.length CRLF) with 2%nat.
  change (List.length (lit "Content-Range: bytes ")) with 21%nat.
  change (List.length (lit "-")) with 1%nat.
  change (List.length (lit "/")) with 1%nat.
  rewrite !Nat2Z.inj_add.
  set (a := Z.of_nat (List.length (to_string offset))) in *.
  set (b := Z.of_nat (List.length (to_string file_size))) in *.
  set (r := Z.of_nat (List.length response)) in *.
  assert (0 <= a) by (unfold a; lia).
  assert (0 <= b) by (unfold b; lia).
  assert (0 <= r) by (unfold r; lia).
  change (2 ^ 64) with 18446744073709551616 in *.
  change (Z.of_nat 2) with 2. change (Z.of_nat 21) with 21.
  change (Z.of_nat 1) with 1.
  Z.div_mod_to_equations. lia.
Qed.

Lemma header_size_of_resumed_witness :
  header_size_of demo_head 1234 10 = len demo_head + 40 + 2 * 4 + 2.
Proof.
  exact (header_size_of_resumed demo_head 1234 10 eq_refl eq_refl).
Defined.

(** ** Sessions and files across a whole call *)

Lemma held_from_inert (h : list Resource) (t : list Event) :
  forallb inert t = true -> held_from h t = h.
Proof.
  revert h. induction t as [|e t IH]; intros h H; [reflexivity|].
  simpl in H. apply andb_prop in H as [He Ht].
  destruct e; try discriminate He; simpl; now apply IH.
Qed.

Lemma closed_ret {A : Type} (a : A) : closed (ret a).
Proof. intros w. exists []. split; [now rewrite app_nil_r|reflexivity]. Qed.

Lemma closed_raise {A : Type} (f : Failure) : closed (@raise A f).
Proof.
  intros w. exists []. split; [now rewrite app_nil_r|].
  intros H. now elim (H f).
Qed.

Lemma closed_return {A : Type} (b : bool) : closed (@return_ A b).
Proof. intros w. exists []. split; [now rewrite app_nil_r|reflexivity]. Qed.

Lemma closed_trace (t : list Event) :
  forallb inert t = true -> closed (trace t).
Proof.
  intros H w. exists t. split; [reflexivity|].
  intros _. now apply (held_from_inert []).
Qed.

Lemma closed_bind {A B : Type} (m : M A) (k : A -> M B) :
  closed m -> (forall a, closed (k a)) -> closed (bind m k).
Proof.
  intros Hm Hk w. unfold bind. destruct (Hm w) as (t1 & T1 & C1).
  destruct (m w) as [[a|b|f] w1]; cbn [fst snd] in *.
  - destruct (Hk a w1) as (t2 & T2 & C2). exists (t1 ++ t2). split.
    + now rewrite T2, T1, app_assoc.
    + intros N. unfold held in *. rewrite held_from_app, C1 by discriminate.
      now apply C2.
  - exists t1. split; [exact T1|]. intros _. apply C1. discriminate.
  - exists t1. split; [exact T1|]. intros N. now elim (N f).
Qed.

Lemma closed_lift {A : Type} (r : Res A) : closed (lift r).
Proof. destruct r; [apply closed_ret|apply closed_raise]. Qed.

Lemma closed_fail_if (c : bool) (t : list Event) :
  forallb inert t = true -> closed (fail_if c t).
Proof.
  intros H. unfold fail_if. destruct c; [|apply closed_ret].
  apply closed_bind; [now apply closed_trace|intros _; apply closed_return].
Qed.

Lemma closed_web_response (env : Env) (url method : str) :
  closed (web_response env url method).
Proof.
  intros w. unfold web_response.
  destruct (get_web_response env w url method) as [r w1] eqn:G.
  destruct (get_web_response_held _ _ _ _ _ _ G) as (t & T & H).
  exists t. destruct r as [r|f]; cbn [fst snd].
  - split; [exact T|intros _; exact H].
  - split; [exact T|intros N; now elim (N f)].
Qed.

Lemma closed_probe (env : Env) (url : str) : closed (probe env url).
Proof.
  unfold probe.
  apply closed_bind; [apply closed_web_response|intros response].
  apply closed_bind; [now apply closed_fail_if|intros _].
  apply closed_bind.
  - destruct (contains marker_302 response); [|apply closed_ret].
    destruct (regex_search match_location response) as [url'|].
    + apply closed_bind; [apply closed_web_response|intros r'].
      apply closed_bind; [now apply closed_fail_if|intros _].
      apply closed_ret.
    + apply closed_bind; [now apply closed_trace|intros _].
      apply closed_return.
  - intros ur. apply closed_bind; [now apply closed_fail_if|intros _].
    apply closed_ret.
Qed.

Lemma closed_metadata (env : Env) (response : str) :
  closed (metadata env response).
Proof.
  unfold metadata.
  apply closed_bind; [apply closed_lift|intros md5].
  apply closed_bind; [now apply closed_fail_if|intros _].
  apply closed_bind; [apply closed_lift|intros size].
  apply closed_bind; [now apply closed_fail_if|intros _].
  apply closed_ret.
Qed.

(** What [open_stream] does, by the way it ends. *)
Lemma open_stream_effect (hs : Z -> Z -> bool) (env : Env)
  (url path response : str) (file_size : Z) (w w' : World)
  (r : Flow Loop) :
  open_stream hs env url path response file_size w = (r, w') ->
  exists t,
    w_trace w' = w_trace w ++ t
    /\ w_calls w' = w_calls w
    /\ opens t = [Open url (lit "GET") (file_length w path)]
    /\ match r with
       | Next st =>
           held t = [Socket; SSL_handle]
           /\ filter is_file_event t = [OpenAppend path (e_out_opens env)]
           /\ l_state st = ProgressState_default
           /\ l_downloaded st = file_length w path
           /\ (forall p, p <> path -> w_files w' p = w_files w p)
           /\ w_files w' path
              = (if e_out_opens env
                 then Some (content_at (w_files w) path)
                 else w_files w path)
       | Return b =>
           b = false /\ held t = [] /\ filter is_file_event t = []
           /\ w_files w' = w_files w
       | Raise _ => False
       end.
Proof.
  unfold open_stream, init_in.
  set (c := e_net env (w_conns w) url (lit "GET") (file_length w path)).
  pose proof (init_held (c_setup c) url (lit "GET") (file_length w path))
    as Hh.
  pose proof (init_plain (c_setup c) url (lit "GET") (file_length w path))
    as Hp.
  destruct (init (c_setup c) url (lit "GET") (file_length w path))
    as [https t0]. cbn [fst snd] in Hh, Hp.
  assert (Hf : filter is_file_event t0 = []).
  { clear Hh. induction t0 as [|e t0 IH]; [reflexivity|].
    simpl in Hp. apply andb_prop in Hp as [He Hp]. simpl.
    unfold plain in He. apply andb_prop in He as [He _].
    destruct (is_file_event e); [discriminate|now apply IH]. }
  set (o := Open url (lit "GET") (file_length w path)) in *.
  assert (Ho : is_file_event o = false) by reflexivity.
  assert (Hi : forall h, held_from h [o] = h) by reflexivity.
  assert (Hop : forall x, opens x = [] -> opens (o :: t0 ++ x) = [o]).
  { intros x Hx. change (o :: t0 ++ x) with ([o] ++ t0 ++ x).
    now rewrite !opens_app, (opens_plain t0 Hp), Hx. }
  destruct (ssl https).
  - intros H. injection H as <- <-. exists (o :: t0).
    cbn [w_trace w_calls w_files]. repeat split.
    + rewrite <- (app_nil_r t0). now apply Hop.
    + exact Hh.
    + cbn [filter]. now rewrite Ho.
  - destruct (read_into _ (c_reads c) (c_fail c)) as [[buf n] reads].
    assert (Hc : forall m,
               held (o :: t0 ++ LogError m :: close_session) = []).
    { intros m. unfold held in *.
      change (o :: t0 ++ LogError m :: close_session)
        with ([o] ++ t0 ++ LogError m :: close_session).
      rewrite !held_from_app, Hi, Hh. reflexivity. }
    assert (Hfc : forall m,
               filter is_file_event
                 (o :: t0 ++ LogError m :: close_session) = []).
    { intros m. cbn [filter]. rewrite Ho, filter_app, Hf. reflexivity. }
    destruct (contains marker_404 (c_str buf)).
    { intros H. injection H as <- <-.
      exists (o :: t0 ++ LogError NotFound404 :: close_session).
      cbn [emit w_trace w_calls w_files]. rewrite <- app_assoc.
      repeat split; auto. }
    destruct (hs n _).
    { intros H. injection H as <- <-.
      exists (o :: t0 ++ LogError HeaderReadShort :: close_session).
      cbn [emit w_trace w_calls w_files]. rewrite <- app_assoc.
      repeat split; auto. }
    intros H. injection H as <- <-.
    exists (o :: t0 ++ [OpenAppend path (e_out_opens env)]).
    assert (Hself : str_eqb path path = true) by now apply str_eqb_eq.
    split; [|split; [|split; [|split; [|split; [|split; [|split; [|split]]]]]]].
    + destruct (e_out_opens env); cbn [emit w_trace w_files];
        [destruct (w_files w path)|]; cbn [set_file emit w_trace];
        now rewrite <- app_assoc.
    + destruct (e_out_opens env); cbn [emit w_calls w_files];
        [destruct (w_files w path)|]; reflexivity.
    + now apply Hop.
    + unfold held in *.
      change (o :: t0 ++ [OpenAppend path (e_out_opens env)])
        with ([o] ++ t0 ++ [OpenAppend path (e_out_opens env)]).
      rewrite !held_from_app, Hi, Hh. reflexivity.
    + cbn [filter]. rewrite Ho, filter_app, Hf. reflexivity.
    + reflexivity.
    + reflexivity.
    + intros p Hp'. assert (Hne : str_eqb p path = false).
      { destruct (str_eqb p path) eqn:E; [|reflexivity].
        apply str_eqb_eq in E. contradiction. }
      destruct (e_out_opens env); cbn [emit w_files];
        [destruct (w_files w path)|]; cbn [set_file emit w_files];
        rewrite ?Hne; reflexivity.
    + unfold content_at.
      destruct (e_out_opens env); cbn [emit w_files];
        [destruct (w_files w path) eqn:F|]; cbn [set_file emit w_files];
        rewrite ?Hself, ?F; reflexivity.
Qed.

Lemma extends_refl (path : str) (f : str -> option str) : extends path f f.
Proof. split; [reflexivity|now left]. Qed.

Lemma extends_trans (path : str) (f1 f2 f3 : str -> option str) :
  extends path f1 f2 -> extends path f2 f3 -> extends path f1 f3.
Proof.
  intros [O1 P1] [O2 P2]. split.
  - intros p Hp. now rewrite O2, O1.
  - destruct P2 as [E2|[s2 E2]].
    + rewrite E2. exact P1.
    + right. destruct P1 as [E1|[s1 E1]].
      * exists s2. rewrite E2. unfold content_at. now rewrite E1.
      * exists (s1 ++ s2). rewrite E2. unfold content_at at 1.
        now rewrite E1, app_assoc.
Qed.

Lemma str_eqb_refl (a : str) : str_eqb a a = true.
Proof. now apply str_eqb_eq. Qed.

Lemma str_eqb_neq (a b : str) : a <> b -> str_eqb a b = false.
Proof.
  intros H. destruct (str_eqb a b) eqn:E; [|reflexivity].
  apply str_eqb_eq in E. contradiction.
Qed.

Lemma extends_write (path data : str) (w : World) (c : option str) :
  c = Some (content_at (w_files w) path ++ data) ->
  extends path (w_files w) (w_files (set_file w path c)).
Proof.
  intros ->. split; cbn [set_file w_files].
  - intros p Hp. now rewrite str_eqb_neq.
  - right. exists data. now rewrite str_eqb_refl.
Qed.

Lemma loop_event_inert (path : str) (t : list Event) :
  forallb (loop_event path) t = true -> forallb inert t = true.
Proof.
  induction t as [|e t IH]; [reflexivity|]. simpl.
  intros H. apply andb_prop in H as [He Ht]. rewrite (IH Ht).
  destruct e; try discriminate He; reflexivity.
Qed.

Lemma read_into_count (buffer : str) (reads : list str) (fail : bool) :
  0 <= snd (fst (read_into buffer reads fail)) < 2 ^ 32.
Proof.
  unfold read_into. destruct (SSL_read _ reads fail) as [[n d] r].
  cbn [fst snd]. apply Z.mod_pos_bound. lia.
Qed.

(** One pass through the loop body. *)
Lemma loop_body_effect (env : Env) (path : str) (st : Loop) (w w' : World)
  (r : Flow Loop) :
  loop_body env path st w = (r, w') ->
  exists t,
    w_trace w' = w_trace w ++ t
    /\ forallb (loop_event path) t = true
    /\ extends path (w_files w) (w_files w')
    /\ (e_out_opens env = false -> w_files w' = w_files w)
    /\ match r with
       | Next st' =>
           e_out_opens env = true ->
           counter_agrees path st w -> counter_agrees path st' w'
       | Return _ => False
       | Raise f => f = OutOfBounds
       end.
Proof.
  unfold loop_body, bind, call_progress, outfile_write, trace, ret, raise.
  destruct (pause (l_state st)); cbn [negb].
  - (* paused *)
    cbn [emit w_files w_calls w_trace l_state].
    destruct (e_callback env) as [cb|]; intros H; injection H as <- <-;
      cbn [w_trace w_files].
    + exists [Sleep; Progress (w_calls w)]. rewrite <- app_assoc.
      repeat split; try reflexivity. now left. now intros _ C.
    + exists [Sleep]. repeat split; try reflexivity. now left.
      now intros _ C.
  - pose proof (read_into_count (l_buffer st) (l_reads st) (l_fail st)) as Hn.
    destruct (read_into (l_buffer st) (l_reads st) (l_fail st))
      as [[buf n] reads]. cbn [fst snd] in Hn.
    destruct (n =? 0) eqn:Z0; cbn [negb].
    + (* nothing read *)
      cbn [l_state].
      destruct (e_callback env) as [cb|]; intros H; injection H as <- <-;
        cbn [w_trace w_files].
      * exists [Progress (w_calls w)].
        repeat split; try reflexivity. now left. now intros _ C.
      * exists []. rewrite app_nil_r.
        repeat split; try reflexivity. now left. now intros _ C.
    + destruct (e_out_opens env) eqn:O; cbn [andb].
      * destruct (len buf <? n) eqn:L.
        { intros H. injection H as <- <-. exists []. rewrite app_nil_r.
          repeat split; try reflexivity. now left. }
        apply Z.ltb_ge in L.
        assert (Hlen : len (firstn (Z.to_nat n) buf) = n).
        { unfold len in *. rewrite length_firstn. lia. }
        set (data := firstn (Z.to_nat n) buf) in *.
        assert (Hc : forall old,
                   content_at (w_files w) path = old ->
                   l_downloaded st mod 2 ^ 64
                     = file_length w path mod 2 ^ 64 ->
                   ((l_downloaded st + n) mod 2 ^ 64) mod 2 ^ 64
                   = Z.of_nat (List.length (old ++ data)) mod 2 ^ 64).
        { intros c <- C. rewrite length_app, Nat2Z.inj_add.
          fold (len data). rewrite Hlen, Z.mod_mod by lia.
          rewrite Z.add_mod, C, <- Z.add_mod by lia.
          unfold file_length, content_at.
          destruct (w_files w path); reflexivity. }
        unfold counter_agrees, file_length.
        destruct (w_files w path) as [old|] eqn:F;
          cbn [emit set_file w_files w_calls w_trace l_state];
          (destruct (e_callback env) as [cb|]; intros H;
           injection H as <- <-;
           cbn [emit set_file w_files w_trace l_downloaded];
           rewrite ?str_eqb_refl;
           [exists [FileWrite path data; Progress (w_calls w)];
            rewrite <- app_assoc
           |exists [FileWrite path data]];
           (split; [reflexivity|]);
           (split; [cbn [forallb loop_event]; now rewrite str_eqb_refl|]);
           (split; [apply (extends_write path data w); unfold content_at;
                    now rewrite F|]);
           (split; [discriminate|]);
           intros _ C;
           (match goal with
            | |- context [List.length (?o ++ data)] => apply (Hc o)
            | _ => apply (Hc [])
            end;
            [unfold content_at; now rewrite F
            |unfold file_length; rewrite F; exact C])).
      * cbn [l_state].
        destruct (e_callback env) as [cb|]; intros H; injection H as <- <-;
          cbn [w_trace w_files].
        -- exists [Progress (w_calls w)].
           repeat split; try reflexivity. now left. discriminate.
        -- exists []. rewrite app_nil_r.
           repeat split; try reflexivity. now left. discriminate.
Qed.

(** The whole loop. *)
Lemma stream_loop_effect (fuel : nat) (env : Env) (path : str) (st : Loop)
  (w w' : World) (r : Flow Loop) :
  stream_loop fuel env path st w = Some (r, w') ->
  exists t,
    w_trace w' = w_trace w ++ t
    /\ forallb (loop_event path) t = true
    /\ extends path (w_files w) (w_files w')
    /\ (e_out_opens env = false -> w_files w' = w_files w)
    /\ match r with
       | Next st' =>
           e_out_opens env = true ->
           counter_agrees path st w -> counter_agrees path st' w'
       | Return _ => False
       | Raise f => f = OutOfBounds
       end.
Proof.
  revert st w. induction fuel as [|fuel IH]; intros st w; cbn [stream_loop];
    destruct (download (l_state st) && negb (l_bytes_read st =? 0)).
  - discriminate.
  - intros H. injection H as <- <-. exists []. rewrite app_nil_r.
    repeat split; try reflexivity. now left. now intros _ C.
  - destruct (loop_body env path st w) as [r1 w1] eqn:B.
    destruct (loop_body_effect _ _ _ _ _ _ B) as (t1 & T1 & E1 & X1 & N1 & R1).
    destruct r1 as [st1|b|f].
    + intros H. destruct (IH _ _ H) as (t2 & T2 & E2 & X2 & N2 & R2).
      exists (t1 ++ t2). split; [now rewrite T2, T1, app_assoc|].
      split; [now rewrite forallb_app, E1, E2|].
      split; [eapply extends_trans; eassumption|].
      split; [intros O; now rewrite N2, N1|].
      destruct r; auto.
    + contradiction.
    + intros H. injection H as <- <-. exists t1. auto 10.
  - intros H. injection H as <- <-. exists []. rewrite app_nil_r.
    repeat split; try reflexivity. now left. now intros _ C.
Qed.

(** What follows the loop: the session is closed first; afterwards the only
    change to the files is the removal of the output file. *)
Lemma finish_effect (MD5 : str -> byte_array) (ss : Z -> Z -> bool)
  (env : Env) (path md5 : str) (file_size : Z) (st : Loop) (w w' : World)
  (r : Flow bool) :
  finish MD5 ss env path md5 file_size st w = (r, w') ->
  exists t,
    w_trace w' = w_trace w ++ close_session ++ t
    /\ forallb inert t = true
    /\ opens t = []
    /\ (filter is_file_event t = []
        \/ filter is_file_event t = [FileRemove path])
    /\ (forall p, p <> path -> w_files w' p = w_files w p)
    /\ (w_files w' path = w_files w path \/ w_files w' path = None)
    /\ (forall f, r <> Raise f).
Proof.
  unfold finish, bind, fail_if, calculate_md5_file, call_progress, trace,
    ret, return_, bind.
  cbn [emit w_files w_calls w_trace].
  destruct (e_callback env) as [cb|]; cbn [w_files w_calls w_trace];
    destruct (ss (l_downloaded st) file_size);
    cbn [emit w_files w_calls w_trace];
    try (intros H; injection H as <- <-;
         cbn [emit set_file w_files w_trace];
         eexists; rewrite <- ?app_assoc;
         (split; [reflexivity|]);
         repeat split; solve [reflexivity|now left
                             |destruct (download _); reflexivity
                             |left; destruct (download _); reflexivity
                             |discriminate]);
    (destruct (w_files w path) as [c|] eqn:F;
     cbn [emit w_files w_calls w_trace];
     match goal with
     | |- context [str_eqb ?a md5] => destruct (str_eqb a md5)
     end; cbn [negb emit set_file w_files w_calls w_trace];
     intros H; injection H as <- <-;
         cbn [emit set_file w_files w_trace];
     eexists; rewrite <- ?app_assoc;
     (split; [reflexivity|]);
     (split; [reflexivity|]);
     (split; [reflexivity|]);
     (split; [auto|]);
     (split; [intros p Hp; now rewrite ?str_eqb_neq|]);
     (split; [rewrite ?str_eqb_refl; auto|discriminate])).
Qed.

Lemma probe_no_file_events (t : list Event) :
  forallb probe_event t = true -> filter is_file_event t = [].
Proof.
  induction t as [|e t IH]; [reflexivity|]. simpl.
  intros H. apply andb_prop in H as [He Ht]. rewrite (IH Ht).
  destruct e; try discriminate He; reflexivity.
Qed.

Lemma bounded_none {A : Type} (m : M A) :
  (forall w, snd (m w) = w) -> bounded 0 m.
Proof.
  intros H w. exists []. rewrite H, app_nil_r. split; [reflexivity|].
  simpl. lia.
Qed.

Lemma bounded_trace (t : list Event) : opens t = [] -> bounded 0 (trace t).
Proof. intros H w. exists t. split; [reflexivity|]. rewrite H. simpl. lia. Qed.

Lemma bounded_bind {A B : Type} (n1 n2 : nat) (m : M A) (k : A -> M B) :
  bounded n1 m -> (forall a, bounded n2 (k a)) ->
  bounded (n1 + n2) (bind m k).
Proof.
  intros Hm Hk w. unfold bind. destruct (Hm w) as (t1 & T1 & B1).
  destruct (m w) as [[a|b|f] w1]; cbn [snd] in *;
    [|exists t1; split; [exact T1|lia]..].
  destruct (Hk a w1) as (t2 & T2 & B2). exists (t1 ++ t2). split.
  - now rewrite T2, T1, app_assoc.
  - rewrite opens_app, length_app. lia.
Qed.

Lemma bounded_weaken {A : Type} (n n' : nat) (m : M A) :
  (n <= n')%nat -> bounded n m -> bounded n' m.
Proof.
  intros Le H w. destruct (H w) as (t & T & B). exists t.
  split; [exact T|lia].
Qed.

Lemma bounded_fail_if (c : bool) (t : list Event) :
  opens t = [] -> bounded 0 (fail_if c t).
Proof.
  intros H. unfold fail_if. destruct c; [|now apply bounded_none].
  apply (bounded_bind 0 0); [now apply bounded_trace|].
  intros _. now apply bounded_none.
Qed.

Lemma bounded_web_response (env : Env) (url method : str) :
  bounded 1 (web_response env url method).
Proof.
  intros w. unfold web_response.
  destruct (get_web_response_step env w url method) as (t & (T & _) & P).
  exists (Open url method 0 :: t). split.
  - destruct (get_web_response env w url method) as [[r|f] w1]; exact T.
  - change (Open url method 0 :: t) with ([Open url method 0] ++ t).
    rewrite opens_app, (opens_plain t P). simpl. lia.
Qed.

Lemma bounded_probe (env : Env) (url : str) : bounded 2 (probe env url).
Proof.
  unfold probe.
  apply (bounded_bind 1 1); [apply bounded_web_response|intros response].
  apply (bounded_bind 0 1); [now apply bounded_fail_if|intros _].
  apply (bounded_bind 1 0).
  - destruct (contains marker_302 response);
      [|apply (bounded_weaken 0); [lia|now apply bounded_none]].
    destruct (regex_search match_location response) as [url'|].
    + apply (bounded_bind 1 0); [apply bounded_web_response|intros r'].
      apply (bounded_bind 0 0); [now apply bounded_fail_if|intros _].
      now apply bounded_none.
    + apply (bounded_weaken 0); [lia|].
      apply (bounded_bind 0 0); [now apply bounded_trace|intros _].
      now apply bounded_none.
  - intros ur. apply (bounded_bind 0 0); [now apply bounded_fail_if|intros _].
    now apply bounded_none.
Qed.

Lemma bounded_metadata (env : Env) (response : str) :
  bounded 0 (metadata env response).
Proof.
  unfold metadata.
  apply (bounded_bind 0 0);
    [destruct (get_content_md5 _ _); now apply bounded_none|intros md5].
  apply (bounded_bind 0 0); [now apply bounded_fail_if|intros _].
  apply (bounded_bind 0 0);
    [destruct (get_file_size _); now apply bounded_none|intros size].
  apply (bounded_bind 0 0); [now apply bounded_fail_if|intros _].
  now apply bounded_none.
Qed.

(** A statement sequence with the three properties of the probing phase,
    seen from one world. *)
Lemma calm_at {A : Type} (m : M A) (w : World) :
  quiet m -> closed m -> never_true m ->
  exists t,
    w_trace (snd (m w)) = w_trace w ++ t
    /\ w_files (snd (m w)) = w_files w
    /\ w_calls (snd (m w)) = w_calls w
    /\ forallb probe_event t = true
    /\ match fst (m w) with
       | Next _ => held t = []
       | Return b => b = false /\ held t = []
       | Raise _ => True
       end.
Proof.
  intros Q C N. destruct (Q w) as (t & (T & F & K) & P).
  destruct (C w) as (t' & T' & H). specialize (N w).
  assert (t' = t) as ->.
  { rewrite T in T'. now apply app_inv_head in T'. }
  exists t. repeat split; try assumption.
  destruct (fst (m w)) as [a|b|f]; [| |exact I].
  - apply H. discriminate.
  - split; [|apply H; discriminate].
    destruct b; [now elim N|reflexivity].
Qed.

Lemma forallb_opens (f : Event -> bool) (t : list Event) :
  forallb f t = true -> forallb f (opens t) = true.
Proof.
  induction t as [|e t IH]; [reflexivity|]. simpl.
  intros H. apply andb_prop in H as [He Ht].
  destruct (is_open e); simpl; rewrite ?He; now apply IH.
Qed.

(** Everything before the loop, by the way it ends. *)
Lemma prelude_effect (hs : Z -> Z -> bool) (env : Env) (url path : str)
  (w w1 : World) (r : Flow (str * str * (str * Z) * Loop)) :
  prelude hs env url path w = (r, w1) ->
  exists t,
    w_trace w1 = w_trace w ++ t
    /\ w_calls w1 = w_calls w
    /\ (exists heads,
          forallb probe_event heads = true
          /\ (List.length heads <= 2)%nat
          /\ (opens t = heads
              \/ exists u,
                   opens t
                   = heads ++ [Open u (lit "GET") (file_length w path)]))
    /\ match r with
       | Next (ur, m, st) =>
           held t = [Socket; SSL_handle]
           /\ filter is_file_event t = [OpenAppend path (e_out_opens env)]
           /\ l_state st = ProgressState_default
           /\ l_downloaded st = file_length w path
           /\ (forall p, p <> path -> w_files w1 p = w_files w p)
           /\ w_files w1 path
              = (if e_out_opens env
                 then Some (content_at (w_files w) path)
                 else w_files w path)
       | Return b =>
           b = false /\ held t = [] /\ filter is_file_event t = []
           /\ w_files w1 = w_files w
       | Raise _ => filter is_file_event t = [] /\ w_files w1 = w_files w
       end.
Proof.
  unfold prelude.
  assert (Q : quiet (ur <- probe env url ;; m <- metadata env (snd ur) ;;
                     ret (ur, m))).
  { apply quiet_bind; [apply quiet_probe|intros ur].
    apply quiet_bind; [apply quiet_metadata|intros m]. apply quiet_ret. }
  assert (C : closed (ur <- probe env url ;; m <- metadata env (snd ur) ;;
                      ret (ur, m))).
  { apply closed_bind; [apply closed_probe|intros ur].
    apply closed_bind; [apply closed_metadata|intros m]. apply closed_ret. }
  assert (N : never_true (ur <- probe env url ;; m <- metadata env (snd ur) ;;
                          ret (ur, m))).
  { apply never_true_bind; [apply never_true_probe|intros ur].
    apply never_true_bind; [apply never_true_metadata|intros m].
    apply never_true_ret. }
  assert (B : bounded 2 (ur <- probe env url ;; m <- metadata env (snd ur) ;;
                         ret (ur, m))).
  { apply (bounded_bind 2 0); [apply bounded_probe|intros ur].
    apply (bounded_bind 0 0); [apply bounded_metadata|intros m].
    now apply bounded_none. }
  destruct (calm_at _ w Q C N) as (t0 & T0 & F0 & K0 & P0 & H0).
  destruct (B w) as (t0' & T0' & B0).
  assert (t0' = t0) as ->.
  { rewrite T0 in T0'. now apply app_inv_head in T0'. }
  clear Q C N B T0'. revert T0 F0 K0 H0. unfold bind, ret.
  destruct (probe env url w) as [[ur|b|f] wa]; cbn [fst snd].
  - destruct (metadata env (snd ur) wa) as [[m|b|f] wb]; cbn [fst snd].
    + intros T0 F0 K0 H0.
      destruct (open_stream hs env (fst ur) path (snd ur) (snd m) wb)
        as [r2 w2] eqn:O.
      destruct (open_stream_effect _ _ _ _ _ _ _ _ _ O)
        as (t2 & T2 & K2 & G2 & R2).
      assert (L : file_length wb path = file_length w path).
      { unfold file_length. now rewrite F0. }
      assert (Hh : forall h, held t2 = h -> held (t0 ++ t2) = h).
      { intros h E. unfold held in *. now rewrite held_from_app, H0. }
      assert (Hf : forall l, filter is_file_event t2 = l ->
                             filter is_file_event (t0 ++ t2) = l).
      { intros l E. now rewrite filter_app, probe_no_file_events, E. }
      destruct r2 as [st|b|f]; intros H; injection H as <- <-;
        exists (t0 ++ t2);
        (split; [now rewrite T2, T0, app_assoc|]);
        (split; [now rewrite K2, K0|]);
        (split; [exists (opens t0); split;
                 [now apply forallb_opens
                 |split; [exact B0|];
                  right; exists (fst ur);
                  now rewrite opens_app, G2, L]|]).
      * destruct R2 as (A1 & A2 & A3 & A4 & A5 & A6).
        rewrite <- F0. rewrite <- L. auto 10.
      * destruct R2 as (A1 & A2 & A3 & A4). rewrite <- F0. auto 10.
      * contradiction.
    + intros T0 F0 K0 [-> H0] H. injection H as <- <-. exists t0.
      split; [assumption|]. split; [assumption|].
    split; [exists (opens t0); split;
            [now apply forallb_opens|split; [exact B0|now left]]|].
    repeat split; auto using probe_no_file_events.
    + intros T0 F0 K0 _ H. injection H as <- <-. exists t0.
      split; [assumption|]. split; [assumption|].
    split; [exists (opens t0); split;
            [now apply forallb_opens|split; [exact B0|now left]]|].
    repeat split; auto using probe_no_file_events.
  - intros T0 F0 K0 [-> H0] H. injection H as <- <-. exists t0.
    split; [assumption|]. split; [assumption|].
    split; [exists (opens t0); split;
            [now apply forallb_opens|split; [exact B0|now left]]|].
    repeat split; auto using probe_no_file_events.
  - intros T0 F0 K0 _ H. injection H as <- <-. exists t0.
    split; [assumption|]. split; [assumption|].
    split; [exists (opens t0); split;
            [now apply forallb_opens|split; [exact B0|now left]]|].
    repeat split; auto using probe_no_file_events.
Qed.

(** X12.  Whenever [download_file] returns a value, [true] or [false], every
    socket and SSL handle opened during the call has been closed again: the
    events the call added to the trace leave no resource held. *)
Theorem download_file_closes_sessions (MD5 : str -> byte_array)
  (hs ss : Z -> Z -> bool) (fuel : nat) (env : Env) (url path : str)
  (w w' : World) (b : bool) :
  download_file MD5 hs ss fuel env url path w = Some (Ret b, w') ->
  exists t, w_trace w' = w_trace w ++ t /\ held t = [].
Proof.
  unfold download_file.
  destruct (prelude hs env url path w) as [r1 w1] eqn:P.
  destruct (prelude_effect _ _ _ _ _ _ _ P) as (t1 & T1 & _ & _ & R1).
  destruct r1 as [[[ur m] st]|b1|f1].
  - destruct R1 as (H1 & _).
    destruct (stream_loop fuel env path st w1) as [[r2 w2]|] eqn:L;
      [|discriminate].
    destruct (stream_loop_effect _ _ _ _ _ _ _ L)
      as (t2 & T2 & E2 & _ & _ & R2).
    destruct r2 as [st'|b2|f2]; [|contradiction|discriminate].
    destruct (finish MD5 ss env path (fst m) (snd m) st' w2) as [r3 w3] eqn:F.
    destruct (finish_effect _ _ _ _ _ _ _ _ _ _ F) as (t3 & T3 & I3 & _).
    intros H.
    assert (w3 = w') as <-.
    { destruct r3; simpl in H; congruence. }
    exists (t1 ++ t2 ++ close_session ++ t3). split.
    + now rewrite T3, T2, T1, <- !app_assoc.
    + unfold held in *. rewrite !held_from_app, H1.
      rewrite (held_from_inert _ t2) by (eapply loop_event_inert; eassumption).
      cbn [close_session held_from remove_one].
      now rewrite held_from_inert.
  - intros H. injection H as _ <-. exists t1. now destruct R1 as (_ & H1 & _).
  - discriminate.
Qed.

Lemma download_file_closes_sessions_witness :
  exists t, w_trace demo_final = w_trace demo_world ++ t /\ held t = [].
Proof.
  apply (download_file_closes_sessions demo_md5 demo_short demo_short 10
           (demo_env demo_head [lit "hello"; lit "world"])
           demo_url demo_path demo_world demo_final true).
  vm_compute. reflexivity.
Defined.

(** X13.  Whatever way a call of [download_file] ends, no file other than
    the output file is changed, and the output file is either left as it
    was, or holds what it held before followed by the bytes appended, or has
    been removed: bytes already on disk are never overwritten. *)
Theorem download_file_only_appends_or_removes (MD5 : str -> byte_array)
  (hs ss : Z -> Z -> bool) (fuel : nat) (env : Env) (url path : str)
  (w w' : World) (r : Res bool) :
  download_file MD5 hs ss fuel env url path w = Some (r, w') ->
  (forall p, p <> path -> w_files w' p = w_files w p)
  /\ (w_files w' path = w_files w path
      \/ w_files w' path = None
      \/ exists suffix,
           w_files w' path = Some (content_at (w_files w) path ++ suffix)).
Proof.
  unfold download_file.
  destruct (prelude hs env url path w) as [r1 w1] eqn:P.
  destruct (prelude_effect _ _ _ _ _ _ _ P) as (t1 & _ & _ & _ & R1).
  assert (X1 : extends path (w_files w) (w_files w1)).
  { destruct r1 as [[[ur m] st]|b1|f1].
    - destruct R1 as (_ & _ & _ & _ & O1 & P1). split; [exact O1|].
      rewrite P1. destruct (e_out_opens env); [right; exists []|now left].
      now rewrite app_nil_r.
    - destruct R1 as (_ & _ & _ & ->). apply extends_refl.
    - destruct R1 as (_ & ->). apply extends_refl. }
  assert (Done : forall w2, extends path (w_files w) (w_files w2) ->
            (forall p, p <> path -> w_files w2 p = w_files w p)
            /\ (w_files w2 path = w_files w path
                \/ w_files w2 path = None
                \/ exists suffix,
                     w_files w2 path
                     = Some (content_at (w_files w) path ++ suffix))).
  { intros w2 [O [E|E]]; auto. }
  destruct r1 as [[[ur m] st]|b1|f1].
  - destruct (stream_loop fuel env path st w1) as [[r2 w2]|] eqn:L;
      [|discriminate].
    destruct (stream_loop_effect _ _ _ _ _ _ _ L) as (t2 & _ & _ & X2 & _ & R2).
    pose proof (extends_trans _ _ _ _ X1 X2) as X12.
    destruct r2 as [st'|b2|f2]; [|contradiction|].
    + destruct (finish MD5 ss env path (fst m) (snd m) st' w2)
        as [r3 w3] eqn:F.
      destruct (finish_effect _ _ _ _ _ _ _ _ _ _ F)
        as (t3 & _ & _ & _ & _ & O3 & P3 & _).
      intros H.
      assert (w3 = w') as <-.
      { destruct r3; simpl in H; congruence. }
      destruct (Done _ X12) as [O12 P12]. split.
      * intros p Hp. now rewrite O3, O12.
      * destruct P3 as [E3|E3]; rewrite E3; auto.
    + intros H. injection H as _ <-. now apply Done.
  - intros H. injection H as _ <-. now apply Done.
  - intros H. injection H as _ <-. now apply Done.
Qed.

Lemma download_file_only_appends_or_removes_witness :
  (forall p, p <> demo_path -> w_files demo_final p = w_files demo_world p)
  /\ (w_files demo_final demo_path = w_files demo_world demo_path
      \/ w_files demo_final demo_path = None
      \/ exists suffix,
           w_files demo_final demo_path
           = Some (content_at (w_files demo_world) demo_path ++ suffix)).
Proof.
  apply (download_file_only_appends_or_removes demo_md5 demo_short demo_short
           10 (demo_env demo_head [lit "hello"; lit "world"])
           demo_url demo_path demo_world demo_final (Ret true)).
  vm_compute. reflexivity.
Defined.

(** X14.  A call of [download_file] opens at most three connections, in
    this order: first the [HEAD] connections of the probing phase, at most
    two and all at offset 0, then at most one [GET] connection, whose offset
    is the length the output file had when the call started (0 when there
    was none).  Nothing is opened afterwards. *)
Theorem download_file_resumes_at_file_length (MD5 : str -> byte_array)
  (hs ss : Z -> Z -> bool) (fuel : nat) (env : Env) (url path : str)
  (w w' : World) (r : Res bool) :
  download_file MD5 hs ss fuel env url path w = Some (r, w') ->
  exists t heads,
    w_trace w' = w_trace w ++ t
    /\ forallb probe_event heads = true
    /\ (List.length heads <= 2)%nat
    /\ (opens t = heads
        \/ exists u,
             opens t = heads ++ [Open u (lit "GET") (file_length w path)]).
Proof.
  unfold download_file.
  destruct (prelude hs env url path w) as [r1 w1] eqn:P.
  destruct (prelude_effect _ _ _ _ _ _ _ P)
    as (t1 & T1 & _ & (heads & Hh & Hl & G1) & R1).
  assert (Done : forall t2, opens t2 = [] ->
            opens (t1 ++ t2) = heads
            \/ exists u,
                 opens (t1 ++ t2)
                 = heads ++ [Open u (lit "GET") (file_length w path)]).
  { intros t2 E. rewrite opens_app, E, app_nil_r. exact G1. }
  assert (Loop : forall t2, forallb (loop_event path) t2 = true ->
                            opens t2 = []).
  { induction t2 as [|e t2 IH]; [reflexivity|]. simpl.
    intros H. apply andb_prop in H as [He Ht].
    destruct e; try discriminate He; now apply IH. }
  destruct r1 as [[[ur m] st]|b1|f1].
  - destruct (stream_loop fuel env path st w1) as [[r2 w2]|] eqn:L;
      [|discriminate].
    destruct (stream_loop_effect _ _ _ _ _ _ _ L) as (t2 & T2 & E2 & _).
    destruct r2 as [st'|b2|f2].
    + destruct (finish MD5 ss env path (fst m) (snd m) st' w2)
        as [r3 w3] eqn:F.
      destruct (finish_effect _ _ _ _ _ _ _ _ _ _ F) as (t3 & T3 & _ & O3 & _).
      intros H.
      assert (w3 = w') as <-.
      { destruct r3; simpl in H; congruence. }
      exists (t1 ++ t2 ++ close_session ++ t3), heads.
      split; [now rewrite T3, T2, T1, <- !app_assoc|].
      split; [exact Hh|]. split; [exact Hl|]. apply Done.
      rewrite !opens_app, O3, (Loop _ E2). reflexivity.
    + intros H. injection H as _ <-. exists (t1 ++ t2), heads.
      split; [now rewrite T2, T1, app_assoc|].
      split; [exact Hh|]. split; [exact Hl|].
      apply Done. now apply Loop.
    + intros H. injection H as _ <-. exists (t1 ++ t2), heads.
      split; [now rewrite T2, T1, app_assoc|].
      split; [exact Hh|]. split; [exact Hl|].
      apply Done. now apply Loop.
  - intros H. injection H as _ <-. exists t1, heads. auto 6.
  - intros H. injection H as _ <-. exists t1, heads. auto 6.
Qed.

Lemma download_file_resumes_at_file_length_witness :
  exists t heads,
    w_trace demo_final = w_trace demo_world ++ t
    /\ forallb probe_event heads = true
    /\ (List.length heads <= 2)%nat
    /\ (opens t = heads
        \/ exists u,
             opens t
             = heads
               ++ [Open u (lit "GET") (file_length demo_world demo_path)]).
Proof.
  apply (download_file_resumes_at_file_length demo_md5 demo_short demo_short
           10 (demo_env demo_head [lit "hello"; lit "world"])
           demo_url demo_path demo_world demo_final (Ret true)).
  vm_compute. reflexivity.
Defined.

(** X15.  When the loop of [download_file] is left normally and the output
    file could be opened, the counter [downloaded_file_size] that the final
    size test uses is the length of the output file (as a [uint64_t]): what
    was on disk at the start plus every byte written.  When the output file
    could not be opened the loop still runs, and no file is changed. *)
Theorem downloaded_size_is_file_length (hs : Z -> Z -> bool) (fuel : nat)
  (env : Env) (url path : str) (w w1 w2 : World) (ur : str * str)
  (m : str * Z) (st st' : Loop) :
  prelude hs env url path w = (Next (ur, m, st), w1) ->
  stream_loop fuel env path st w1 = Some (Next st', w2) ->
  if e_out_opens env
  then l_downloaded st' mod 2 ^ 64 = file_length w2 path mod 2 ^ 64
  else forall p, w_files w2 p = w_files w p.
Proof.
  intros P L.
  destruct (prelude_effect _ _ _ _ _ _ _ P)
    as (t1 & _ & _ & _ & _ & _ & _ & D1 & O1 & P1).
  destruct (stream_loop_effect _ _ _ _ _ _ _ L) as (t2 & _ & _ & _ & N2 & R2).
  destruct (e_out_opens env).
  - apply R2; [reflexivity|]. unfold counter_agrees, file_length.
    rewrite D1, P1. unfold file_length, content_at.
    destruct (w_files w path); reflexivity.
  - intros p. rewrite N2 by reflexivity.
    destruct (list_eq_dec ascii_dec p path) as [->|Hp]; auto.
Qed.

Lemma downloaded_size_is_file_length_witness :
  l_downloaded demo_exit_state mod 2 ^ 64
  = file_length (snd demo_exit) demo_path mod 2 ^ 64.
Proof.
  apply (downloaded_size_is_file_length demo_short 10
           (demo_env demo_head [lit "hello"; lit "world"])
           demo_url demo_path demo_world (snd demo_pre) (snd demo_exit)
           (fst (fst demo_entry)) (snd (fst demo_entry))
           (snd demo_entry) demo_exit_state);
    vm_compute; reflexivity.
Defined.

(** One pass of a caller that does not pause, on a connection that does not
    fail: the next chunk is consumed, and once there is none left the read
    count is 0. *)
Lemma loop_body_consumes (env : Env) (path : str) (st st' : Loop)
  (w w' : World) :
  l_fail st = false ->
  pause (l_state st) = false ->
  (forall cb k, e_callback env = Some cb -> pause (cb k) = false) ->
  loop_body env path st w = (Next st', w') ->
  l_fail st' = false
  /\ pause (l_state st') = false
  /\ l_reads st' = tl (l_reads st)
  /\ (l_reads st = [] -> l_bytes_read st' = 0).
Proof.
  intros Hf Hp Hcb. unfold loop_body, bind, call_progress, outfile_write,
    trace, ret, raise, read_into, SSL_read.
  rewrite Hp, Hf. cbn [negb].
  destruct (l_reads st) as [|d rs]; cbn [tl].
  - rewrite Z.mod_0_l by lia. cbn [Z.eqb negb l_state].
    destruct (e_callback env) as [cb|] eqn:E; intros H;
      injection H as <- <-; cbn [l_fail l_state l_reads l_bytes_read];
      repeat split; eauto.
  - match goal with
    | |- context [negb (?n =? 0)] => destruct (n =? 0)
    end; cbn [negb l_state].
    + destruct (e_callback env) as [cb|] eqn:E; intros H;
        injection H as <- <-; cbn [l_fail l_state l_reads l_bytes_read];
        repeat split; eauto; discriminate.
    + match goal with
      | |- context [if ?c then (fun _ => (Raise _, _)) else _] => destruct c
      end; [discriminate|].
      destruct (e_out_opens env); [destruct (w_files w path)|];
        cbn [l_state];
        (destruct (e_callback env) as [cb|] eqn:E; intros H;
         injection H as <- <-; cbn [l_fail l_state l_reads l_bytes_read];
         repeat split; eauto; discriminate).
Qed.

(** X16.  The loop of [download_file] ends: when the connection does not
    fail and the caller's callback never asks for a pause (or there is no
    callback), the loop is left after at most one pass per chunk the
    connection still delivers, plus one. *)
Theorem stream_loop_ends (env : Env) (path : str) (st : Loop) (w : World) :
  l_fail st = false ->
  pause (l_state st) = false ->
  (forall cb k, e_callback env = Some cb -> pause (cb k) = false) ->
  exists r, stream_loop (S (List.length (l_reads st))) env path st w = Some r.
Proof.
  intros Hf Hp Hcb.
  remember (List.length (l_reads st)) as n eqn:En.
  revert st w Hf Hp En. induction n as [|n IH]; intros st w Hf Hp En;
    cbn [stream_loop];
    (destruct (download (l_state st) && negb (l_bytes_read st =? 0));
     [|eauto]);
    destruct (loop_body env path st w) as [[st'|b|f] w'] eqn:B; eauto;
    destruct (loop_body_consumes _ _ _ _ _ _ Hf Hp Hcb B)
      as (Hf' & Hp' & Hr & Hz).
  - destruct (l_reads st); [|discriminate En].
    rewrite (Hz eq_refl), andb_false_r. eauto.
  - apply IH; try assumption. rewrite Hr.
    destruct (l_reads st); [discriminate En|]. cbn [tl].
    now injection En.
Qed.

Lemma stream_loop_ends_witness :
  exists r,
    stream_loop 3 (with_callback (demo_env demo_head []) cancel_at_once)
      demo_path demo_loop_state demo_world
    = Some r.
Proof.
  apply (stream_loop_ends (with_callback (demo_env demo_head [])
                             cancel_at_once)
           demo_path demo_loop_state demo_world);
    [reflexivity|reflexivity|].
  intros cb k H. injection H as <-. reflexivity.
Defined.

(** One pass over a chunk that fits the buffer, without a callback. *)
Lemma loop_body_chunk (env : Env) (path : str) (st : Loop) (w : World)
  (d old : str) (rs : list str) :
  e_callback env = None ->
  e_out_opens env = true ->
  l_fail st = false ->
  l_state st = ProgressState_default ->
  len (l_buffer st) < 2 ^ 32 ->
  l_reads st = d :: rs ->
  d <> [] ->
  (List.length d <= List.length (l_buffer st))%nat ->
  w_files w path = Some old ->
  loop_body env path st w
  = (Next {| l_reads := rs; l_fail := false;
             l_buffer := d ++ skipn (List.length d) (l_buffer st);
             l_bytes_read := len d;
             l_downloaded := (l_downloaded st + len d) mod 2 ^ 64;
             l_state := ProgressState_default |},
     emit (set_file w path (Some (old ++ d))) [FileWrite path d]).
Proof.
  intros Hcb Ho Hf Hs Hb Hr Hd Hl Hw.
  unfold loop_body, bind, call_progress, outfile_write, trace, ret, raise,
    read_into, SSL_read.
  rewrite Hs, Hr, Hf, Hcb, Ho. cbn [pause ProgressState_default negb].
  unfold len in *.
  assert (E1 : firstn (Z.to_nat (Z.of_nat (List.length (l_buffer st))
                                 mod 2 ^ 32)) d = d).
  { apply firstn_all2. rewrite Z.mod_small by lia. lia. }
  rewrite E1.
  assert (E2 : Z.of_nat (List.length d) mod 2 ^ 32 = Z.of_nat (List.length d)).
  { apply Z.mod_small. lia. }
  rewrite E2.
  assert (E3 : (Z.of_nat (List.length d) =? 0) = false).
  { apply Z.eqb_neq. destruct d; [contradiction|]. simpl. lia. }
  rewrite E3. cbn [negb andb].
  assert (E4 : (Z.of_nat (List.length
                            (d ++ skipn (List.length d) (l_buffer st)))
                <? Z.of_nat (List.length d)) = false).
  { apply Z.ltb_ge. rewrite length_app. lia. }
  rewrite E4, Hw, Nat2Z.id.
  rewrite firstn_app, firstn_all, Nat.sub_diag, firstn_O, app_nil_r.
  reflexivity.
Qed.

(** X17.  Without a progress callback, with the output file open and a
    connection that delivers its chunks whole (none empty, none larger than
    the read buffer) and then ends, the loop of [download_file] appends
    exactly the chunks, in order, to what the output file held, and adds
    their total length to the counter. *)
Theorem stream_loop_copies_stream (env : Env) (path : str) (st : Loop)
  (w : World) (old : str) :
  e_callback env = None ->
  e_out_opens env = true ->
  l_fail st = false ->
  l_state st = ProgressState_default ->
  l_bytes_read st <> 0 ->
  len (l_buffer st) < 2 ^ 32 ->
  Forall (fun d => d <> []
                   /\ (List.length d <= List.length (l_buffer st))%nat)
         (l_reads st) ->
  w_files w path = Some old ->
  exists st' w',
    stream_loop (S (List.length (l_reads st))) env path st w
    = Some (Next st', w')
    /\ w_files w' path = Some (old ++ List.concat (l_reads st))
    /\ l_downloaded st' mod 2 ^ 64
       = (l_downloaded st + len (List.concat (l_reads st))) mod 2 ^ 64.
Proof.
  intros Hcb Ho.
  remember (l_reads st) as chunks eqn:Er.
  revert st w old Er.
  induction chunks as [|d rs IH]; intros st w old Er Hf Hs Hn Hb Hall Hw;
    cbn [stream_loop List.length];
    rewrite Hs; cbn [download ProgressState_default];
    apply Z.eqb_neq in Hn; rewrite Hn; cbn [negb andb].
  - unfold loop_body, bind, call_progress, outfile_write, trace, ret, raise,
      read_into, SSL_read.
    rewrite Hs, <- Er, Hf, Hcb. cbn [pause ProgressState_default negb].
    rewrite Z.mod_0_l by lia. cbn [Z.eqb negb l_state l_bytes_read andb].
    rewrite andb_false_r.
    eexists _, _. split; [reflexivity|].
    cbn [List.concat l_downloaded]. unfold len. cbn [List.length].
    rewrite app_nil_r, Z.add_0_r. auto.
  - inversion Hall as [|d' rs' [Hd Hl] Hrest]; subst d' rs'.
    rewrite (loop_body_chunk env path st w d old rs) by auto.
    edestruct (IH {| l_reads := rs; l_fail := false;
                     l_buffer := d ++ skipn (List.length d) (l_buffer st);
                     l_bytes_read := len d;
                     l_downloaded := (l_downloaded st + len d) mod 2 ^ 64;
                     l_state := ProgressState_default |}
                  (emit (set_file w path (Some (old ++ d)))
                        [FileWrite path d])
                  (old ++ d))
      as (st' & w' & L & F & C).
    + reflexivity.
    + reflexivity.
    + reflexivity.
    + cbn [l_bytes_read]. unfold len. destruct d; [contradiction|].
      simpl. lia.
    + cbn [l_buffer]. unfold len in *. rewrite length_app, length_skipn.
      lia.
    + cbn [l_buffer]. rewrite length_app, length_skipn.
      eapply Forall_impl; [|exact Hrest]. intros a [Ha La]. split; [exact Ha|].
      lia.
    + cbn [emit set_file w_files]. now rewrite str_eqb_refl.
    + cbn [l_reads] in L. exists st', w'. split; [exact L|].
      split; [now rewrite F, <- app_assoc|].
      rewrite C. cbn [l_downloaded List.concat]. unfold len.
      rewrite length_app, Nat2Z.inj_add, Zplus_mod_idemp_l, Z.add_assoc.
      reflexivity.
Qed.

Lemma stream_loop_copies_stream_witness :
  exists st' w',
    stream_loop 3 (demo_env demo_head []) demo_path demo_loop_state
      (set_file demo_world demo_path (Some (lit "ab")))
    = Some (Next st', w')
    /\ w_files w' demo_path
       = Some (lit "ab" ++ List.concat [lit "hello"; lit "world"])
    /\ l_downloaded st' mod 2 ^ 64
       = (0 + len (List.concat [lit "hello"; lit "world"])) mod 2 ^ 64.
Proof.
  apply (stream_loop_copies_stream (demo_env demo_head []) demo_path
           demo_loop_state
           (set_file demo_world demo_path (Some (lit "ab"))) (lit "ab"));
    try reflexivity.
  - discriminate.
  - repeat constructor; try discriminate; simpl; lia.
Defined.

Lemma loop_file_events (path : str) (t : list Event) :
  forallb (loop_event path) t = true ->
  forallb (is_write_to path) (filter is_file_event t) = true.
Proof.
  induction t as [|e t IH]; [reflexivity|]. simpl.
  intros H. apply andb_prop in H as [He Ht].
  destruct e; try discriminate He; simpl in *; rewrite ?He; now apply IH.
Qed.

(** X18.  The file operations of a call of [download_file], in order, are:
    none at all; or the opening of the output file for appending followed
    by writes to that file only; or these followed by the removal of that
    file as the last operation.  No other path is ever opened, written or
    removed. *)
Theorem download_file_file_operations (MD5 : str -> byte_array)
  (hs ss : Z -> Z -> bool) (fuel : nat) (env : Env) (url path : str)
  (w w' : World) (r : Res bool) :
  download_file MD5 hs ss fuel env url path w = Some (r, w') ->
  exists t writes,
    w_trace w' = w_trace w ++ t
    /\ forallb (is_write_to path) writes = true
    /\ (filter is_file_event t = []
        \/ filter is_file_event t
           = OpenAppend path (e_out_opens env) :: writes
        \/ filter is_file_event t
           = OpenAppend path (e_out_opens env) :: writes
               ++ [FileRemove path]).
Proof.
  unfold download_file.
  destruct (prelude hs env url path w) as [r1 w1] eqn:P.
  destruct (prelude_effect _ _ _ _ _ _ _ P) as (t1 & T1 & _ & _ & R1).
  destruct r1 as [[[ur m] st]|b1|f1].
  - destruct R1 as (_ & F1 & _).
    destruct (stream_loop fuel env path st w1) as [[r2 w2]|] eqn:L;
      [|discriminate].
    destruct (stream_loop_effect _ _ _ _ _ _ _ L) as (t2 & T2 & E2 & _).
    apply loop_file_events in E2.
    destruct r2 as [st'|b2|f2].
    + destruct (finish MD5 ss env path (fst m) (snd m) st' w2)
        as [r3 w3] eqn:F.
      destruct (finish_effect _ _ _ _ _ _ _ _ _ _ F)
        as (t3 & T3 & _ & _ & F3 & _).
      intros H.
      assert (w3 = w') as <-.
      { destruct r3; simpl in H; congruence. }
      exists (t1 ++ t2 ++ close_session ++ t3), (filter is_file_event t2).
      split; [now rewrite T3, T2, T1, <- !app_assoc|].
      split; [exact E2|]. rewrite !filter_app, F1.
      cbn [close_session filter is_file_event app].
      destruct F3 as [-> | ->]; [rewrite app_nil_r|]; auto.
    + intros H. injection H as _ <-.
      exists (t1 ++ t2), (filter is_file_event t2).
      split; [now rewrite T2, T1, app_assoc|].
      split; [exact E2|]. rewrite filter_app, F1. auto.
    + intros H. injection H as _ <-.
      exists (t1 ++ t2), (filter is_file_event t2).
      split; [now rewrite T2, T1, app_assoc|].
      split; [exact E2|]. rewrite filter_app, F1. auto.
  - intros H. injection H as _ <-. exists t1, [].
    destruct R1 as (_ & _ & F1 & _). auto.
  - intros H. injection H as _ <-. exists t1, [].
    destruct R1 as (F1 & _). auto.
Qed.

Lemma download_file_file_operations_witness :
  exists t writes,
    w_trace demo_final = w_trace demo_world ++ t
    /\ forallb (is_write_to demo_path) writes = true
    /\ (filter is_file_event t = []
        \/ filter is_file_event t
           = OpenAppend demo_path
               (e_out_opens (demo_env demo_head [lit "hello"; lit "world"]))
               :: writes
        \/ filter is_file_event t
           = OpenAppend demo_path
               (e_out_opens (demo_env demo_head [lit "hello"; lit "world"]))
               :: writes ++ [FileRemove demo_path]).
Proof.
  apply (download_file_file_operations demo_md5 demo_short demo_short 10
           (demo_env demo_head [lit "hello"; lit "world"])
           demo_url demo_path demo_world demo_final (Ret true)).
  vm_compute. reflexivity.
Defined.

(** ** URL parsing: the parts reassemble the URL *)

Lemma starts_with_split (p s : str) :
  starts_with p s = true -> s = p ++ skipn (List.length p) s.
Proof.
  revert s. induction p as [|a p IH]; intros s H; [reflexivity|].
  destruct s as [|b s]; [discriminate|]. simpl in H.
  apply andb_prop in H as [E H]. apply Ascii.eqb_eq in E as ->.
  simpl. f_equal. now apply IH.
Qed.

Lemma find_some_starts (pat s : str) (k : nat) :
  find pat s = Some k -> starts_with pat (skipn k s) = true.
Proof.
  revert k. induction s as [|c s IH]; intros k; cbn [find].
  - destruct (starts_with pat []) eqn:E; [|discriminate].
    intros H. injection H as <-. exact E.
  - destruct (starts_with pat (c :: s)) eqn:E.
    + intros H. injection H as <-. exact E.
    + destruct (find pat s) as [j|]; [|discriminate].
      intros H. injection H as <-. cbn [skipn]. now apply IH.
Qed.

Lemma find_some_le (pat s : str) (k : nat) :
  find pat s = Some k -> (k <= List.length s)%nat.
Proof.
  revert k. induction s as [|c s IH]; intros k; cbn [find].
  - destruct (starts_with pat []); [|discriminate].
    intros H. injection H as <-. simpl. lia.
  - destruct (starts_with pat (c :: s)).
    + intros H. injection H as <-. simpl. lia.
    + destruct (find pat s) as [j|]; [|discriminate].
      intros H. injection H as <-. specialize (IH j eq_refl). simpl. lia.
Qed.

Lemma find_some_bound (pat s : str) (k : nat) :
  find pat s = Some k -> (k + List.length pat <= List.length s)%nat.
Proof.
  intros H. pose proof (find_some_le _ _ _ H) as Le.
  apply find_some_starts in H. apply starts_with_split in H.
  apply (f_equal (@List.length ascii)) in H.
  rewrite length_app, !length_skipn in H. lia.
Qed.

Lemma find_split (pat s : str) (k : nat) :
  find pat s = Some k ->
  s = firstn k s ++ pat ++ skipn (k + List.length pat) s.
Proof.
  intros H. apply find_some_starts in H. apply starts_with_split in H.
  rewrite skipn_skipn, (Nat.add_comm (List.length pat)) in H.
  rewrite <- H. symmetry. apply firstn_skipn.
Qed.

Lemma find_char_first (c : ascii) (s : str) (k : nat) :
  find [c] s = Some k -> find [c] (firstn k s) = None.
Proof.
  revert k. induction s as [|x s IH]; intros k; cbn [find starts_with].
  - discriminate.
  - destruct (Ascii.eqb c x) eqn:E; cbn [andb].
    + intros H. injection H as <-. reflexivity.
    + destruct (find [c] s) as [j|] eqn:F; [|discriminate].
      intros H. injection H as <-. cbn [firstn find starts_with].
      rewrite E. cbn [andb]. now rewrite (IH j).
Qed.

(** X19.  For every URL string, what the parser of [init] returns fits the
    URL: without [://] both parts are empty; otherwise the host is the text
    between the first [://] and the next [/], it contains no [/], and the
    path is the rest of the URL from that [/] on, or ["/"] when the URL ends
    with the host. *)
Theorem parse_url_parts (url host uri : str) :
  parse_url url = (host, uri) ->
  (contains (lit "://") url = false /\ host = [] /\ uri = [])
  \/ exists scheme,
       find (lit "://") url = Some (List.length scheme)
       /\ contains (lit "/") host = false
       /\ ((url = scheme ++ lit "://" ++ host ++ uri
            /\ starts_with (lit "/") uri = true)
           \/ (url = scheme ++ lit "://" ++ host /\ uri = lit "/")).
Proof.
  unfold parse_url, contains.
  destruct (find (lit "://") url) as [k|] eqn:F; [|intros H; left].
  2: { injection H as <- <-. auto. }
  pose proof (find_some_bound _ _ _ F) as B.
  pose proof (find_split _ _ _ F) as S.
  change (List.length (lit "://")) with 3%nat in B, S.
  assert (Lk : List.length (firstn k url) = k) by (rewrite length_firstn; lia).
  unfold find_from.
  destruct (k + 3 <=? List.length url)%nat eqn:Le;
    [|apply Nat.leb_gt in Le; lia].
  set (rest := skipn (k + 3) url) in *.
  destruct (find (lit "/") rest) as [j|] eqn:G; cbn [option_map];
    intros H; injection H as <- <-; right; exists (firstn k url);
    rewrite Lk; (split; [reflexivity|]).
  - unfold substr. replace (k + 3 + j - (k + 3))%nat with j by lia.
    fold rest. split.
    + change (lit "/") with ["/"%char] in *. now rewrite find_char_first.
    + left. split.
      * rewrite Nat.add_comm with (n := (k + 3)%nat), <- skipn_skipn.
        fold rest. now rewrite firstn_skipn.
      * rewrite Nat.add_comm with (n := (k + 3)%nat), <- skipn_skipn.
        fold rest. now apply find_some_starts.
  - split; [now rewrite G|]. right. split; [exact S|reflexivity].
Qed.

Lemma parse_url_parts_witness :
  (contains (lit "://") demo_url = false
   /\ lit "example.org" = [] /\ lit "/a.zip" = [])
  \/ exists scheme,
       find (lit "://") demo_url = Some (List.length scheme)
       /\ contains (lit "/") (lit "example.org") = false
       /\ ((demo_url = scheme ++ lit "://" ++ lit "example.org" ++ lit "/a.zip"
            /\ starts_with (lit "/") (lit "/a.zip") = true)
           \/ (demo_url = scheme ++ lit "://" ++ lit "example.org"
               /\ lit "/a.zip" = lit "/")).
Proof.
  apply (parse_url_parts demo_url (lit "example.org") (lit "/a.zip")).
  reflexivity.
Defined.

(** ** What [true] guarantees *)

(** X20.  When [download_file] returns [true], the output file exists when
    the call ends and the rendered MD5 of its contents is exactly the string
    decoded from the [Content-MD5] header of the response the probing phase
    settled on. *)
Theorem download_file_true_file_verified (MD5 : str -> byte_array)
  (hs ss : Z -> Z -> bool) (fuel : nat) (env : Env) (url path : str)
  (w w' : World) :
  download_file MD5 hs ss fuel env url path w = Some (Ret true, w') ->
  exists ur wa content,
    probe env url w = (Next ur, wa)
    /\ w_files w' path = Some content
    /\ get_content_md5 (e_stack env) (snd ur)
       = Ret (convert_md5_bytes_to_str (MD5 content)).
Proof.
  unfold download_file.
  destruct (prelude hs env url path w) as [[[[ur m] st0]|b0|f] w1] eqn:P.
  - destruct (prelude_next _ _ _ _ _ _ _ _ _ P) as (wa & Hp & Hm & _).
    apply metadata_next in Hm as (_ & Hmd5 & Hne & _).
    destruct (stream_loop fuel env path st0 w1) as [[[st|b1|f1] w2]|] eqn:L;
      try discriminate.
    + destruct (ss (l_downloaded st) (snd m)) eqn:S.
      * destruct (finish_size_short MD5 ss env path (fst m) (snd m) st w2 S)
          as (wf & t & F & _).
        rewrite F. discriminate.
      * destruct (finish_size_ok MD5 ss env path (fst m) (snd m) st w2 S)
          as (Hok & Hbad).
        destruct (list_eq_dec ascii_dec (file_digest MD5 w2 path) (fst m))
          as [D|D].
        -- destruct (Hok D) as (wf & F & Hf). rewrite F. cbn [result_of].
           intros H. injection H as <-.
           unfold file_digest in D. rewrite Hf.
           destruct (w_files w2 path) as [content|].
           ++ exists ur, wa, content. rewrite D. auto.
           ++ rewrite <- D in Hne. discriminate.
        -- destruct (Hbad D) as (wf & t & F & _). rewrite F. discriminate.
    + destruct (stream_loop_effect _ _ _ _ _ _ _ L) as (t & _ & _ & _ & _ & R).
      contradiction.
  - intros H. injection H as -> _.
    pose proof (never_true_prelude hs env url path w) as N.
    rewrite P in N. now elim N.
  - discriminate.
Qed.

Lemma download_file_true_file_verified_witness :
  exists ur wa content,
    probe (demo_env demo_head [lit "hello"; lit "world"]) demo_url demo_world
    = (Next ur, wa)
    /\ w_files demo_final demo_path = Some content
    /\ get_content_md5
         (e_stack (demo_env demo_head [lit "hello"; lit "world"])) (snd ur)
       = Ret (convert_md5_bytes_to_str (demo_md5 content)).
Proof.
  apply (download_file_true_file_verified demo_md5 demo_short demo_short 10
           (demo_env demo_head [lit "hello"; lit "world"])
           demo_url demo_path demo_world demo_final).
  vm_compute. reflexivity.
Defined.

(** ** Redirect targets *)

Lemma regex_search_some {A : Type} (m : str -> option A) (s : str) (r : A) :
  regex_search m s = Some r -> exists k, m (skipn k s) = Some r.
Proof.
  induction s as [|c s IH]; cbn [regex_search].
  - destruct (m []) eqn:E; [|discriminate]. intros H. exists 0%nat.
    now rewrite <- H.
  - destruct (m (c :: s)) eqn:E.
    + intros H. exists 0%nat. now rewrite <- H.
    + intros H. destruct (IH H) as (k & Hk). now exists (S k).
Qed.

Lemma parse_url_after_scheme (scheme run : str) :
  find (lit "://") (scheme ++ lit "://" ++ run)
  = Some (List.length scheme) ->
  parse_url (scheme ++ lit "://" ++ run)
  = match find (lit "/") run with
    | Some j => (firstn j run, skipn j run)
    | None => (run, lit "/")
    end.
Proof.
  intros F. unfold parse_url, find_from, substr. rewrite F.
  assert (S : skipn (List.length scheme + 3) (scheme ++ lit "://" ++ run)
              = run) by apply (skipn_past scheme (lit "://") run).
  rewrite S.
  assert (L : (List.length scheme + 3
               <=? List.length (scheme ++ lit "://" ++ run))%nat = true).
  { apply Nat.leb_le. rewrite !length_app. simpl. lia. }
  rewrite L. destruct (find (lit "/") run) as [j|]; cbn [option_map];
    [|reflexivity].
  replace (List.length scheme + 3 + j - (List.length scheme + 3))%nat
    with j by lia.
  now rewrite Nat.add_comm, <- skipn_skipn, S.
Qed.

(** X21.  The target of a redirect that [download_file] follows is always a
    URL the parser of [init] can split: it starts with [http://] or
    [https://], contains no white space, and is given a host (the text up to
    the next [/]) and a path that begins with [/]. *)
Theorem redirect_target_parses (response url' : str) :
  regex_search match_location response = Some url' ->
  forallb (fun c => negb (isspace c)) url' = true
  /\ exists scheme host uri,
       (scheme = lit "https" \/ scheme = lit "http")
       /\ parse_url url' = (host, uri)
       /\ starts_with (lit "/") uri = true
       /\ (url' = scheme ++ lit "://" ++ host ++ uri
           \/ (url' = scheme ++ lit "://" ++ host /\ uri = lit "/")).
Proof.
  intros H. apply regex_search_some in H as (k & H).
  unfold match_location in H.
  destruct (starts_with (lit "Location: ") (skipn k response));
    [|discriminate].
  set (r := skipn 10 (skipn k response)) in *.
  assert (Main : forall scheme n,
             (scheme = lit "https" \/ scheme = lit "http") ->
             match take_while (fun c => negb (isspace c)) (skipn n r) with
             | [] => None
             | run => Some (scheme ++ lit "://" ++ run)
             end = Some url' ->
             forallb (fun c => negb (isspace c)) url' = true
             /\ exists scheme host uri,
                  (scheme = lit "https" \/ scheme = lit "http")
                  /\ parse_url url' = (host, uri)
                  /\ starts_with (lit "/") uri = true
                  /\ (url' = scheme ++ lit "://" ++ host ++ uri
                      \/ (url' = scheme ++ lit "://" ++ host
                          /\ uri = lit "/"))).
  { intros scheme n Hs.
    pose proof (take_while_forallb (fun c => negb (isspace c)) (skipn n r))
      as W.
    destruct (take_while (fun c => negb (isspace c)) (skipn n r))
      as [|c run]; [discriminate|].
    intros E.
    assert (E' : url' = scheme ++ lit "://" ++ (c :: run))
      by (injection E as <-; reflexivity).
    clear E. subst url'. split.
    - rewrite !forallb_app.
      change (forallb (fun c => negb (isspace c)) (c :: run) = true) in W.
      rewrite W. destruct Hs as [-> | ->]; reflexivity.
    - assert (F : find (lit "://") (scheme ++ lit "://" ++ c :: run)
                  = Some (List.length scheme)).
      { destruct Hs as [-> | ->]; reflexivity. }
      rewrite (parse_url_after_scheme _ _ F).
      destruct (find (lit "/") (c :: run)) as [j|] eqn:G.
      + exists scheme, (firstn j (c :: run)), (skipn j (c :: run)).
        split; [exact Hs|]. split; [reflexivity|].
        split; [now apply find_some_starts|].
        left. now rewrite firstn_skipn.
      + exists scheme, (c :: run), (lit "/").
        split; [exact Hs|]. split; [reflexivity|]. split; [reflexivity|].
        right. split; reflexivity. }
  destruct (starts_with (lit "https://") r).
  - apply (Main (lit "https") 8%nat); [now left|exact H].
  - destruct (starts_with (lit "http://") r); [|discriminate].
    apply (Main (lit "http") 7%nat); [now right|exact H].
Qed.

Lemma redirect_target_parses_witness :
  forallb (fun c => negb (isspace c)) (lit "https://mirror.example/a.zip")
  = true
  /\ exists scheme host uri,
       (scheme = lit "https" \/ scheme = lit "http")
       /\ parse_url (lit "https://mirror.example/a.zip") = (host, uri)
       /\ starts_with (lit "/") uri = true
       /\ (lit "https://mirror.example/a.zip"
           = scheme ++ lit "://" ++ host ++ uri
           \/ (lit "https://mirror.example/a.zip"
               = scheme ++ lit "://" ++ host /\ uri = lit "/")).
Proof.
  apply (redirect_target_parses demo_head_302). reflexivity.
Defined.
